(** * Face-mask detection pipeline: a shallow embedding of the Python sources

    The development follows the layout of the repository:

    - [Py]              the pieces of the Python runtime the code relies on
                        (exceptions, [logging], [queue.Queue], [datetime]);
    - [TelegramBot]     [src/telegram_bot.py]   (alert cooldown);
    - [Analytics]       [src/analytics.py]      (snapshot cache);
    - [CameraManager]   [src/camera_manager.py] (capture loop, fleet start);
    - [DetectionEngine] [src/detection_engine.py] (detector, worker loop);
    - [MQTTClient]      [src/mqtt_client.py]    (handlers, publishing);
    - [System]          [start.py]              (result processing).

    Everything the code asks of the outside world (the wall clock, the HTTP
    transport, the database, OpenCV) is an explicit argument of the
    embedded function, so that every definition below computes.

    Conventions.  [time.time()] and the confidence scores are Python floats;
    they are embedded as rationals ([Q]).  The rates of the analytics are
    computed with the rounding of binary64 floats ([Py.float_of]).
    A [datetime] is the number of
    microseconds since an arbitrary midnight, which is the resolution
    Python keeps.  Only the order of the effects is modelled, not their
    duration: of [time.sleep] the embedding keeps the errors its argument
    can raise, of a blocking [get] the answer once the wait is over.  Every
    thread is followed on its own; interleavings are not modelled. *)

From Stdlib Require Import ZArith QArith Lqa Lia List String Ascii Bool Sorted.
From stdpp Require Import base option gmap strings list pretty.

Set Default Proof Using "Type".
Local Open Scope string_scope.
Local Open Scope Z_scope.
Local Open Scope list_scope.

(* ===================================================================== *)
(** * Part I: the embedding                                               *)
(* ===================================================================== *)

Module Py.

(** Exceptions.  [queue.Full] and [queue.Empty] are told apart because the
    sources catch them by class; every other error is an [Exception]
    carrying its message. *)
Inductive exn : Type :=
| Full
| Empty
| Exception (msg : string).

Definition str_exn (e : exn) : string :=
  match e with
  | Full => ""
  | Empty => ""
  | Exception msg => msg
  end.

(** A computation that either returns or raises. *)
Inductive exc (A : Type) : Type :=
| Ok (a : A)
| Raise (e : exn).
Arguments Ok {A} a.
Arguments Raise {A} e.

Definition bind {A B : Type} (m : exc A) (k : A -> exc B) : exc B :=
  match m with
  | Ok a => k a
  | Raise e => Raise e
  end.

(** [try: body except Exception as e: handler e]. *)
Definition try_except {A : Type} (body : exc A) (handler : exn -> exc A) : exc A :=
  match body with
  | Ok a => Ok a
  | Raise e => handler e
  end.

(** Code that also mutates state: the state survives a raise, as the
    attributes of a Python object do. *)
Definition M (S A : Type) : Type := S -> exc A * S.

Definition ret {S A : Type} (a : A) : M S A := fun s => (Ok a, s).

Definition raise {S A : Type} (e : exn) : M S A := fun s => (Raise e, s).

Definition sbind {S A B : Type} (m : M S A) (k : A -> M S B) : M S B :=
  fun s =>
    match m s with
    | (Ok a, s') => k a s'
    | (Raise e, s') => (Raise e, s')
    end.

Definition lift {S A : Type} (m : exc A) : M S A := fun s => (m, s).

Definition modify {S : Type} (f : S -> S) : M S unit := fun s => (Ok tt, f s).

Definition gets {S A : Type} (f : S -> A) : M S A := fun s => (Ok (f s), s).

(** [try: body except Exception as e: handler e], with state. *)
Definition try_catch {S A : Type} (body : M S A) (handler : exn -> M S A) : M S A :=
  fun s =>
    match body s with
    | (Ok a, s') => (Ok a, s')
    | (Raise e, s') => handler e s'
    end.

(** The objects a function hands back, where the property at hand is about
    the returned object itself. *)
Inductive value : Type :=
| PyNone
| PyBool (b : bool).

(** [logging]: the records a logger call appends. *)
Inductive level : Type := DEBUG | INFO | WARNING | ERROR.

Record LogRecord : Type := mkLog { levelname : level; message : string }.

Definition logger_debug (m : string) (log : list LogRecord) := log ++ [mkLog DEBUG m].
Definition logger_info (m : string) (log : list LogRecord) := log ++ [mkLog INFO m].
Definition logger_warning (m : string) (log : list LogRecord) := log ++ [mkLog WARNING m].
Definition logger_error (m : string) (log : list LogRecord) := log ++ [mkLog ERROR m].

(** [queue.Queue(maxsize)]: a FIFO; [maxsize <= 0] means unbounded. *)
Record Queue (A : Type) : Type := mkQueue { maxsize : Z; items : list A }.
Arguments mkQueue {A} maxsize items.
Arguments maxsize {A} q.
Arguments items {A} q.

Definition Queue_new {A : Type} (maxsize : Z) : Queue A := mkQueue maxsize [].

Definition qsize {A : Type} (q : Queue A) : Z := Z.of_nat (length (items q)).

Definition full {A : Type} (q : Queue A) : bool :=
  (0 <? maxsize q) && (maxsize q <=? qsize q).

Definition put_nowait {A : Type} (x : A) (q : Queue A) : exc (Queue A) :=
  if full q then Raise Full else Ok (mkQueue (maxsize q) (items q ++ [x])).

Definition get_nowait {A : Type} (q : Queue A) : exc (A * Queue A) :=
  match items q with
  | [] => Raise Empty
  | x :: rest => Ok (x, mkQueue (maxsize q) rest)
  end.

(** [datetime]: microseconds; [timedelta] is kept normalised by Python as
    (days, seconds, microseconds) with [0 <= seconds < 86400] and
    [0 <= microseconds < 10^6]. *)
Definition datetime : Type := Z.

Definition us_per_second : Z := 1000000.
Definition seconds_per_day : Z := 86400.

Record timedelta : Type := mkDelta { days : Z; seconds : Z; microseconds : Z }.

Definition timedelta_of_us (d : Z) : timedelta :=
  {| days := d / (us_per_second * seconds_per_day);
     seconds := (d / us_per_second) mod seconds_per_day;
     microseconds := d mod us_per_second |}.

Definition datetime_sub (a b : datetime) : timedelta := timedelta_of_us (a - b).

Definition timedelta_days (n : Z) : Z := n * seconds_per_day * us_per_second.

(** [dt.replace(hour=0, minute=0, second=0, microsecond=0)]. *)
Definition replace_midnight (dt : datetime) : datetime :=
  dt - dt mod (seconds_per_day * us_per_second).

(** Truthiness of an optional string ([None] and [""] are falsy). *)
Definition truthy (s : option string) : bool :=
  match s with
  | None => false
  | Some "" => false
  | Some _ => true
  end.

(** Comparison of floats, on their rational embedding. *)
Definition Qltb (x y : Q) : bool := negb (Qle_bool y x).

(** Nearest integer to [num / den], for [den > 0], ties to even. *)
Definition round_half_even (num den : Z) : Z :=
  let q := num / den in
  let r := num mod den in
  match 2 * r ?= den with
  | Lt => q
  | Gt => q + 1
  | Eq => if Z.odd q then q + 1 else q
  end.

(** The binary64 float nearest to a rational, ties to even, as the
    rational that float is: 53 significant bits, subnormals below
    [2^-1022].  The largest exponent is not modelled (from [2^1024] on
    Python raises [OverflowError] or answers [inf]); the quotients of
    counters and of sums of integer columns computed here do not get
    there. *)
Definition float_of (x : Q) : Q :=
  let n := Qnum x in
  let d := Z.pos (Qden x) in
  if n =? 0 then 0%Q
  else
    let k := Z.log2 (Z.abs n) - Z.log2 d in
    let p := if (if 0 <=? k then d * 2 ^ k <=? Z.abs n else d <=? Z.abs n * 2 ^ (- k))
             then k else k - 1 in
    let e := Z.max (p - 52) (-1074) in
    if 0 <=? e then inject_Z (round_half_even n (d * 2 ^ e) * 2 ^ e)
    else Qmake (round_half_even (n * 2 ^ (- e)) d) (Z.to_pos (2 ^ (- e))).

Definition upper_ascii (c : ascii) : ascii :=
  let n := nat_of_ascii c in
  if (Nat.leb 97 n && Nat.leb n 122)%bool then ascii_of_nat (n - 32) else c.

(** [str.upper()], on the ASCII letters. *)
Fixpoint upper (s : string) : string :=
  match s with
  | EmptyString => EmptyString
  | String c rest => String (upper_ascii c) (upper rest)
  end.

End Py.

Import Py.

Notation "'let*' x ':=' m 'in' k" := (sbind m (fun x => k))
  (at level 10, x name, m at level 100, k at level 200).
Notation "m ';;' k" := (sbind m (fun _ => k))
  (at level 100, k at level 200, right associativity).

(* --------------------------------------------------------------------- *)
(** ** src/database.py: the rows the other modules read and write         *)
(* --------------------------------------------------------------------- *)

Module Database.

(** Columns declared without [nullable=False] may hold [NULL]. *)
Record Camera : Type := mkCamera {
  id : string;
  name : string;
  type : string;
  is_active : option bool
}.

Record Detection : Type := mkDetection {
  det_camera_id : string;
  det_timestamp : datetime;
  face_count : option Z;
  mask_count : option Z;
  no_mask_count : option Z;
  confidence_score : option Q
}.

Record Alert : Type := mkAlert {
  camera_id : string;
  alert_type : string;
  severity : option string;
  alert_message : string;
  timestamp : datetime
}.

End Database.

(* --------------------------------------------------------------------- *)
(** ** src/telegram_bot.py                                                *)
(* --------------------------------------------------------------------- *)

Module TelegramBot.

(** What [requests.post] answers: a status code and whether the decoded
    body carries a truthy ['ok'] (decoding may itself raise). *)
Record Response : Type := mkResponse { status_code : Z; json_ok : exc bool }.

Abbreviation AlertModel := Database.Alert.

(** The outside world during one call. *)
Record Env : Type := mkEnv {
  time_time : Q;                              (* time.time() *)
  datetime_now : datetime;                    (* datetime.now() *)
  requests_post : string -> exc Response;     (* POST .../sendMessage, by text *)
  session_commit : AlertModel -> exc unit     (* session.add; session.commit *)
}.

(** What the calls leave behind outside the bot object. *)
Record World : Type := mkWorld {
  http_posts : list string;      (* texts handed to the Telegram API *)
  alerts : list AlertModel;      (* the alerts table *)
  log : list LogRecord
}.

Record t : Type := mkBot {
  bot_token : option string;
  chat_id : option string;
  enabled : bool;
  is_connected : bool;
  last_alert_time : gmap string Q;
  alert_cooldown : Z;
  messages_sent : Z;
  failed_messages : Z
}.

Definition set_last_alert_time (m : gmap string Q) (self : t) : t :=
  mkBot (bot_token self) (chat_id self) (enabled self) (is_connected self)
        m (alert_cooldown self) (messages_sent self) (failed_messages self).

Definition incr_messages_sent (self : t) : t :=
  mkBot (bot_token self) (chat_id self) (enabled self) (is_connected self)
        (last_alert_time self) (alert_cooldown self)
        (messages_sent self + 1) (failed_messages self).

Definition incr_failed_messages (self : t) : t :=
  mkBot (bot_token self) (chat_id self) (enabled self) (is_connected self)
        (last_alert_time self) (alert_cooldown self)
        (messages_sent self) (failed_messages self + 1).

Definition add_log (f : list LogRecord -> list LogRecord) (w : World) : World :=
  mkWorld (http_posts w) (alerts w) (f (log w)).

Definition add_post (text : string) (w : World) : World :=
  mkWorld (http_posts w ++ [text]) (alerts w) (log w).

Definition add_alert (a : AlertModel) (w : World) : World :=
  mkWorld (http_posts w) (alerts w ++ [a]) (log w).

(** [TelegramBot.send_message] *)
Definition send_message (env : Env) (message : string) (self : t) (w : World)
  : bool * t * World :=
  if negb (enabled self) || negb (truthy (bot_token self)) || negb (truthy (chat_id self))
  then (false, self, w)
  else
    let w := add_post message w in
    match requests_post env message with
    | Ok response =>
        if status_code response =? 200 then
          match json_ok response with
          | Ok true =>
              (true, incr_messages_sent self,
               add_log (logger_debug "Telegram message sent successfully") w)
          | Ok false =>
              (false, incr_failed_messages self,
               add_log (logger_error "Telegram API error") w)
          | Raise e =>
              (false, incr_failed_messages self,
               add_log (logger_error ("Failed to send Telegram message: " +:+ str_exn e)) w)
          end
        else
          (false, incr_failed_messages self,
           add_log (logger_error ("Telegram HTTP error: " +:+ pretty (status_code response))) w)
    | Raise e =>
        (false, incr_failed_messages self,
         add_log (logger_error ("Failed to send Telegram message: " +:+ str_exn e)) w)
    end.

Definition severity_emoji (severity : string) : string :=
  if String.eqb severity "low" then "ℹ️"
  else if String.eqb severity "medium" then "⚠️"
  else if String.eqb severity "high" then "🚨"
  else if String.eqb severity "critical" then "💥"
  else "⚠️".

Definition type_emoji (alert_type : string) : string :=
  if String.eqb alert_type "violation" then "🚨"
  else if String.eqb alert_type "system" then "🔧"
  else if String.eqb alert_type "camera" then "📹"
  else "📢".

Definition newline : string := String (ascii_of_nat 10) EmptyString.

Fixpoint format_metadata (items : list (string * string)) : string :=
  match items with
  | [] => ""
  | (key, v) :: rest => "• " +:+ key +:+ ": " +:+ v +:+ newline +:+ format_metadata rest
  end.

(** [TelegramBot._format_alert_message]; a metadata dict is the list of its
    items with the values already rendered. *)
Definition _format_alert_message (alert_type camera_id message severity : string)
    (metadata : option (list (string * string))) : string :=
  let formatted :=
    severity_emoji severity +:+ " " +:+ type_emoji alert_type +:+ " <b>"
      +:+ upper alert_type +:+ " ALERT</b>" +:+ newline +:+ newline +:+ message in
  match metadata with
  | Some (item :: rest) =>
      formatted +:+ newline +:+ newline +:+ "📋 <b>Additional Info:</b>" +:+ newline
        +:+ format_metadata (item :: rest)
  | _ => formatted
  end.

(** [TelegramBot._save_alert]: a database error is logged and swallowed. *)
Definition _save_alert (env : Env) (alert_type camera_id message severity : string)
    (w : World) : World :=
  let alert := Database.mkAlert camera_id alert_type (Some severity) message (datetime_now env) in
  match session_commit env alert with
  | Ok _ => add_alert alert w
  | Raise e =>
      add_log (logger_error ("Failed to save alert to database: " +:+ str_exn e)) w
  end.

Definition alert_key (camera_id alert_type : string) : string :=
  camera_id +:+ "_" +:+ alert_type.

(** The guard of [send_alert]: an entry exists and is younger than the
    cooldown. *)
Definition cooldown_active (self : t) (key : string) (current_time : Q) : bool :=
  match last_alert_time self !! key with
  | Some last =>
      let time_since_last := (current_time - last)%Q in
      Qltb time_since_last (inject_Z (alert_cooldown self))
  | None => false
  end.

(** [TelegramBot.send_alert] *)
Definition send_alert (env : Env) (alert_type camera_id message severity : string)
    (metadata : option (list (string * string))) (self : t) (w : World)
  : bool * t * World :=
  let key := alert_key camera_id alert_type in
  let current_time := time_time env in
  if cooldown_active self key current_time then
    (false, self, add_log (logger_debug ("Alert cooldown active for " +:+ key)) w)
  else
    let formatted_message :=
      _format_alert_message alert_type camera_id message severity metadata in
    let '(success, self, w) := send_message env formatted_message self w in
    if success then
      let self := set_last_alert_time (<[key := current_time]> (last_alert_time self)) self in
      let w := _save_alert env alert_type camera_id message severity w in
      (true, self, w)
    else
      (false, self, w).

(** [TelegramBot.send_violation_alert]; [now_text] is the rendering of
    [datetime.now()] by [strftime]. *)
Definition send_violation_alert (env : Env) (now_text : string)
    (camera_id camera_name : string) (violations : Z) (location : option string)
    (self : t) (w : World) : bool * t * World :=
  let message :=
    "🚨 <b>Mask Violation Detected</b>" +:+ newline +:+ newline
    +:+ "📹 Camera: " +:+ camera_name +:+ newline
    +:+ (if truthy location
         then "📍 Location: " +:+ default "" location +:+ newline
         else "")
    +:+ "👥 Violations: " +:+ pretty violations +:+ newline
    +:+ "⏰ Time: " +:+ now_text +:+ newline +:+ newline
    +:+ "Please ensure proper mask usage in this area." in
  send_alert env "violation" camera_id message "high" None self w.

(** [TelegramBot.send_system_alert] *)
Definition send_system_alert (env : Env) (now_text : string)
    (component message severity : string) (self : t) (w : World) : bool * t * World :=
  let formatted_message :=
    "🔧 <b>System Alert</b>" +:+ newline +:+ newline
    +:+ "Component: " +:+ component +:+ newline
    +:+ "Message: " +:+ message +:+ newline
    +:+ "Severity: " +:+ upper severity +:+ newline
    +:+ "Time: " +:+ now_text in
  send_alert env "system" "system" formatted_message severity None self w.

(** [TelegramBot.send_camera_alert] *)
Definition send_camera_alert (env : Env) (now_text : string)
    (camera_id camera_name alert_type message : string) (self : t) (w : World)
  : bool * t * World :=
  let formatted_message :=
    "📹 <b>Camera Alert</b>" +:+ newline +:+ newline
    +:+ "Camera: " +:+ camera_name +:+ newline
    +:+ "Type: " +:+ alert_type +:+ newline
    +:+ "Message: " +:+ message +:+ newline
    +:+ "Time: " +:+ now_text in
  send_alert env "camera" camera_id formatted_message "medium" None self w.

(** [TelegramBot.test_connection] *)
Definition test_connection (env : Env) (now_text : string) (self : t) (w : World)
  : bool * t * World :=
  let test_message :=
    "🤖 Face Mask Detection System - Connection Test" +:+ newline +:+ newline
    +:+ "Time: " +:+ now_text +:+ newline
    +:+ "Status: System is running and connected!" in
  send_message env test_message self w.

(** The dict of [TelegramBot.get_statistics]. *)
Record Statistics : Type := mkStatistics {
  stat_enabled : bool;
  stat_is_connected : bool;
  stat_messages_sent : Z;
  stat_failed_messages : Z;
  success_rate : Q
}.

(** [TelegramBot.get_statistics] *)
Definition get_statistics (self : t) : Statistics :=
  let attempts := messages_sent self + failed_messages self in
  mkStatistics (enabled self) (is_connected self) (messages_sent self) (failed_messages self)
    (if 0 <? attempts
     then float_of (float_of (inject_Z (messages_sent self) / inject_Z attempts) * 100)
     else 0%Q).

End TelegramBot.

(* --------------------------------------------------------------------- *)
(** ** src/analytics.py                                                   *)
(* --------------------------------------------------------------------- *)

Module Analytics.

Import Database.

(** Rows of the two GROUP BY queries ([func.sum] of no rows is [NULL]).
    The key is the camera id, or the hour of the day: both queries keep
    only rows whose timestamp lies in the range, so the hour extracted from
    it is never [NULL]. *)
Record GroupRow (K : Type) : Type := mkRow {
  group_key : K;
  detection_count : Z;
  sum_faces : option Z;
  sum_masks : option Z;
  sum_violations : option Z
}.
Arguments mkRow {K} _ _ _ _ _.
Arguments group_key {K} _.
Arguments detection_count {K} _.
Arguments sum_faces {K} _.
Arguments sum_masks {K} _.
Arguments sum_violations {K} _.

(** What a SQLAlchemy session answers; every query may raise. *)
Record Session : Type := mkSession {
  query_detections : datetime -> datetime -> exc (list Detection);
  query_by_camera : datetime -> datetime -> exc (list (GroupRow string));
  query_cameras : exc (list Camera);
  query_by_hour : datetime -> datetime -> exc (list (GroupRow Z));
  query_alerts : datetime -> datetime -> exc (list Alert);
  close : exc unit
}.

(** The outside world during one call of [get_analytics]: the three
    readings of [datetime.now()] (cache check, end of the range, cache
    stamp) and the database. *)
Record Env : Type := mkEnv {
  now_check : datetime;
  now_end : datetime;
  now_store : datetime;
  get_db_session : exc Session
}.

Record Stat (K : Type) : Type := mkStat {
  stat_key : K;
  stat_name : string;          (* camera rows only; [""] for hours *)
  detections : Z;
  stat_faces : Z;
  stat_masks : Z;
  stat_violations : Z;
  stat_mask_rate : Q;
  stat_violation_rate : Q
}.
Arguments mkStat {K} _ _ _ _ _ _ _ _.
Arguments stat_key {K} _.

Record Summary : Type := mkSummary {
  total_detections : Z;
  total_faces : Z;
  total_masks : Z;
  total_violations : Z;
  mask_rate : Q;
  violation_rate : Q
}.

Record AlertsInfo : Type := mkAlertsInfo {
  total : Z;
  by_type : gmap string Z;
  by_severity : gmap (option string) Z
}.

(** The snapshot; the two dates are kept as datetimes ([isoformat] is an
    injective rendering of them). *)
Record AnalyticsData : Type := mkData {
  period : string;
  start_date : datetime;
  end_date : datetime;
  summary : Summary;
  camera_statistics : list (Stat string);
  hourly_breakdown : list (Stat Z);
  alerts : AlertsInfo
}.

(** A returned [Dict]: [{}] or a snapshot. *)
Inductive Dict : Type :=
| EmptyDict
| Data (d : AnalyticsData).

Record t : Type := mkEngine {
  cache : gmap string (AnalyticsData * datetime);
  cache_ttl : Z
}.

(** [AnalyticsEngine.__init__] *)
Definition init : t := mkEngine ∅ 300.

Definition Log : Type := list LogRecord.

(** [round(x, 2)] of a float [x]: CPython rounds the exact value of the
    float to the nearest hundredth, ties to even, and returns the float
    nearest to that hundredth, which prints as it; the hundredth stands
    for it here. *)
Definition round2 (x : Q) : Q :=
  let n := (Qnum x * 100)%Z in
  let d := Z.pos (Qden x) in
  let q := (n / d)%Z in
  let r := (n mod d)%Z in
  let up :=
    match (2 * r ?= d)%Z with
    | Lt => false
    | Gt => true
    | Eq => Z.odd q
    end in
  Qmake (if up then q + 1 else q) 100.

(** [(count / total_faces * 100) if total_faces > 0 else 0]: the true
    division of two ints is the float nearest to the quotient, and its
    product with 100 is rounded once more. *)
Definition rate (count total_faces : Z) : Q :=
  if 0 <? total_faces
  then float_of (float_of (inject_Z count / inject_Z total_faces) * 100)
  else 0%Q.

(** [sum(column for d in detections)]: adding [None] is a [TypeError]. *)
Fixpoint sum_column (xs : list (option Z)) (acc : Z) : exc Z :=
  match xs with
  | [] => Ok acc
  | Some x :: rest => sum_column rest (acc + x)
  | None :: _ =>
      Raise (Exception "unsupported operand type(s) for +: 'int' and 'NoneType'")
  end.

(** [value or 0] *)
Definition or_0 (v : option Z) : Z := default 0 v.

Definition stat_of_row {K : Type} (name : string) (row : GroupRow K) : Stat K :=
  let faces := or_0 (sum_faces row) in
  let masks := or_0 (sum_masks row) in
  let violations := or_0 (sum_violations row) in
  mkStat (group_key row) name (detection_count row) faces masks violations
         (round2 (rate masks faces)) (round2 (rate violations faces)).

Definition camera_names (cameras : list Camera) : gmap string string :=
  fold_left (fun names camera => <[id camera := name camera]> names) cameras ∅.

(** [AnalyticsEngine._get_camera_statistics]: its own [try] turns any
    failure into an empty list. *)
Definition _get_camera_statistics (session : Session) (start_date end_date : datetime)
  : M Log (list (Stat string)) :=
  try_catch
    (let* camera_detections := lift (query_by_camera session start_date end_date) in
     let* cameras := lift (query_cameras session) in
     let names := camera_names cameras in
     ret (map (fun det => stat_of_row (default "Unknown" (names !! group_key det)) det)
              camera_detections))
    (fun e =>
       modify (logger_error ("Error getting camera statistics: " +:+ str_exn e)) ;;
       ret []).

(** Stable insertion by hour, as [list.sort(key=...)] orders equal keys. *)
Fixpoint insert_by_hour (x : Stat Z) (l : list (Stat Z)) : list (Stat Z) :=
  match l with
  | [] => [x]
  | y :: rest =>
      if stat_key y <=? stat_key x then y :: insert_by_hour x rest else x :: y :: rest
  end.

Definition sort_by_hour (l : list (Stat Z)) : list (Stat Z) :=
  fold_left (fun sorted x => insert_by_hour x sorted) l [].

(** The [for] of [_get_hourly_statistics]: one entry per row, keyed by
    [int(det.hour)]. *)
Definition hour_stats (rows : list (GroupRow Z)) : list (Stat Z) :=
  map (stat_of_row "") rows.

(** [AnalyticsEngine._get_hourly_statistics] *)
Definition _get_hourly_statistics (session : Session) (start_date end_date : datetime)
  : M Log (list (Stat Z)) :=
  try_catch
    (let* hourly_detections := lift (query_by_hour session start_date end_date) in
     let hourly_stats := hour_stats hourly_detections in
     ret (sort_by_hour hourly_stats))
    (fun e =>
       modify (logger_error ("Error getting hourly statistics: " +:+ str_exn e)) ;;
       ret []).

Definition count_key `{Countable K} (grouped : gmap K Z) (k : K) : gmap K Z :=
  <[k := default 0 (grouped !! k) + 1]> grouped.

(** [AnalyticsEngine._group_alerts_by_type] *)
Definition _group_alerts_by_type (alerts : list Alert) : gmap string Z :=
  fold_left (fun grouped a => count_key grouped (alert_type a)) alerts ∅.

(** [AnalyticsEngine._group_alerts_by_severity] *)
Definition _group_alerts_by_severity (alerts : list Alert) : gmap (option string) Z :=
  fold_left (fun grouped a => count_key grouped (severity a)) alerts ∅.

Definition cache_key (period : string) : string := "analytics_" +:+ period.

(** The start of the queried range. *)
Definition range_start (period : string) (end_date : datetime) : datetime :=
  if String.eqb period "today" then replace_midnight end_date
  else if String.eqb period "week" then end_date - timedelta_days 7
  else if String.eqb period "month" then end_date - timedelta_days 30
  else end_date - timedelta_days 1.

(** The body of the [try] of [get_analytics], up to and including the
    write of the cache; the state is the engine and the log. *)
Definition compute (env : Env) (period : string) : M (t * Log) Dict :=
  let on_log {A} (m : M Log A) : M (t * Log) A :=
    fun s => let '(r, l) := m (snd s) in (r, (fst s, l)) in
  let* session := lift (get_db_session env) in
  let end_date := now_end env in
  let start_date := range_start period end_date in
  let* detections := lift (query_detections session start_date end_date) in
  let total_detections := Z.of_nat (length detections) in
  let* total_faces := lift (sum_column (map face_count detections) 0) in
  let* total_masks := lift (sum_column (map mask_count detections) 0) in
  let* total_violations := lift (sum_column (map no_mask_count detections) 0) in
  let mask_rate := rate total_masks total_faces in
  let violation_rate := rate total_violations total_faces in
  let* camera_stats := on_log (_get_camera_statistics session start_date end_date) in
  let* hourly_stats := on_log (_get_hourly_statistics session start_date end_date) in
  let* alerts := lift (query_alerts session start_date end_date) in
  let analytics_data :=
    mkData period start_date end_date
      (mkSummary total_detections total_faces total_masks total_violations
                 (round2 mask_rate) (round2 violation_rate))
      camera_stats hourly_stats
      (mkAlertsInfo (Z.of_nat (length alerts)) (_group_alerts_by_type alerts)
                    (_group_alerts_by_severity alerts)) in
  lift (close session) ;;
  modify (fun s =>
            (mkEngine (<[cache_key period := (analytics_data, now_store env)]> (cache (fst s)))
                      (cache_ttl (fst s)),
             snd s)) ;;
  ret (Data analytics_data).

(** The cache test of [get_analytics]: an entry exists and the [seconds]
    attribute of its age is below [cache_ttl]. *)
Definition cache_lookup (env : Env) (period : string) (self : t) : option AnalyticsData :=
  match cache self !! cache_key period with
  | Some (cached_data, timestamp) =>
      if seconds (datetime_sub (now_check env) timestamp) <? cache_ttl self
      then Some cached_data
      else None
  | None => None
  end.

(** [AnalyticsEngine.get_analytics] *)
Definition get_analytics (env : Env) (period : string) : M (t * Log) Dict :=
  fun s =>
    match cache_lookup env period (fst s) with
    | Some cached_data => (Ok (Data cached_data), s)
    | None =>
        try_catch (compute env period)
          (fun e =>
             modify (fun s => (fst s, logger_error ("Error getting analytics: " +:+ str_exn e) (snd s))) ;;
             ret EmptyDict) s
    end.

(** [AnalyticsEngine.clear_cache] *)
Definition clear_cache (s : t * Log) : t * Log :=
  (mkEngine ∅ (cache_ttl (fst s)), logger_info "Analytics cache cleared" (snd s)).

End Analytics.

(* --------------------------------------------------------------------- *)
(** ** src/camera_manager.py                                              *)
(* --------------------------------------------------------------------- *)

Module CameraManager.

(** What [cv2.VideoCapture] is built from. *)
Inductive capture_arg : Type :=
| ArgUrl (url : option string)
| ArgDevice (device_id : option Z).

(** OpenCV, as far as this file uses it: constructing a capture either
    raises or yields an object whose [isOpened()] is the given flag. *)
Record Cv2 : Type := mkCv2 {
  VideoCapture : capture_arg -> exc bool
}.

(** The heap objects and threads the cameras create.  A capture object is
    named by its index in [captures]; the flag is its [isOpened()]. *)
Record World : Type := mkWorld {
  captures : list (capture_arg * bool);
  threads : list string;          (* capture loops spawned, by camera id *)
  log : list LogRecord
}.

Definition add_log (f : list LogRecord -> list LogRecord) (w : World) : World :=
  mkWorld (captures w) (threads w) (f (log w)).

Definition isOpened (cap : nat) (w : World) : bool :=
  match captures w !! cap with
  | Some (_, opened) => opened
  | None => false
  end.

(** [cap.release()] *)
Definition release (cap : nat) (w : World) : World :=
  mkWorld (alter (fun c => (fst c, false)) cap (captures w)) (threads w) (log w).

Section Stream.

Context {Frame : Type}.

(** The dict pushed into the frame buffer. *)
Record FrameData : Type := mkFrameData {
  frame : Frame;
  timestamp : datetime;
  frame_camera_id : string
}.

Record CameraStream : Type := mkStream {
  camera_id : string;
  name : string;
  camera_type : string;
  url : option string;
  device_id : option Z;
  location : option string;
  cap : option nat;
  is_running : bool;
  is_active : bool;
  frame_queue : Queue FrameData;
  thread : option nat;            (* index in [threads] *)
  fps : Z;
  total_frames : Z;
  dropped_frames : Z
}.

(** [CameraStream.__init__], with [Config.BUFFER_SIZE] as an argument. *)
Definition CameraStream_init (BUFFER_SIZE : Z) (camera_id name camera_type : string)
    (url : option string) (device_id : option Z) (location : option string)
  : CameraStream :=
  mkStream camera_id name camera_type url device_id location
           None false false (Queue_new BUFFER_SIZE) None 0 0 0.

Definition set_cap (c : option nat) (self : CameraStream) : CameraStream :=
  mkStream (camera_id self) (name self) (camera_type self) (url self) (device_id self)
           (location self) c (is_running self) (is_active self) (frame_queue self)
           (thread self) (fps self) (total_frames self) (dropped_frames self).

Definition set_running (b : bool) (self : CameraStream) : CameraStream :=
  mkStream (camera_id self) (name self) (camera_type self) (url self) (device_id self)
           (location self) (cap self) b (is_active self) (frame_queue self)
           (thread self) (fps self) (total_frames self) (dropped_frames self).

Definition set_active (b : bool) (self : CameraStream) : CameraStream :=
  mkStream (camera_id self) (name self) (camera_type self) (url self) (device_id self)
           (location self) (cap self) (is_running self) b (frame_queue self)
           (thread self) (fps self) (total_frames self) (dropped_frames self).

Definition set_thread (th : option nat) (self : CameraStream) : CameraStream :=
  mkStream (camera_id self) (name self) (camera_type self) (url self) (device_id self)
           (location self) (cap self) (is_running self) (is_active self) (frame_queue self)
           th (fps self) (total_frames self) (dropped_frames self).

Definition set_queue (q : Queue FrameData) (self : CameraStream) : CameraStream :=
  mkStream (camera_id self) (name self) (camera_type self) (url self) (device_id self)
           (location self) (cap self) (is_running self) (is_active self) q
           (thread self) (fps self) (total_frames self) (dropped_frames self).

Definition incr_total_frames (self : CameraStream) : CameraStream :=
  mkStream (camera_id self) (name self) (camera_type self) (url self) (device_id self)
           (location self) (cap self) (is_running self) (is_active self) (frame_queue self)
           (thread self) (fps self) (total_frames self + 1) (dropped_frames self).

Definition incr_dropped_frames (self : CameraStream) : CameraStream :=
  mkStream (camera_id self) (name self) (camera_type self) (url self) (device_id self)
           (location self) (cap self) (is_running self) (is_active self) (frame_queue self)
           (thread self) (fps self) (total_frames self) (dropped_frames self + 1).

(** [cv2.VideoCapture(arg)]: allocate the object, or raise. *)
Definition new_capture (cv2 : Cv2) (arg : capture_arg) : M (CameraStream * World) nat :=
  fun s =>
    match VideoCapture cv2 arg with
    | Ok opened =>
        let w := snd s in
        (Ok (length (captures w)),
         (fst s, mkWorld (captures w ++ [(arg, opened)]) (threads w) (log w)))
    | Raise e => (Raise e, s)
    end.

(** [threading.Thread(target=self._stream_loop, daemon=True)] and its
    [start()]. *)
Definition spawn_stream_loop : M (CameraStream * World) unit :=
  fun s =>
    let self := fst s in
    let w := snd s in
    (Ok tt,
     (set_thread (Some (length (threads w))) self,
      mkWorld (captures w) (threads w ++ [camera_id self]) (log w))).

Definition on_self (f : CameraStream -> CameraStream) : M (CameraStream * World) unit :=
  modify (fun s => (f (fst s), snd s)).

Definition on_world (f : World -> World) : M (CameraStream * World) unit :=
  modify (fun s => (fst s, f (snd s))).

(** [CameraStream.start] *)
Definition start (cv2 : Cv2) : M (CameraStream * World) unit :=
  (let* camera_type := gets (fun s => camera_type (fst s)) in
   if String.eqb camera_type "ip" then
     let* u := gets (fun s => url (fst s)) in
     let* c := new_capture cv2 (ArgUrl u) in
     on_self (set_cap (Some c))
   else if String.eqb camera_type "rpi" then
     let* d := gets (fun s => device_id (fst s)) in
     let* c := new_capture cv2 (ArgDevice d) in
     on_self (set_cap (Some c))
   else ret tt) ;;
  let* c := gets (fun s => cap (fst s)) in
  let* opened :=
    match c with
    | Some c => gets (fun s => isOpened c (snd s))
    | None => raise (Exception "'NoneType' object has no attribute 'isOpened'")
    end in
  let* cid := gets (fun s => camera_id (fst s)) in
  (if negb opened then raise (Exception ("Failed to open camera " +:+ cid)) else ret tt) ;;
  on_self (set_running true) ;;
  on_self (set_active true) ;;
  spawn_stream_loop ;;
  on_world (add_log (logger_info ("Started camera: " +:+ cid))).

(** [CameraStream.stop] *)
Definition stop : M (CameraStream * World) unit :=
  on_self (set_running false) ;;
  let* c := gets (fun s => cap (fst s)) in
  match c with
  | Some c => on_world (release c)
  | None => ret tt
  end ;;
  let* cid := gets (fun s => camera_id (fst s)) in
  on_world (add_log (logger_info ("Stopped camera: " +:+ cid))).

(** [time.sleep(1.0 / Config.FRAME_RATE)]: the quotient does not exist
    for a rate of zero and a negative length is refused; the wait itself
    is not modelled. *)
Definition sleep_interval (FRAME_RATE : Z) : exc unit :=
  if FRAME_RATE =? 0 then Raise (Exception "float division by zero")
  else if FRAME_RATE <? 0 then Raise (Exception "sleep length must be non-negative")
  else Ok tt.

(** One iteration of the [while] of [CameraStream._stream_loop]: [read] is
    what [self.cap.read()] returned ([None] when [ret] is false) and [now]
    the reading of [datetime.now()]. *)
Definition stream_iteration (read : option Frame) (now : datetime)
    (self : CameraStream) : CameraStream :=
  match read with
  | Some frame =>
      match put_nowait (mkFrameData frame now (camera_id self)) (frame_queue self) with
      | Ok q => incr_total_frames (set_queue q self)
      | Raise _ => incr_dropped_frames self
      end
  | None => self
  end.

(** [CameraStream._stream_loop], run on the successive answers of the
    transport, with [Config.FRAME_RATE] as an argument; the loop leaves as
    soon as [is_running] is false, and an error of the pause ends it. *)
Fixpoint _stream_loop (FRAME_RATE : Z) (reads : list (option Frame * datetime))
    (self : CameraStream) : exc unit * CameraStream :=
  match reads with
  | [] => (Ok tt, self)
  | (read, now) :: rest =>
      if is_running self then
        let self := stream_iteration read now self in
        match sleep_interval FRAME_RATE with
        | Ok _ => _stream_loop FRAME_RATE rest self
        | Raise e => (Raise e, self)
        end
      else (Ok tt, self)
  end.

(** [CameraStream.get_frame] once the wait is over: the oldest frame, or
    [None] on [queue.Empty]. *)
Definition get_frame (self : CameraStream) : option FrameData * CameraStream :=
  match get_nowait (frame_queue self) with
  | Ok (x, q) => (Some x, set_queue q self)
  | Raise _ => (None, self)
  end.

(** An entry of the ["cameras"] list of the configuration file.  ['id'],
    ['name'] and ['type'] are read with [config[...]] (a missing key is a
    [KeyError]), the others with [.get].  [cfg_active] stands for an
    activity flag a descriptor may carry. *)
Record CameraConfig : Type := mkConfig {
  cfg_id : option string;
  cfg_name : option string;
  cfg_type : option string;
  cfg_url : option string;
  cfg_device_id : option Z;
  cfg_location : option string;
  cfg_active : option bool
}.

(** [Dict[str, CameraStream]]: insertion ordered. *)
Definition Cameras : Type := list (string * CameraStream).

(** [cameras[key] = camera] *)
Fixpoint dict_set (key : string) (camera : CameraStream) (cameras : Cameras) : Cameras :=
  match cameras with
  | [] => [(key, camera)]
  | (k, c) :: rest =>
      if String.eqb k key then (k, camera) :: rest else (k, c) :: dict_set key camera rest
  end.

Fixpoint dict_get (key : string) (cameras : Cameras) : option CameraStream :=
  match cameras with
  | [] => None
  | (k, c) :: rest => if String.eqb k key then Some c else dict_get key rest
  end.

Record Manager : Type := mkManager {
  cameras : Cameras;
  manager_running : bool
}.

Definition required (key : string) (v : option string) : exc string :=
  match v with
  | Some s => Ok s
  | None => Raise (Exception ("'" +:+ key +:+ "'"))
  end.

(** The [for] of [CameraManager._load_cameras]. *)
Fixpoint load_each (BUFFER_SIZE : Z) (configs : list CameraConfig)
  : M Cameras unit :=
  match configs with
  | [] => ret tt
  | camera_config :: rest =>
      let* cid := lift (required "id" (cfg_id camera_config)) in
      let* cname := lift (required "name" (cfg_name camera_config)) in
      let* ctype := lift (required "type" (cfg_type camera_config)) in
      let camera :=
        CameraStream_init BUFFER_SIZE cid cname ctype (cfg_url camera_config)
          (cfg_device_id camera_config) (cfg_location camera_config) in
      modify (dict_set cid camera) ;;
      load_each BUFFER_SIZE rest
  end.

(** [CameraManager._load_cameras]: [config_file] is the outcome of opening
    and decoding the file, [None] inside it a missing ["cameras"] key. *)
Definition _load_cameras (BUFFER_SIZE : Z)
    (config_file : exc (option (list CameraConfig)))
  : M (Manager * list LogRecord) unit :=
  let on_cameras {A} (m : M Cameras A) : M (Manager * list LogRecord) A :=
    fun s =>
      let '(r, cs) := m (cameras (fst s)) in
      (r, (mkManager cs (manager_running (fst s)), snd s)) in
  try_catch
    (let* config := lift config_file in
     on_cameras (load_each BUFFER_SIZE (default [] config)) ;;
     let* n := gets (fun s => length (cameras (fst s))) in
     modify (fun s => (fst s, logger_info ("Loaded " +:+ pretty n +:+ " cameras") (snd s))))
    (fun e =>
       modify (fun s => (fst s, logger_error ("Failed to load cameras: " +:+ str_exn e) (snd s)))).

(** [CameraManager.__init__] *)
Definition Manager_init (BUFFER_SIZE : Z) (config_file : exc (option (list CameraConfig)))
  : Manager * list LogRecord :=
  snd (_load_cameras BUFFER_SIZE config_file (mkManager [] false, [])).

(** The [for] of [CameraManager.start]: each camera is started inside its
    own [try]. *)
Fixpoint start_each (cv2 : Cv2) (cameras : Cameras) (w : World) : Cameras * World :=
  match cameras with
  | [] => ([], w)
  | (k, camera) :: rest =>
      let '(_, (camera, w)) :=
        try_catch (start cv2)
          (fun e =>
             let* cid := gets (fun s => camera_id (fst s)) in
             on_world (add_log (logger_error
               ("Failed to start camera " +:+ cid +:+ ": " +:+ str_exn e))))
          (camera, w) in
      let '(rest, w) := start_each cv2 rest w in
      ((k, camera) :: rest, w)
  end.

(** [CameraManager.start] *)
Definition Manager_start (cv2 : Cv2) (self : Manager) (w : World) : Manager * World :=
  let '(cs, w) := start_each cv2 (cameras self) w in
  (mkManager cs true, w).

(** [CameraManager.start_camera]: an error of [start] reaches the caller. *)
Definition start_camera (cv2 : Cv2) (camera_id : string) : M (Manager * World) unit :=
  fun s =>
    let self := fst s in
    match dict_get camera_id (cameras self) with
    | Some camera =>
        let '(r, (camera, w)) := start cv2 (camera, snd s) in
        (r, (mkManager (dict_set camera_id camera (cameras self)) (manager_running self), w))
    | None => (Ok tt, s)
    end.

(** [CameraManager.get_cameras] *)
Definition get_cameras (self : Manager) : list CameraStream := map snd (cameras self).

(** [CameraManager.get_camera] *)
Definition get_camera (camera_id : string) (self : Manager) : option CameraStream :=
  dict_get camera_id (cameras self).

(** The [for] of [CameraManager.stop]: no [try] here, an error of one
    [stop()] would end the loop. *)
Fixpoint stop_each (cameras : Cameras) (w : World) : exc unit * (Cameras * World) :=
  match cameras with
  | [] => (Ok tt, ([], w))
  | (k, camera) :: rest =>
      match stop (camera, w) with
      | (Ok _, (camera, w)) =>
          let '(r, (rest, w)) := stop_each rest w in
          (r, ((k, camera) :: rest, w))
      | (Raise e, (camera, w)) => (Raise e, ((k, camera) :: rest, w))
      end
  end.

(** [CameraManager.stop] *)
Definition Manager_stop : M (Manager * World) unit :=
  fun s =>
    let '(r, (cs, w)) := stop_each (cameras (fst s)) (snd s) in
    (r, (mkManager cs false, w)).

(** [CameraManager.stop_camera] *)
Definition stop_camera (camera_id : string) : M (Manager * World) unit :=
  fun s =>
    let self := fst s in
    match dict_get camera_id (cameras self) with
    | Some camera =>
        let '(r, (camera, w)) := stop (camera, snd s) in
        (r, (mkManager (dict_set camera_id camera (cameras self)) (manager_running self), w))
    | None => (Ok tt, s)
    end.

(** [CameraManager.restart_camera]: stop, wait a second, start. *)
Definition restart_camera (cv2 : Cv2) (camera_id : string) : M (Manager * World) unit :=
  stop_camera camera_id ;;
  start_camera cv2 camera_id.

End Stream.

Arguments FrameData Frame : clear implicits.
Arguments CameraStream Frame : clear implicits.
Arguments Cameras Frame : clear implicits.
Arguments Manager Frame : clear implicits.

End CameraManager.

(* --------------------------------------------------------------------- *)
(** ** src/detection_engine.py                                            *)
(* --------------------------------------------------------------------- *)

Module DetectionEngine.

Definition bbox : Type := (Z * Z * Z * Z)%type.

Definition Log : Type := list LogRecord.

Section Engine.

Context {Frame : Type}.

(** OpenCV and numpy, as far as this file uses them.  Each entry may
    raise, as the library calls do on an array they cannot handle. *)
Record Cv2 : Type := mkCv2 {
  (* cvtColor(frame, BGR2GRAY) followed by detectMultiScale *)
  detectMultiScale : Frame -> exc (list bbox);
  (* frame[y:y+h, x:x+w] *)
  crop : Frame -> bbox -> Frame;
  (* countNonZero(inRange(cvtColor(roi, BGR2HSV), lower_skin, upper_skin)) *)
  skin_pixels : Frame -> exc Z;
  (* frame.shape *)
  shape : Frame -> exc (list Z)
}.

(** [FaceMaskDetector]: the loaded Keras model, if any, as the function
    from a face region to [prediction[0][0]] (resize and scaling
    included), and the confidence threshold. *)
Record Detector : Type := mkDetector {
  model : option (Frame -> exc Q);
  confidence_threshold : Q
}.

Record FaceDetection : Type := mkFace {
  face_bbox : bbox;
  mask_status : string;
  confidence : Q
}.

(** The result dict; the last three keys are the ones the worker adds. *)
Record Results : Type := mkResults {
  faces_detected : Z;
  masks_detected : Z;
  no_masks_detected : Z;
  detections : list FaceDetection;
  confidence_score : Q;
  camera_id : option string;
  timestamp : option datetime;
  frame_shape : option (list Z)
}.

Definition empty_results : Results :=
  mkResults 0 0 0 [] 0%Q None None None.

Definition set_faces_detected (n : Z) (r : Results) : Results :=
  mkResults n (masks_detected r) (no_masks_detected r) (detections r)
            (confidence_score r) (camera_id r) (timestamp r) (frame_shape r).

Definition incr_masks (r : Results) : Results :=
  mkResults (faces_detected r) (masks_detected r + 1) (no_masks_detected r) (detections r)
            (confidence_score r) (camera_id r) (timestamp r) (frame_shape r).

Definition incr_no_masks (r : Results) : Results :=
  mkResults (faces_detected r) (masks_detected r) (no_masks_detected r + 1) (detections r)
            (confidence_score r) (camera_id r) (timestamp r) (frame_shape r).

Definition append_detection (d : FaceDetection) (r : Results) : Results :=
  mkResults (faces_detected r) (masks_detected r) (no_masks_detected r) (detections r ++ [d])
            (confidence_score r) (camera_id r) (timestamp r) (frame_shape r).

Definition set_confidence_score (c : Q) (r : Results) : Results :=
  mkResults (faces_detected r) (masks_detected r) (no_masks_detected r) (detections r)
            c (camera_id r) (timestamp r) (frame_shape r).

(** [detection_results.update({...})] of the worker. *)
Definition update_metadata (cid : string) (ts : datetime) (sh : list Z) (r : Results)
  : Results :=
  mkResults (faces_detected r) (masks_detected r) (no_masks_detected r) (detections r)
            (confidence_score r) (Some cid) (Some ts) (Some sh).

(** [FaceMaskDetector.detect_faces] *)
Definition detect_faces (cv2 : Cv2) (frame : Frame) : exc (list bbox) :=
  detectMultiScale cv2 frame.

(** [FaceMaskDetector._basic_mask_detection] *)
Definition _basic_mask_detection (cv2 : Cv2) (face_roi : Frame) : exc (string * Q) :=
  match skin_pixels cv2 face_roi with
  | Raise e => Raise e
  | Ok skin =>
      match shape cv2 face_roi with
      | Raise e => Raise e
      | Ok sh =>
          let total_pixels := nth 0 sh 0 * nth 1 sh 0 in
          if total_pixels =? 0 then Raise (Exception "division by zero")
          else
            let skin_percentage := (inject_Z skin / inject_Z total_pixels)%Q in
            if Qltb (3 # 10) skin_percentage
            then Ok ("no_mask", skin_percentage)
            else Ok ("mask", (1 - skin_percentage)%Q)
      end
  end.

(** [FaceMaskDetector.predict_mask] *)
Definition predict_mask (cv2 : Cv2) (self : Detector) (face_roi : Frame)
  : M Log (string * Q) :=
  match model self with
  | None => lift (_basic_mask_detection cv2 face_roi)
  | Some predict =>
      try_catch
        (let* confidence := lift (predict face_roi) in
         if Qltb (confidence_threshold self) confidence
         then ret ("mask", confidence)
         else ret ("no_mask", (1 - confidence)%Q))
        (fun e =>
           modify (logger_error ("Error in mask prediction: " +:+ str_exn e)) ;;
           ret ("unknown", 0%Q))
  end.

Definition on_results (f : Results -> Results) : M (Results * Log) unit :=
  modify (fun s => (f (fst s), snd s)).

Definition on_log {S A : Type} (m : M Log A) : M (S * Log) A :=
  fun s => let '(r, l) := m (snd s) in (r, (fst s, l)).

(** The [for (x, y, w, h) in faces] of [process_frame]; the state is the
    [results] dict under construction and the log, the value the running
    [total_confidence]. *)
Fixpoint classify_faces (cv2 : Cv2) (self : Detector) (frame : Frame)
    (faces : list bbox) (total_confidence : Q) : M (Results * Log) Q :=
  match faces with
  | [] => ret total_confidence
  | box :: rest =>
      let face_roi := crop cv2 frame box in
      let* prediction := on_log (predict_mask cv2 self face_roi) in
      let '(status, confidence) := prediction in
      on_results (append_detection (mkFace box status confidence)) ;;
      (if String.eqb status "mask" then on_results incr_masks
       else if String.eqb status "no_mask" then on_results incr_no_masks
       else ret tt) ;;
      classify_faces cv2 self frame rest (total_confidence + confidence)%Q
  end.

(** The body of the [try] of [process_frame]. *)
Definition process_frame_body (cv2 : Cv2) (self : Detector) (frame : Frame)
  : M (Results * Log) unit :=
  let* faces := lift (detect_faces cv2 frame) in
  let n := Z.of_nat (length faces) in
  on_results (set_faces_detected n) ;;
  if n =? 0 then ret tt
  else
    let* total_confidence := classify_faces cv2 self frame faces 0%Q in
    if 0 <? n
    then on_results (set_confidence_score (total_confidence / inject_Z n)%Q)
    else ret tt.

(** [FaceMaskDetector.process_frame]: whatever the body did to [results]
    before an error is what is returned. *)
Definition process_frame (cv2 : Cv2) (self : Detector) (frame : Frame) : M Log Results :=
  fun log =>
    let '(_, (results, log)) :=
      try_catch (process_frame_body cv2 self frame)
        (fun e =>
           modify (fun s => (fst s, logger_error ("Error processing frame: " +:+ str_exn e) (snd s))))
        (empty_results, log) in
    (Ok results, log).

(** The number of per-face records labelled ["unknown"]. *)
Definition unknown_count (r : Results) : Z :=
  Z.of_nat (length (filter (fun d => mask_status d = "unknown") (detections r))).

(** The dict a camera hands over ([CameraManager.FrameData]). *)
Abbreviation FrameData := (CameraManager.FrameData Frame).

Record t : Type := mkEngine {
  is_running : bool;
  frame_queue : Queue FrameData;
  result_queue : Queue Results;
  worker_threads : list string;
  max_workers : nat;
  total_frames_processed : Z;
  total_detections : Z;
  processing_fps : Q;
  last_fps_update : Q;
  frames_since_update : Z
}.

(** The detections table, the threads spawned, and the log. *)
Record World : Type := mkWorld {
  table : list Database.Detection;
  threads : list string;
  log : Log
}.

(** The outside world during one worker iteration. *)
Record Env : Type := mkEnv {
  time_time : Q;
  session_commit : Database.Detection -> exc unit
}.

(** [DetectionEngine.__init__], with the [Config] values as arguments. *)
Definition init (QUEUE_SIZE : Z) (MAX_WORKERS : nat) (now : Q) : t :=
  mkEngine false (Queue_new QUEUE_SIZE) (Queue_new QUEUE_SIZE) [] MAX_WORKERS 0 0 0%Q now 0.

Definition set_is_running (b : bool) (self : t) : t :=
  mkEngine b (frame_queue self) (result_queue self) (worker_threads self)
           (max_workers self) (total_frames_processed self) (total_detections self)
           (processing_fps self) (last_fps_update self) (frames_since_update self).

Definition set_frame_queue (q : Queue FrameData) (self : t) : t :=
  mkEngine (is_running self) q (result_queue self) (worker_threads self)
           (max_workers self) (total_frames_processed self) (total_detections self)
           (processing_fps self) (last_fps_update self) (frames_since_update self).

Definition set_result_queue (q : Queue Results) (self : t) : t :=
  mkEngine (is_running self) (frame_queue self) q (worker_threads self)
           (max_workers self) (total_frames_processed self) (total_detections self)
           (processing_fps self) (last_fps_update self) (frames_since_update self).

Definition set_worker_threads (ths : list string) (self : t) : t :=
  mkEngine (is_running self) (frame_queue self) (result_queue self) ths
           (max_workers self) (total_frames_processed self) (total_detections self)
           (processing_fps self) (last_fps_update self) (frames_since_update self).

Definition on_self (f : t -> t) : M (t * World) unit :=
  modify (fun s => (f (fst s), snd s)).

Definition on_world (f : World -> World) : M (t * World) unit :=
  modify (fun s => (fst s, f (snd s))).

Definition add_log (f : Log -> Log) (w : World) : World :=
  mkWorld (table w) (threads w) (f (log w)).

Definition worker_name (i : nat) : string := "DetectionWorker-" +:+ pretty i.

(** [DetectionEngine.start] *)
Definition start : M (t * World) unit :=
  let* running := gets (fun s => is_running (fst s)) in
  if running then ret tt
  else
    on_self (set_is_running true) ;;
    let* n := gets (fun s => max_workers (fst s)) in
    let names := map worker_name (seq 0 n) in
    on_world (fun w => mkWorld (table w) (threads w ++ names) (log w)) ;;
    on_self (fun self => set_worker_threads (worker_threads self ++ names) self) ;;
    on_world (add_log (logger_info
      ("Started detection engine with " +:+ pretty n +:+ " workers"))).

(** [DetectionEngine.add_frame]: the function has no [return] statement. *)
Definition add_frame (frame_data : FrameData) : M (t * World) value :=
  let* q := gets (fun s => frame_queue (fst s)) in
  match put_nowait frame_data q with
  | Ok q' => on_self (set_frame_queue q') ;; ret PyNone
  | Raise _ =>
      on_world (add_log (logger_warning "Frame queue full, dropping frame")) ;;
      ret PyNone
  end.

(** [DetectionEngine.get_results]: everything that is ready. *)
Definition get_results : M (t * World) (list Results) :=
  let* q := gets (fun s => result_queue (fst s)) in
  on_self (set_result_queue (mkQueue (maxsize q) [])) ;;
  ret (items q).

(** [DetectionEngine._save_detection] *)
Definition _save_detection (env : Env) (r : Results) : M (t * World) unit :=
  try_catch
    (let* cid :=
       match camera_id r with
       | Some c => ret c
       | None => raise (Exception "'camera_id'")
       end in
     let* ts :=
       match timestamp r with
       | Some x => ret x
       | None => raise (Exception "'timestamp'")
       end in
     let row :=
       Database.mkDetection cid ts (Some (faces_detected r)) (Some (masks_detected r))
         (Some (no_masks_detected r)) (Some (confidence_score r)) in
     lift (session_commit env row) ;;
     on_world (fun w => mkWorld (table w ++ [row]) (threads w) (log w)))
    (fun e => on_world (add_log (logger_error ("Failed to save detection: " +:+ str_exn e)))).

(** [DetectionEngine._update_statistics] *)
Definition _update_statistics (env : Env) : M (t * World) unit :=
  on_self (fun self =>
    let processed := total_frames_processed self + 1 in
    let since := frames_since_update self + 1 in
    let current_time := time_time env in
    let elapsed := (current_time - last_fps_update self)%Q in
    if Qle_bool 1 elapsed then
      mkEngine (is_running self) (frame_queue self) (result_queue self)
               (worker_threads self) (max_workers self) processed (total_detections self)
               (inject_Z since / elapsed)%Q current_time 0
    else
      mkEngine (is_running self) (frame_queue self) (result_queue self)
               (worker_threads self) (max_workers self) processed (total_detections self)
               (processing_fps self) (last_fps_update self) since).

(** The body of the [try] of one iteration of [_worker_loop].  The
    detector is reached through [self.detector.process_frame], here the
    argument [process]; [frame_queue.get(timeout=1.0)] raises
    [queue.Empty] once the wait is over. *)
Definition worker_body (cv2 : Cv2) (process : Frame -> M Log Results) (env : Env)
  : M (t * World) unit :=
  let* q := gets (fun s => frame_queue (fst s)) in
  let* got := lift (get_nowait q) in
  let '(frame_data, q') := got in
  on_self (set_frame_queue q') ;;
  let frame := CameraManager.frame frame_data in
  let cid := CameraManager.frame_camera_id frame_data in
  let ts := CameraManager.timestamp frame_data in
  let* detection_results :=
    (fun s => let '(r, l) := process frame (log (snd s)) in
              (r, (fst s, mkWorld (table (snd s)) (threads (snd s)) l))) in
  let* sh := lift (shape cv2 frame) in
  let detection_results := update_metadata cid ts sh detection_results in
  _save_detection env detection_results ;;
  (let* rq := gets (fun s => result_queue (fst s)) in
   match put_nowait detection_results rq with
   | Ok rq' => on_self (set_result_queue rq')
   | Raise _ => on_world (add_log (logger_warning "Result queue full, dropping result"))
   end) ;;
  _update_statistics env.

(** One iteration of [DetectionEngine._worker_loop]: [queue.Empty] is
    passed over in silence, any other error is logged. *)
Definition worker_iteration (cv2 : Cv2) (process : Frame -> M Log Results) (env : Env)
  : M (t * World) unit :=
  try_catch (worker_body cv2 process env)
    (fun e =>
       match e with
       | Empty => ret tt
       | _ => on_world (add_log (logger_error ("Error in detection worker: " +:+ str_exn e)))
       end).

(** [DetectionEngine._worker_loop], one [Env] per turn of the [while]. *)
Fixpoint _worker_loop (cv2 : Cv2) (process : Frame -> M Log Results) (envs : list Env)
    (s : t * World) : t * World :=
  match envs with
  | [] => s
  | env :: rest =>
      if is_running (fst s)
      then _worker_loop cv2 process rest (snd (worker_iteration cv2 process env s))
      else s
  end.

(** [DetectionEngine.stop]: the flag is lowered, the workers are waited
    for (at most five seconds each) and the list of workers is cleared. *)
Definition stop : M (t * World) unit :=
  on_self (set_is_running false) ;;
  on_self (set_worker_threads []) ;;
  on_world (add_log (logger_info "Stopped detection engine")).

(** [DetectionEngine.process_single_frame] *)
Definition process_single_frame (cv2 : Cv2) (detector : Detector) (frame : Frame)
  : M Log Results :=
  process_frame cv2 detector frame.

End Engine.

Arguments Cv2 Frame : clear implicits.
Arguments Detector Frame : clear implicits.
Arguments t Frame : clear implicits.

End DetectionEngine.

(* --------------------------------------------------------------------- *)
(** ** src/mqtt_client.py                                                 *)
(* --------------------------------------------------------------------- *)

Module MQTTClient.

(** A registered handler is a callable; it is named here by a number, and
    what calling it does is given by the outside world. *)
Definition Handler : Type := nat.

Section Client.

(** [Json] stands for decoded JSON documents, [Message] for the dicts the
    system publishes. *)
Context {Json Message : Type}.

(** The second argument a handler receives: the decoded payload, or
    [{"raw": payload}] when the payload is not JSON. *)
Inductive Data : Type :=
| Decoded (j : Json)
| Raw (payload : string).

(** What [json.loads] does with a payload: it returns the document, raises
    [json.JSONDecodeError], or raises another error (a [RecursionError] on
    deeply nested input). *)
Inductive Loaded : Type :=
| Parsed (j : Json)
| NotJson
| LoadError (e : exn).


Record t : Type := mkClient {
  client : bool;                                  (* [self.client] is set *)
  is_connected : bool;
  topic_prefix : string;
  message_handlers : list (string * list Handler);   (* topic -> handlers *)
  messages_sent : Z;
  messages_received : Z;
  connection_attempts : Z
}.

(** What the calls leave behind: the calls made to handlers, the messages
    handed to the broker, the log. *)
Record World : Type := mkWorld {
  handled : list (Handler * string * Data);
  published : list (string * string);
  log : list LogRecord
}.

(** The outside world: the JSON codec, the broker answering a publish with
    a return code, and what each handler does when called.  A handler is
    code of the application: it may raise, and it may use the client it
    was registered with (register or unregister handlers, publish), so a
    call takes the client and what it has left behind and gives them
    back. *)
Record Env : Type := mkEnv {
  json_loads : string -> Loaded;
  json_dumps : Message -> exc string;
  client_publish : string -> string -> exc Z;
  call_handler : Handler -> string -> Data -> t * World -> exc unit * (t * World)
}.

Definition set_handlers (h : list (string * list Handler)) (self : t) : t :=
  mkClient (client self) (is_connected self) (topic_prefix self) h
           (messages_sent self) (messages_received self) (connection_attempts self).


Definition add_log (f : list LogRecord -> list LogRecord) (w : World) : World :=
  mkWorld (handled w) (published w) (f (log w)).

(** [self.message_handlers.get(topic)] *)
Fixpoint handlers_of (topic : string) (registry : list (string * list Handler))
  : option (list Handler) :=
  match registry with
  | [] => None
  | (k, hs) :: rest => if String.eqb k topic then Some hs else handlers_of topic rest
  end.

(** [self.message_handlers[topic] = hs] *)
Fixpoint set_handlers_of (topic : string) (hs : list Handler)
    (registry : list (string * list Handler)) : list (string * list Handler) :=
  match registry with
  | [] => [(topic, hs)]
  | (k, old) :: rest =>
      if String.eqb k topic then (k, hs) :: rest
      else (k, old) :: set_handlers_of topic hs rest
  end.

(** [list.remove(x)]: the first occurrence goes. *)
Fixpoint remove_first (x : Handler) (l : list Handler) : list Handler :=
  match l with
  | [] => []
  | y :: rest => if Nat.eqb y x then rest else y :: remove_first x rest
  end.

(** [MQTTClient.add_message_handler] *)
Definition add_message_handler (topic : string) (handler : Handler) (s : t * World)
  : t * World :=
  let self := fst s in
  let hs := default [] (handlers_of topic (message_handlers self)) in
  (set_handlers (set_handlers_of topic (hs ++ [handler]) (message_handlers self)) self,
   add_log (logger_info ("Added message handler for topic: " +:+ topic)) (snd s)).

(** [MQTTClient.remove_message_handler] *)
Definition remove_message_handler (topic : string) (handler : Handler) (s : t * World)
  : t * World :=
  let self := fst s in
  match handlers_of topic (message_handlers self) with
  | Some hs =>
      if existsb (Nat.eqb handler) hs then
        (set_handlers (set_handlers_of topic (remove_first handler hs) (message_handlers self))
                      self,
         add_log (logger_info ("Removed message handler for topic: " +:+ topic)) (snd s))
      else s
  | None => s
  end.



(** [MQTTClient.publish]; [MQTT_ERR_SUCCESS] is 0. *)
Definition publish (env : Env) (topic : string) (message : Message) (s : t * World)
  : bool * (t * World) :=
  let self := fst s in
  let w := snd s in
  if negb (is_connected self) then
    (false, (self, add_log (logger_warning "MQTT client not connected") w))
  else
    let full_topic := topic_prefix self +:+ "/" +:+ topic in
    match json_dumps env message with
    | Raise e => (false, (self, add_log (logger_error ("Error publishing message: " +:+ str_exn e)) w))
    | Ok text =>
        if negb (client self) then
          (false, (self, add_log (logger_error
             "Error publishing message: 'NoneType' object has no attribute 'publish'") w))
        else
          let w := mkWorld (handled w) (published w ++ [(full_topic, text)]) (log w) in
          match client_publish env full_topic text with
          | Raise e =>
              (false, (self, add_log (logger_error ("Error publishing message: " +:+ str_exn e)) w))
          | Ok rc =>
              if rc =? 0
              then (true, (self, add_log (logger_debug ("Published message to " +:+ full_topic)) w))
              else (false, (self, add_log (logger_error ("Failed to publish message: " +:+ pretty rc)) w))
          end
    end.

End Client.

Arguments Data Json : clear implicits.
Arguments Loaded Json : clear implicits.
Arguments Env Json Message : clear implicits.
Arguments World Json : clear implicits.

End MQTTClient.

(* --------------------------------------------------------------------- *)
(** ** start.py: the coordinator                                          *)
(* --------------------------------------------------------------------- *)

Module System.

(** The dicts the coordinator publishes over MQTT. *)
Inductive Message : Type :=
| AlertMessage (alert_type : string) (timestamp : Q)
               (camera_id : option string) (violations : Z) (iso_time : string)
| DetectionMessage (camera_id : option string) (timestamp : Q)
                   (detection : DetectionEngine.Results).

Section Coordinator.

Context {Frame Json : Type}.

(** [FaceMaskDetectionSystem], as far as result processing uses it, with
    what the bot and the MQTT client leave behind. *)
Record t : Type := mkSystem {
  camera_manager : CameraManager.Manager Frame;
  telegram_bot : TelegramBot.t;
  telegram_world : TelegramBot.World;
  mqtt_client : MQTTClient.t;
  mqtt_world : MQTTClient.World Json;
  log : list LogRecord
}.

(** The outside world while one result is processed. *)
Record Env : Type := mkEnv {
  telegram : TelegramBot.Env;
  mqtt : MQTTClient.Env Json Message;
  time_time : Q;           (* time.time() of the MQTT messages *)
  now_text : string;       (* datetime.now().strftime(...) *)
  now_iso : string         (* datetime.now().isoformat() *)
}.

(** [str(camera_id)] inside an f-string. *)
Definition str_camera_id (camera_id : option string) : string := default "None" camera_id.

(** [json.dumps] on a message of the coordinator.  What the encoder does
    with the parts of a message it can encode is the outside world's.  A
    result that carries a timestamp carries the [datetime] of its frame,
    for which the encoder has no encoding: unless it has failed before, it
    raises the [TypeError]. *)
Definition json_dumps (env : Env) (message : Message) : exc string :=
  match MQTTClient.json_dumps (mqtt env) message with
  | Raise e => Raise e
  | Ok text =>
      match message with
      | DetectionMessage _ _ detection =>
          match DetectionEngine.timestamp detection with
          | Some _ => Raise (Exception "Object of type datetime is not JSON serializable")
          | None => Ok text
          end
      | AlertMessage _ _ _ _ _ => Ok text
      end
  end.

(** The outside world as the MQTT client of the coordinator meets it. *)
Definition mqtt_env (env : Env) : MQTTClient.Env Json Message :=
  MQTTClient.mkEnv (MQTTClient.json_loads (mqtt env)) (json_dumps env)
                   (MQTTClient.client_publish (mqtt env)) (MQTTClient.call_handler (mqtt env)).

(** [MQTTClient.publish_alert] *)
Definition publish_alert (env : Env) (alert_type : string)
    (camera_id : option string) (violations : Z)
    (s : MQTTClient.t * MQTTClient.World Json)
  : bool * (MQTTClient.t * MQTTClient.World Json) :=
  MQTTClient.publish (mqtt_env env) ("alert/" +:+ alert_type)
    (AlertMessage alert_type (time_time env) camera_id violations (now_iso env)) s.

(** [MQTTClient.publish_detection] *)
Definition publish_detection (env : Env) (camera_id : option string)
    (detection_data : DetectionEngine.Results)
    (s : MQTTClient.t * MQTTClient.World Json)
  : bool * (MQTTClient.t * MQTTClient.World Json) :=
  MQTTClient.publish (mqtt_env env) ("detection/" +:+ str_camera_id camera_id)
    (DetectionMessage camera_id (time_time env) detection_data) s.

(** [FaceMaskDetectionSystem._process_detection_result].  None of the
    calls inside its [try] raises, so the handler is not reached. *)
Definition _process_detection_result (env : Env) (result : DetectionEngine.Results)
    (self : t) : t :=
  let camera_id := DetectionEngine.camera_id result in
  let no_mask_count := DetectionEngine.no_masks_detected result in
  let self :=
    if 0 <? no_mask_count then
      match
        match camera_id with
        | Some cid => CameraManager.get_camera cid (camera_manager self)
        | None => None
        end
      with
      | Some camera =>
          let self :=
            if TelegramBot.enabled (telegram_bot self) then
              let '(_, bot, w) :=
                TelegramBot.send_violation_alert (telegram env) (now_text env)
                  (str_camera_id camera_id) (CameraManager.name camera) no_mask_count
                  (CameraManager.location camera) (telegram_bot self) (telegram_world self) in
              mkSystem (camera_manager self) bot w (mqtt_client self) (mqtt_world self)
                       (log self)
            else self in
          if MQTTClient.is_connected (mqtt_client self) then
            let '(_, (c, w)) :=
              publish_alert env "violation" camera_id no_mask_count
                (mqtt_client self, mqtt_world self) in
            mkSystem (camera_manager self) (telegram_bot self) (telegram_world self) c w
                     (log self)
          else self
      | None => self
      end
    else self in
  if MQTTClient.is_connected (mqtt_client self) then
    let '(_, (c, w)) :=
      publish_detection env camera_id result (mqtt_client self, mqtt_world self) in
    mkSystem (camera_manager self) (telegram_bot self) (telegram_world self) c w (log self)
  else self.

(** [_process_detection_result] called on one result after another, one
    [Env] per call.  This is not [start_processing_loop]: a turn of that
    loop first calls [self.camera_manager.get_active_frames()], which
    [CameraManager] does not define, and so ends in its [except] before a
    result is processed. *)
Fixpoint process_results (batch : list (Env * DetectionEngine.Results)) (self : t) : t :=
  match batch with
  | [] => self
  | (env, result) :: rest => process_results rest (_process_detection_result env result self)
  end.

End Coordinator.

Arguments t Frame Json : clear implicits.
Arguments Env Json : clear implicits.

End System.

(* ===================================================================== *)
(** * Part II: properties                                                 *)
(* ===================================================================== *)

(** ** Shared facts about the runtime model *)

(** Case analysis on a scrutinee of the goal that contains no further
    [match]: it walks through the sequenced steps of an embedded function
    in program order. *)
Ltac case_innermost :=
  match goal with
  | |- context [match ?x with _ => _ end] =>
      lazymatch x with
      | context [match _ with _ => _ end] => fail
      | _ => destruct x eqn:?; simpl
      end
  end.

Lemma Qltb_true (x y : Q) : Qltb x y = true <-> (x < y)%Q.
Proof.
  unfold Qltb. rewrite negb_true_iff, <- not_true_iff_false, Qle_bool_iff.
  split; [apply Qnot_le_lt | apply Qlt_not_le].
Qed.

Lemma Qltb_false (x y : Q) : Qltb x y = false <-> (y <= x)%Q.
Proof.
  unfold Qltb. rewrite negb_false_iff. apply Qle_bool_iff.
Qed.

Lemma full_spec {A : Type} (q : Queue A) :
  full q = true <-> 0 < maxsize q <= qsize q.
Proof.
  unfold full. rewrite andb_true_iff, Z.ltb_lt, Z.leb_le. tauto.
Qed.

Lemma put_nowait_room {A : Type} (x : A) (q : Queue A) :
  full q = false -> put_nowait x q = Ok (mkQueue (maxsize q) (items q ++ [x])).
Proof. unfold put_nowait. intros ->. reflexivity. Qed.

Lemma put_nowait_full {A : Type} (x : A) (q : Queue A) :
  full q = true -> put_nowait x q = Raise Full.
Proof. unfold put_nowait. intros ->. reflexivity. Qed.

(* --------------------------------------------------------------------- *)
(** ** Alert cooldown ([TelegramBot.send_alert])                          *)
(* --------------------------------------------------------------------- *)

Module TelegramBotSpec.

Import TelegramBot.

(** The notifier works: the bot is configured and the Telegram API
    acknowledges whatever text it is sent. *)
Definition notifier_succeeds (self : t) (env : Env) : Prop :=
  enabled self = true /\ truthy (bot_token self) = true /\ truthy (chat_id self) = true
  /\ forall text, requests_post env text = Ok (mkResponse 200 (Ok true)).

(** A candidate may go out: no entry for its key, or the entry is at least
    one cooldown old. *)
Definition eligible (self : t) (key : string) (now : Q) : Prop :=
  match last_alert_time self !! key with
  | None => True
  | Some last => (inject_Z (alert_cooldown self) <= now - last)%Q
  end.

Lemma cooldown_active_false (self : t) (key : string) (now : Q) :
  cooldown_active self key now = false <-> eligible self key now.
Proof.
  unfold cooldown_active, eligible.
  destruct (last_alert_time self !! key) as [last|]; [apply Qltb_false | tauto].
Qed.

Lemma cooldown_active_true (self : t) (key : string) (now : Q) :
  cooldown_active self key now = true <->
  exists last, last_alert_time self !! key = Some last
               /\ (now - last < inject_Z (alert_cooldown self))%Q.
Proof.
  unfold cooldown_active.
  destruct (last_alert_time self !! key) as [last|].
  - rewrite Qltb_true. split; [eauto | intros (l & [= <-] & H); exact H].
  - split; [discriminate | intros (l & [=] & _)].
Qed.

Lemma send_message_success (env : Env) (text : string) (self : t) (w : World) :
  notifier_succeeds self env ->
  send_message env text self w =
  (true, incr_messages_sent self,
   add_log (logger_debug "Telegram message sent successfully") (add_post text w)).
Proof.
  intros (He & Ht & Hc & Hpost). unfold send_message.
  rewrite He, Ht, Hc, Hpost. reflexivity.
Qed.

(** The notifier never touches the cooldown map nor the alerts table. *)
Lemma send_message_frame (env : Env) (text : string) (self : t) (w : World) :
  let '(_, self', w') := send_message env text self w in
  last_alert_time self' = last_alert_time self /\ alerts w' = alerts w
  /\ enabled self' = enabled self /\ bot_token self' = bot_token self
  /\ chat_id self' = chat_id self /\ alert_cooldown self' = alert_cooldown self.
Proof.
  unfold send_message.
  destruct (negb (enabled self) || negb (truthy (bot_token self))
            || negb (truthy (chat_id self))); [tauto|].
  destruct (requests_post env text) as [[code [[|]|e]]|e]; simpl;
    try destruct (code =? 200); simpl; tauto.
Qed.

Lemma save_alert_posts (env : Env) (ty cam msg sev : string) (w : World) :
  http_posts (_save_alert env ty cam msg sev w) = http_posts w.
Proof. unfold _save_alert. destruct (session_commit env _); reflexivity. Qed.

(** A suppressed candidate: the call answers [False]; only a debug record
    is written. *)
Lemma send_alert_suppressed (env : Env) (ty cam msg sev : string)
    (md : option (list (string * string))) (self : t) (w : World) :
  cooldown_active self (alert_key cam ty) (time_time env) = true ->
  send_alert env ty cam msg sev md self w =
  (false, self,
   add_log (logger_debug ("Alert cooldown active for " +:+ alert_key cam ty)) w).
Proof. unfold send_alert. intros ->. reflexivity. Qed.

(** An eligible candidate is handed to the notifier, and the call answers
    what the notifier answered. *)
Lemma send_alert_handed_over (env : Env) (ty cam msg sev : string)
    (md : option (list (string * string))) (self : t) (w : World) :
  eligible self (alert_key cam ty) (time_time env) ->
  fst (fst (send_alert env ty cam msg sev md self w)) =
  fst (fst (send_message env (_format_alert_message ty cam msg sev md) self w)).
Proof.
  intros H%cooldown_active_false. unfold send_alert. rewrite H.
  destruct (send_message env _ self w) as [[[|] self'] w']; reflexivity.
Qed.

Lemma send_alert_delivered (env : Env) (ty cam msg sev : string)
    (md : option (list (string * string))) (self : t) (w : World) :
  notifier_succeeds self env ->
  eligible self (alert_key cam ty) (time_time env) ->
  exists self' w',
    send_alert env ty cam msg sev md self w = (true, self', w')
    /\ http_posts w' = http_posts w ++ [_format_alert_message ty cam msg sev md]
    /\ last_alert_time self' = <[alert_key cam ty := time_time env]> (last_alert_time self)
    /\ alert_cooldown self' = alert_cooldown self
    /\ (forall env', notifier_succeeds self env' -> notifier_succeeds self' env').
Proof.
  intros Hn H%cooldown_active_false. unfold send_alert. rewrite H.
  rewrite (send_message_success _ _ _ _ Hn). eexists _, _. split; [reflexivity|].
  rewrite save_alert_posts. simpl.
  split; [reflexivity|]. split; [reflexivity|]. split; [reflexivity|].
  intros env' Hn'. exact Hn'.
Qed.

(** The cooldown entry and the alerts table change only when the call
    answers [True]. *)
Lemma send_alert_failed_frame (env : Env) (ty cam msg sev : string)
    (md : option (list (string * string))) (self : t) (w : World) :
  fst (fst (send_alert env ty cam msg sev md self w)) = false ->
  last_alert_time (snd (fst (send_alert env ty cam msg sev md self w))) = last_alert_time self
  /\ alerts (snd (send_alert env ty cam msg sev md self w)) = alerts w.
Proof.
  unfold send_alert.
  destruct (cooldown_active self _ _); [intros _; split; reflexivity|].
  pose proof (send_message_frame env (_format_alert_message ty cam msg sev md) self w) as Hf.
  destruct (send_message env _ self w) as [[[|] self'] w']; simpl; [discriminate|].
  intros _. tauto.
Qed.

(** The key is the camera id, an underscore, the alert type.  Two pairs
    share a key only if an alert type contains an underscore; the types
    the bot itself uses (["violation"], ["system"], ["camera"]) do not. *)
Fixpoint has_underscore (s : string) : bool :=
  match s with
  | EmptyString => false
  | String c rest => Ascii.eqb c "_"%char || has_underscore rest
  end.

Lemma append_nil_l (s : string) : "" +:+ s = s.
Proof. reflexivity. Qed.

Lemma append_cons (c : ascii) (s u : string) : String c s +:+ u = String c (s +:+ u).
Proof. reflexivity. Qed.

Lemma has_underscore_key (s u : string) :
  has_underscore (s +:+ String "_"%char u) = true.
Proof.
  induction s as [|c s IH].
  - reflexivity.
  - rewrite append_cons. cbn [has_underscore]. rewrite IH. apply orb_true_r.
Qed.

Lemma alert_key_injective (cam cam' ty ty' : string) :
  has_underscore ty = false ->
  has_underscore ty' = false ->
  alert_key cam ty = alert_key cam' ty' ->
  cam = cam' /\ ty = ty'.
Proof.
  unfold alert_key. intros Hty Hty'. revert cam'.
  induction cam as [|c cam IH]; intros [|c' cam'];
    rewrite ?append_cons, ?append_nil_l; intros E.
  - injection E as ->. split; reflexivity.
  - injection E as <- ->. rewrite has_underscore_key in Hty. discriminate.
  - injection E as -> <-. rewrite has_underscore_key in Hty'. discriminate.
  - injection E as -> E. destruct (IH _ E) as [-> ->]. split; reflexivity.
Qed.

Example alert_key_shared :
  alert_key "lab_camera" "offline" = alert_key "lab" "camera_offline".
Proof. reflexivity. Qed.

(** C1 — at most one alert per cooldown window.  With a working notifier,
    a candidate for a key that has no entry (or whose entry is at least one
    cooldown old) is dispatched and its time recorded; a second candidate
    for the same key arriving [delta] later is dispatched iff
    [delta >= alert_cooldown].  Inside the window it is discarded: the bot,
    the messages sent and the alerts table are as before, so exactly one
    notification went out; outside, exactly two went out. *)
Theorem alert_cooldown_at_most_one_per_window
    (self : t) (w : World) (env0 env1 : Env) (ty cam : string)
    (msg0 sev0 msg1 sev1 : string) (md0 md1 : option (list (string * string)))
    (delta : Q) :
  notifier_succeeds self env0 ->
  notifier_succeeds self env1 ->
  eligible self (alert_key cam ty) (time_time env0) ->
  time_time env1 = (time_time env0 + delta)%Q ->
  exists self0 w0 r1 self1 w1,
    send_alert env0 ty cam msg0 sev0 md0 self w = (true, self0, w0)
    /\ http_posts w0 = http_posts w ++ [_format_alert_message ty cam msg0 sev0 md0]
    /\ last_alert_time self0 !! alert_key cam ty = Some (time_time env0)
    /\ send_alert env1 ty cam msg1 sev1 md1 self0 w0 = (r1, self1, w1)
    /\ (r1 = true <-> (inject_Z (alert_cooldown self) <= delta)%Q)
    /\ ((delta < inject_Z (alert_cooldown self))%Q ->
        self1 = self0 /\ http_posts w1 = http_posts w0 /\ alerts w1 = alerts w0)
    /\ ((inject_Z (alert_cooldown self) <= delta)%Q ->
        http_posts w1 = http_posts w ++ [_format_alert_message ty cam msg0 sev0 md0;
                                         _format_alert_message ty cam msg1 sev1 md1]
        /\ last_alert_time self1 !! alert_key cam ty = Some (time_time env1)).
Proof.
  intros Hn0 Hn1 Hel Ht.
  destruct (send_alert_delivered env0 ty cam msg0 sev0 md0 self w Hn0 Hel)
    as (self0 & w0 & E0 & Hp0 & Hl0 & Hc0 & Hk0).
  assert (Hentry : last_alert_time self0 !! alert_key cam ty = Some (time_time env0))
    by (rewrite Hl0; apply lookup_insert_eq).
  exists self0, w0.
  destruct (Qlt_le_dec delta (inject_Z (alert_cooldown self))) as [Hin | Hout].
  - (* inside the window *)
    assert (Hact : cooldown_active self0 (alert_key cam ty) (time_time env1) = true).
    { apply cooldown_active_true. exists (time_time env0). split; [exact Hentry|].
      rewrite Hc0, Ht. lra. }
    eexists _, _, _. split; [exact E0|]. split; [exact Hp0|]. split; [exact Hentry|].
    split; [apply send_alert_suppressed; exact Hact|].
    split; [split; [discriminate | intros; lra]|].
    split; [intros _; repeat split | intros; lra].
  - (* outside the window *)
    assert (Hel1 : eligible self0 (alert_key cam ty) (time_time env1)).
    { unfold eligible. rewrite Hentry, Hc0, Ht. lra. }
    destruct (send_alert_delivered env1 ty cam msg1 sev1 md1 self0 w0 (Hk0 _ Hn1) Hel1)
      as (self1 & w1 & E1 & Hp1 & Hl1 & _ & _).
    exists true, self1, w1. split; [exact E0|]. split; [exact Hp0|]. split; [exact Hentry|].
    split; [exact E1|]. split; [tauto|].
    split; [intros; lra|]. intros _. split.
    + rewrite Hp1, Hp0, <- app_assoc. reflexivity.
    + rewrite Hl1. apply lookup_insert_eq.
Qed.

Definition demo_bot : t := mkBot (Some "token") (Some "chat") true true ∅ 300 0 0.

Definition demo_env (now : Q) : Env :=
  mkEnv now 0 (fun _ => Ok (mkResponse 200 (Ok true))) (fun _ => Ok tt).

Definition demo_world : World := mkWorld [] [] [].

Lemma demo_notifier (now : Q) : notifier_succeeds demo_bot (demo_env now).
Proof. repeat split. Qed.

(** The statement at a bot with a 300 s cooldown and two violation alerts
    for ["camera_1"] raised 120 s apart. *)
Lemma alert_cooldown_at_most_one_per_window_witness :
  exists self0 w0 r1 self1 w1,
    send_alert (demo_env 1000) "violation" "camera_1" "first" "high" None
               demo_bot demo_world = (true, self0, w0)
    /\ http_posts w0 = http_posts demo_world
                       ++ [_format_alert_message "violation" "camera_1" "first" "high" None]
    /\ last_alert_time self0 !! alert_key "camera_1" "violation" = Some (time_time (demo_env 1000))
    /\ send_alert (demo_env (1000 + 120)) "violation" "camera_1" "second" "high" None
                  self0 w0 = (r1, self1, w1)
    /\ (r1 = true <-> (inject_Z (alert_cooldown demo_bot) <= 120)%Q)
    /\ ((120 < inject_Z (alert_cooldown demo_bot))%Q ->
        self1 = self0 /\ http_posts w1 = http_posts w0 /\ alerts w1 = alerts w0)
    /\ ((inject_Z (alert_cooldown demo_bot) <= 120)%Q ->
        http_posts w1 = http_posts demo_world
                        ++ [_format_alert_message "violation" "camera_1" "first" "high" None;
                            _format_alert_message "violation" "camera_1" "second" "high" None]
        /\ last_alert_time self1 !! alert_key "camera_1" "violation"
           = Some (time_time (demo_env (1000 + 120)))).
Proof.
  apply (alert_cooldown_at_most_one_per_window demo_bot demo_world
           (demo_env 1000) (demo_env (1000 + 120)) "violation" "camera_1"
           "first" "high" "second" "high" None None 120).
  - apply demo_notifier.
  - apply demo_notifier.
  - exact I.
  - reflexivity.
Defined.

(** C2 — a failed hand-off does not start a cooldown.  When an eligible
    candidate is handed to the notifier and the notifier reports failure,
    [send_alert] answers [False], leaves the cooldown entry of the key and
    the alerts table as they were, and any candidate for the same key that
    follows (at the same instant or later) is again handed to the notifier
    rather than suppressed: it is delivered as soon as the notifier works.
    In general the entry and the table change only when the call answers
    [True]. *)
Theorem failed_handoff_keeps_cooldown
    (self : t) (w : World) (env0 env1 : Env) (ty cam : string)
    (msg0 sev0 msg1 sev1 : string) (md0 md1 : option (list (string * string))) :
  eligible self (alert_key cam ty) (time_time env0) ->
  fst (fst (send_message env0 (_format_alert_message ty cam msg0 sev0 md0) self w)) = false ->
  (time_time env0 <= time_time env1)%Q ->
  exists self0 w0,
    send_alert env0 ty cam msg0 sev0 md0 self w = (false, self0, w0)
    /\ last_alert_time self0 = last_alert_time self
    /\ alerts w0 = alerts w
    /\ cooldown_active self0 (alert_key cam ty) (time_time env1) = false
    /\ fst (fst (send_alert env1 ty cam msg1 sev1 md1 self0 w0)) =
       fst (fst (send_message env1 (_format_alert_message ty cam msg1 sev1 md1) self0 w0))
    /\ (notifier_succeeds self env1 ->
        exists self1 w1,
          send_alert env1 ty cam msg1 sev1 md1 self0 w0 = (true, self1, w1)
          /\ http_posts w1 = http_posts w0 ++ [_format_alert_message ty cam msg1 sev1 md1]
          /\ last_alert_time self1 !! alert_key cam ty = Some (time_time env1))
    /\ (forall env ty' cam' msg sev md self' w',
          fst (fst (send_alert env ty' cam' msg sev md self' w')) = false ->
          last_alert_time (snd (fst (send_alert env ty' cam' msg sev md self' w')))
            = last_alert_time self'
          /\ alerts (snd (send_alert env ty' cam' msg sev md self' w')) = alerts w').
Proof.
  intros Hel Hfail Hle.
  pose proof (send_message_frame env0 (_format_alert_message ty cam msg0 sev0 md0) self w)
    as Hframe.
  assert (E0 : exists self0 w0,
             send_alert env0 ty cam msg0 sev0 md0 self w = (false, self0, w0)
             /\ last_alert_time self0 = last_alert_time self /\ alerts w0 = alerts w
             /\ enabled self0 = enabled self /\ bot_token self0 = bot_token self
             /\ chat_id self0 = chat_id self /\ alert_cooldown self0 = alert_cooldown self).
  { unfold send_alert. apply cooldown_active_false in Hel. rewrite Hel.
    destruct (send_message env0 _ self w) as [[r self0] w0]. simpl in Hfail. subst r.
    exists self0, w0. split; [reflexivity | exact Hframe]. }
  destruct E0 as (self0 & w0 & E0 & Hl & Ha & He & Htok & Hchat & Hcd).
  assert (Hel1 : eligible self0 (alert_key cam ty) (time_time env1)).
  { unfold eligible in *. rewrite Hl, Hcd.
    destruct (last_alert_time self !! alert_key cam ty); [lra | exact I]. }
  exists self0, w0. split; [exact E0|]. split; [exact Hl|]. split; [exact Ha|].
  split; [apply cooldown_active_false; exact Hel1|].
  split; [apply send_alert_handed_over; exact Hel1|].
  split.
  - intros (Hen & Ht & Hc & Hpost).
    assert (Hn0 : notifier_succeeds self0 env1)
      by (unfold notifier_succeeds; rewrite He, Htok, Hchat; auto).
    destruct (send_alert_delivered env1 ty cam msg1 sev1 md1 self0 w0 Hn0 Hel1)
      as (self1 & w1 & E1 & Hp1 & Hl1 & _).
    exists self1, w1. split; [exact E1|]. split; [exact Hp1|].
    rewrite Hl1. apply lookup_insert_eq.
  - intros. apply send_alert_failed_frame. assumption.
Qed.

(** A notifier that answers HTTP 502. *)
Definition failing_env (now : Q) : Env :=
  mkEnv now 0 (fun _ => Ok (mkResponse 502 (Raise (Exception "no body")))) (fun _ => Ok tt).

(** The statement at a first violation alert refused with HTTP 502 and
    retried five seconds later. *)
Lemma failed_handoff_keeps_cooldown_witness :
  exists self0 w0,
    send_alert (failing_env 1000) "violation" "camera_1" "first" "high" None
               demo_bot demo_world = (false, self0, w0)
    /\ last_alert_time self0 = last_alert_time demo_bot
    /\ alerts w0 = alerts demo_world
    /\ (exists self1 w1,
          send_alert (demo_env 1005) "violation" "camera_1" "again" "high" None self0 w0
            = (true, self1, w1)
          /\ http_posts w1 = http_posts w0
                             ++ [_format_alert_message "violation" "camera_1" "again" "high" None]
          /\ last_alert_time self1 !! alert_key "camera_1" "violation"
             = Some (time_time (demo_env 1005))).
Proof.
  destruct (failed_handoff_keeps_cooldown demo_bot demo_world
              (failing_env 1000) (demo_env 1005) "violation" "camera_1"
              "first" "high" "again" "high" None None)
    as (self0 & w0 & E0 & Hl & Ha & _ & _ & Hretry & _).
  - exact I.
  - reflexivity.
  - vm_compute. discriminate.
  - exists self0, w0. split; [exact E0|]. split; [exact Hl|]. split; [exact Ha|].
    apply Hretry. apply demo_notifier.
Defined.

End TelegramBotSpec.

(* --------------------------------------------------------------------- *)
(** ** Snapshot cache ([AnalyticsEngine.get_analytics])                   *)
(* --------------------------------------------------------------------- *)

Module AnalyticsSpec.

Import Database Analytics.

(** The cache test, spelled out: what is compared with [cache_ttl] is the
    [seconds] field of the age, that is the age in whole seconds modulo
    one day. *)
Lemma cache_lookup_entry (env : Env) (period : string) (self : t)
    (d : AnalyticsData) (stamp : datetime) :
  cache self !! cache_key period = Some (d, stamp) ->
  cache_lookup env period self =
  if ((now_check env - stamp) / 1000000) mod 86400 <? cache_ttl self then Some d else None.
Proof. unfold cache_lookup. intros ->. reflexivity. Qed.

Lemma get_analytics_hit (env : Env) (period : string) (s : t * Log) (d : AnalyticsData) :
  cache_lookup env period (fst s) = Some d ->
  get_analytics env period s = (Ok (Data d), s).
Proof. unfold get_analytics. intros ->. reflexivity. Qed.

(** Within [cache_ttl] of the stamp the cached snapshot is returned as it
    is, and neither the engine nor the log changes: nothing is recomputed. *)
Lemma get_analytics_fresh (env : Env) (period : string) (s : t * Log)
    (d : AnalyticsData) (stamp : datetime) :
  cache (fst s) !! cache_key period = Some (d, stamp) ->
  0 <= cache_ttl (fst s) <= 86400 ->
  0 <= now_check env - stamp < cache_ttl (fst s) * 1000000 ->
  get_analytics env period s = (Ok (Data d), s).
Proof.
  intros Hc Httl Hage. apply get_analytics_hit.
  rewrite (cache_lookup_entry _ _ _ _ _ Hc).
  assert (Hq : 0 <= (now_check env - stamp) / 1000000 < cache_ttl (fst s)).
  { split; [apply Z.div_pos; lia | apply Z.div_lt_upper_bound; lia]. }
  rewrite Z.mod_small by lia.
  destruct (Z.ltb_spec ((now_check env - stamp) / 1000000) (cache_ttl (fst s))); [reflexivity | lia].
Qed.

(** Between [cache_ttl] and one day after the stamp the entry is not used. *)
Lemma cache_lookup_expired_same_day (env : Env) (period : string) (self : t)
    (d : AnalyticsData) (stamp : datetime) :
  cache self !! cache_key period = Some (d, stamp) ->
  0 <= cache_ttl self ->
  cache_ttl self * 1000000 <= now_check env - stamp < 86400 * 1000000 ->
  cache_lookup env period self = None.
Proof.
  intros Hc Httl Hage. rewrite (cache_lookup_entry _ _ _ _ _ Hc).
  assert (Hq : cache_ttl self <= (now_check env - stamp) / 1000000 < 86400).
  { split; [apply Z.div_le_lower_bound; lia | apply Z.div_lt_upper_bound; lia]. }
  rewrite Z.mod_small by lia.
  destruct (Z.ltb_spec ((now_check env - stamp) / 1000000) (cache_ttl self)); [lia | reflexivity].
Qed.

(** A whole number of days later the entry is taken for fresh again. *)
Lemma get_analytics_stale_hit (env : Env) (period : string) (s : t * Log)
    (d : AnalyticsData) (stamp : datetime) (n r : Z) :
  cache (fst s) !! cache_key period = Some (d, stamp) ->
  0 <= r < cache_ttl (fst s) * 1000000 ->
  cache_ttl (fst s) <= 86400 ->
  now_check env - stamp = n * (86400 * 1000000) + r ->
  get_analytics env period s = (Ok (Data d), s).
Proof.
  intros Hc Hr Httl Hage. apply get_analytics_hit.
  rewrite (cache_lookup_entry _ _ _ _ _ Hc), Hage.
  replace ((n * (86400 * 1000000) + r) / 1000000) with (r / 1000000 + n * 86400).
  2:{ replace (n * (86400 * 1000000) + r) with (r + (n * 86400) * 1000000) by ring.
      rewrite Z.div_add by lia. reflexivity. }
  rewrite Z.mod_add by lia.
  assert (Hq : 0 <= r / 1000000 < cache_ttl (fst s)).
  { split; [apply Z.div_pos; lia | apply Z.div_lt_upper_bound; lia]. }
  rewrite Z.mod_small by lia.
  destruct (Z.ltb_spec (r / 1000000) (cache_ttl (fst s))); [reflexivity | lia].
Qed.

(** A database holding the given detections and nothing else. *)
Definition session_with (ds : list Detection) : Session :=
  mkSession (fun _ _ => Ok ds) (fun _ _ => Ok []) (Ok []) (fun _ _ => Ok [])
            (fun _ _ => Ok []) (Ok tt).

Definition env_at (second : Z) (ds : list Detection) : Env :=
  let now := second * 1000000 in
  mkEnv now now now (Ok (session_with ds)).

Definition one_detection : Detection :=
  mkDetection "camera_1" 500 (Some 2) (Some 1) (Some 1) None.

(** The state left by a first query at second 1000, the table holding one
    detection. *)
Definition after_first_query : t * Log :=
  snd (get_analytics (env_at 1000 [one_detection]) "today" (init, [])).

(** C3 — the code at an entry one day and ten seconds old.  A first query
    fills the cache; the table is then emptied; a second query 86410 s
    later, far beyond [cache_ttl = 300], still answers the first snapshot
    (one detection) and leaves the cache as it is, where recomputing would
    have answered zero detections. *)
Theorem stale_snapshot_served_after_a_day :
  let first := get_analytics (env_at 1000 [one_detection]) "today" (init, []) in
  let second := get_analytics (env_at (1000 + 86410) []) "today" after_first_query in
  cache_ttl init = 300
  /\ (exists d, fst first = Ok (Data d)
                /\ cache (fst after_first_query) !! cache_key "today" = Some (d, 1000 * 1000000)
                /\ total_detections (summary d) = 1
                /\ fst second = Ok (Data d))
  /\ snd second = after_first_query
  /\ (exists d', fst (compute (env_at (1000 + 86410) []) "today" after_first_query)
                 = Ok (Data d')
                 /\ total_detections (summary d') = 0).
Proof.
  split; [reflexivity|]. split; [|split].
  - eexists. split; [vm_compute; reflexivity|].
    split; [vm_compute; reflexivity|]. split; vm_compute; reflexivity.
  - vm_compute. reflexivity.
  - eexists. split; vm_compute; reflexivity.
Qed.

(** ** [get_analytics] never raises *)

(** Whether a call raises. *)
Definition raises {A : Type} (x : exc A) : bool :=
  match x with
  | Raise _ => true
  | Ok _ => false
  end.

(** The query itself fails: opening the session, the detection query on
    the window of the period, one of the three sums over its rows, the
    alert query on the same window, or closing the session raises. *)
Definition body_fails (env : Env) (period : string) : bool :=
  match get_db_session env with
  | Raise _ => true
  | Ok session =>
      let end_date := now_end env in
      let start_date := range_start period end_date in
      match query_detections session start_date end_date with
      | Raise _ => true
      | Ok detections =>
          raises (sum_column (map face_count detections) 0)
          || raises (sum_column (map mask_count detections) 0)
          || raises (sum_column (map no_mask_count detections) 0)
          || raises (query_alerts session start_date end_date)
          || raises (close session)
      end
  end.

(** One of the two queries of [_get_camera_statistics] raises. *)
Definition camera_helper_fails (session : Session) (a b : datetime) : bool :=
  raises (query_by_camera session a b) || raises (query_cameras session).

(** The query of [_get_hourly_statistics] raises. *)
Definition hourly_helper_fails (session : Session) (a b : datetime) : bool :=
  raises (query_by_hour session a b).

Lemma camera_statistics_returns (session : Session) (a b : datetime) (log : Log) :
  exists l log',
    _get_camera_statistics session a b log = (Ok l, log')
    /\ (camera_helper_fails session a b = true -> l = []).
Proof.
  unfold _get_camera_statistics, camera_helper_fails, try_catch, sbind, lift, modify, ret.
  destruct (query_by_camera session a b); [destruct (query_cameras session)|];
    eexists _, _; (split; [reflexivity|]); simpl; try reflexivity; discriminate.
Qed.

Lemma hourly_statistics_returns (session : Session) (a b : datetime) (log : Log) :
  exists l log',
    _get_hourly_statistics session a b log = (Ok l, log')
    /\ (hourly_helper_fails session a b = true -> l = []).
Proof.
  unfold _get_hourly_statistics, hourly_helper_fails, try_catch, sbind, lift, modify, ret.
  destruct (query_by_hour session a b) as [rows|];
    eexists _, _; (split; [reflexivity|]); simpl; try reflexivity; discriminate.
Qed.

(** The body of the [try] either completes, returning a snapshot it has
    just stored under the period's key, or raises with the engine
    untouched. *)
Lemma compute_cases (env : Env) (period : string) (s : t * Log) :
  (exists d log',
      compute env period s =
      (Ok (Data d),
       (mkEngine (<[cache_key period := (d, now_store env)]> (cache (fst s)))
                 (cache_ttl (fst s)), log')))
  \/ (exists e log', compute env period s = (Raise e, (fst s, log'))).
Proof.
  destruct s as [self log]. unfold compute, sbind, lift, modify, ret. simpl.
  destruct (get_db_session env) as [session|e]; [|right; eauto].
  destruct (query_detections session _ _) as [ds|e]; [|right; eauto].
  destruct (sum_column (map face_count ds) 0) as [tf|e]; [|right; eauto].
  destruct (sum_column (map mask_count ds) 0) as [tm|e]; [|right; eauto].
  destruct (sum_column (map no_mask_count ds) 0) as [tv|e]; [|right; eauto].
  destruct (camera_statistics_returns session (range_start period (now_end env))
              (now_end env) log) as (cs & log1 & -> & _).
  simpl.
  destruct (hourly_statistics_returns session (range_start period (now_end env))
              (now_end env) log1) as (hs & log2 & -> & _).
  simpl.
  destruct (query_alerts session _ _) as [al|e]; [|right; eauto].
  destruct (close session) as [[]|e]; [left; eauto | right; eauto].
Qed.

(** What the snapshot of a period holds: the period, its window, the
    number of detections the database reports on that window, and an
    empty list where a helper has failed. *)
Definition snapshot_of (env : Env) (period : string) (session : Session)
    (data : AnalyticsData) : Prop :=
  Analytics.period data = period
  /\ end_date data = now_end env
  /\ start_date data = range_start period (now_end env)
  /\ (exists ds,
         query_detections session (start_date data) (end_date data) = Ok ds
         /\ total_detections (summary data) = Z.of_nat (length ds))
  /\ (camera_helper_fails session (start_date data) (end_date data) = true ->
      camera_statistics data = [])
  /\ (hourly_helper_fails session (start_date data) (end_date data) = true ->
      hourly_breakdown data = []).

(** The body raises exactly when the query itself fails; otherwise it
    stores and returns the snapshot of the period. *)
Lemma compute_outcome (env : Env) (period : string) (s : t * Log) :
  if body_fails env period
  then exists e log', compute env period s = (Raise e, (fst s, log'))
  else exists data session log',
         compute env period s =
         (Ok (Data data),
          (mkEngine (<[cache_key period := (data, now_store env)]> (cache (fst s)))
                    (cache_ttl (fst s)), log'))
         /\ get_db_session env = Ok session
         /\ snapshot_of env period session data.
Proof.
  destruct s as [self log]. unfold body_fails, compute, sbind, lift, modify, ret. simpl.
  destruct (get_db_session env) as [session|e]; [|eauto].
  destruct (query_detections session _ _) as [ds|e] eqn:Hds; [|eauto].
  destruct (sum_column (map face_count ds) 0) as [tf|e]; [|simpl; eauto].
  destruct (sum_column (map mask_count ds) 0) as [tm|e]; [|simpl; eauto].
  destruct (sum_column (map no_mask_count ds) 0) as [tv|e]; [|simpl; eauto].
  destruct (camera_statistics_returns session (range_start period (now_end env))
              (now_end env) log) as (cs & log1 & -> & Hcs).
  simpl.
  destruct (hourly_statistics_returns session (range_start period (now_end env))
              (now_end env) log1) as (hs & log2 & -> & Hhs).
  simpl.
  destruct (query_alerts session _ _) as [al|e]; [|simpl; eauto].
  destruct (close session) as [[]|e]; [|simpl; eauto].
  simpl. eexists _, session, _. split; [reflexivity|]. split; [reflexivity|].
  unfold snapshot_of. simpl.
  split; [reflexivity|]. split; [reflexivity|]. split; [reflexivity|].
  split; [exists ds; split; [exact Hds | reflexivity]|].
  split; assumption.
Qed.

(** When the cache does not answer and the body completes, the fresh
    snapshot is returned and replaces the entry of the period, stamped
    with the current time. *)
Lemma get_analytics_recomputes (env : Env) (period : string) (s : t * Log) :
  cache_lookup env period (fst s) = None ->
  (exists e s1, compute env period s = (Raise e, s1))
  \/ (exists d s1,
        get_analytics env period s = (Ok (Data d), s1)
        /\ compute env period s = (Ok (Data d), s1)
        /\ cache (fst s1) !! cache_key period = Some (d, now_store env)).
Proof.
  intros Hmiss. unfold get_analytics, try_catch. rewrite Hmiss.
  destruct (compute_cases env period s) as [(d & log' & E) | (e & log' & E)].
  - right. exists d. eexists. rewrite E. split; [reflexivity|]. split; [reflexivity|].
    simpl. apply lookup_insert_eq.
  - left. eauto.
Qed.

(** C10 — [get_analytics] always returns.  For every period, engine state
    and behaviour of the database the call yields a dict, never an error,
    and whenever the dict is [{}] the cache is the one the call started
    with.  A fresh cache entry is answered as it is.  Otherwise, when the
    query itself fails (session, detection query, sums, alert query,
    close) the dict is [{}] and the engine is unchanged; when it does not,
    the dict is the snapshot of the period, stored under the period's key
    with the current time, even if one of the two statistics helpers has
    failed: its list is then empty.  The snapshot carries the window the
    database was queried on, which for a period other than ["today"],
    ["week"] and ["month"] is the day before the end date. *)
Theorem get_analytics_never_raises (env : Env) (period : string) (s : t * Log) :
  exists d s',
    get_analytics env period s = (Ok d, s')
    /\ (d = EmptyDict -> cache (fst s') = cache (fst s))
    /\ (forall cached,
          cache_lookup env period (fst s) = Some cached -> d = Data cached /\ s' = s)
    /\ (cache_lookup env period (fst s) = None ->
        if body_fails env period
        then d = EmptyDict /\ fst s' = fst s
        else exists data session,
               d = Data data
               /\ fst s' = mkEngine (<[cache_key period := (data, now_store env)]>
                                       (cache (fst s)))
                                    (cache_ttl (fst s))
               /\ get_db_session env = Ok session
               /\ snapshot_of env period session data
               /\ (period <> "today" -> period <> "week" -> period <> "month" ->
                   start_date data = end_date data - timedelta_days 1)).
Proof.
  unfold get_analytics.
  destruct (cache_lookup env period (fst s)) as [cached|] eqn:Hlook.
  - exists (Data cached), s. split; [reflexivity|]. split; [discriminate|].
    split; [intros ? [= <-]; split; reflexivity | discriminate].
  - unfold try_catch. pose proof (compute_outcome env period s) as H.
    destruct (body_fails env period).
    + destruct H as (e & log' & ->). unfold sbind, modify, ret. simpl.
      eexists _, _. split; [reflexivity|]. split; [reflexivity|].
      split; [discriminate|]. intros _. split; reflexivity.
    + destruct H as (data & session & log' & -> & Hsession & Hsnap).
      eexists _, _. split; [reflexivity|]. split; [discriminate|].
      split; [discriminate|]. intros _.
      exists data, session. split; [reflexivity|]. split; [reflexivity|].
      split; [exact Hsession|]. split; [exact Hsnap|].
      intros H1 H2 H3. destruct Hsnap as (_ & -> & -> & _).
      unfold range_start. apply String.eqb_neq in H1, H2, H3. rewrite H1, H2, H3.
      reflexivity.
Qed.

(** A database that cannot be reached. *)
Definition env_down (second : Z) : Env :=
  let now := second * 1000000 in
  mkEnv now now now (Raise (Exception "connection refused")).

(** The statement at the period ["quarter"]: the database being down the
    answer is [{}]; the database holding one detection, the snapshot
    covers the day before the query. *)
Lemma get_analytics_never_raises_witness :
  fst (get_analytics (env_down 50) "quarter" (init, [])) = Ok EmptyDict
  /\ fst (snd (get_analytics (env_down 50) "quarter" (init, []))) = init
  /\ exists data s',
       get_analytics (env_at 432000 [one_detection]) "quarter" (init, []) = (Ok (Data data), s')
       /\ start_date data = 4 * 86400 * 1000000
       /\ end_date data = 5 * 86400 * 1000000
       /\ total_detections (summary data) = 1.
Proof.
  assert (Hdown : fst (get_analytics (env_down 50) "quarter" (init, [])) = Ok EmptyDict
                  /\ fst (snd (get_analytics (env_down 50) "quarter" (init, []))) = init).
  { destruct (get_analytics_never_raises (env_down 50) "quarter" (init, []))
      as (d & s' & E & _ & _ & Hmiss).
    destruct (Hmiss eq_refl) as [-> Hs]. rewrite E. split; [reflexivity | exact Hs]. }
  split; [apply Hdown|]. split; [apply Hdown|].
  destruct (get_analytics_never_raises (env_at 432000 [one_detection]) "quarter" (init, []))
    as (d & s' & E & _ & _ & Hmiss).
  destruct (Hmiss eq_refl)
    as (data & session & -> & _ & [= <-] & (_ & Hend & _ & (ds & Hds & Htotal) & _) & Hday).
  exists data, s'. split; [exact E|].
  rewrite Hday by discriminate. rewrite Hend.
  split; [reflexivity|]. split; [reflexivity|].
  rewrite Htotal. injection Hds as <-. reflexivity.
Defined.

(** A database on which the query grouped by camera fails. *)
Definition session_camera_down : Session :=
  mkSession (fun _ _ => Ok [one_detection]) (fun _ _ => Raise (Exception "no such column"))
            (Ok []) (fun _ _ => Ok []) (fun _ _ => Ok []) (Ok tt).

Definition env_camera_down (second : Z) : Env :=
  mkEnv (second * 1000000) (second * 1000000) (second * 1000000) (Ok session_camera_down).

(** The reading under which the failure of any query of the call empties
    the answer and spares the cache. *)
Definition failed_query_empties_answer (env : Env) (period : string) (s : t * Log) : Prop :=
  forall session,
    get_db_session env = Ok session ->
    let a := range_start period (now_end env) in
    let b := now_end env in
    raises (query_detections session a b) || raises (query_by_camera session a b)
    || raises (query_cameras session) || raises (query_by_hour session a b)
    || raises (query_alerts session a b) = true ->
    fst (get_analytics env period s) = Ok EmptyDict
    /\ cache (fst (snd (get_analytics env period s))) = cache (fst s).

(** The query grouped by camera failing, the answer is a snapshot of one
    detection, and it is written to the cache. *)
Lemma failed_helper_query_is_answered_and_cached :
  ~ failed_query_empties_answer (env_camera_down 1000) "today" (init, [])
  /\ exists data,
       fst (get_analytics (env_camera_down 1000) "today" (init, [])) = Ok (Data data)
       /\ total_detections (summary data) = 1
       /\ camera_statistics data = []
       /\ cache (fst (snd (get_analytics (env_camera_down 1000) "today" (init, []))))
          !! cache_key "today" = Some (data, 1000 * 1000000).
Proof.
  split.
  - intros H. destruct (H session_camera_down eq_refl eq_refl) as [Hd _].
    vm_compute in Hd. discriminate.
  - eexists. split; [vm_compute; reflexivity|].
    split; [reflexivity|]. split; [reflexivity|]. vm_compute. reflexivity.
Qed.

End AnalyticsSpec.

(* --------------------------------------------------------------------- *)
(** ** Frame buffer and fleet start ([src/camera_manager.py])             *)
(* --------------------------------------------------------------------- *)

Module CameraManagerSpec.

Import CameraManager.

Section Buffer.

Context {Frame : Type}.

Implicit Types (self : CameraStream Frame) (reads : list (option Frame * datetime)).

(** The envelopes the capture loop tries to push: one per successful read,
    in order. *)
Definition pushed (cid : string) reads : list (FrameData Frame) :=
  omap (fun rd => (fun f => mkFrameData f (snd rd) cid) <$> fst rd) reads.

(** The property of the frame buffer: from an empty buffer of configured
    size [C], when the loop performs more than [C] pushes, all but [C] of
    them are dropped and the buffer holds the first [C] envelopes in
    arrival order. *)
Definition drop_newest (FRAME_RATE C : Z) reads self : Prop :=
  let N := Z.of_nat (length (pushed (camera_id self) reads)) in
  let self' := snd (_stream_loop FRAME_RATE reads self) in
  fst (_stream_loop FRAME_RATE reads self) = Ok tt ->
  C < N ->
  dropped_frames self' = dropped_frames self + (N - C)
  /\ total_frames self' = total_frames self + C
  /\ items (frame_queue self') = take (Z.to_nat C) (pushed (camera_id self) reads).

Lemma stream_iteration_fields (read : option Frame) (now : datetime) self :
  is_running (stream_iteration read now self) = is_running self
  /\ camera_id (stream_iteration read now self) = camera_id self
  /\ maxsize (frame_queue (stream_iteration read now self)) = maxsize (frame_queue self).
Proof.
  unfold stream_iteration. destruct read as [f|]; [|tauto].
  unfold put_nowait. destruct (full (frame_queue self)); simpl; tauto.
Qed.

Lemma sleep_interval_positive (FRAME_RATE : Z) :
  sleep_interval FRAME_RATE = Ok tt <-> 0 < FRAME_RATE.
Proof.
  unfold sleep_interval.
  destruct (Z.eqb_spec FRAME_RATE 0); [split; [discriminate | lia]|].
  destruct (Z.ltb_spec FRAME_RATE 0); [split; [discriminate | lia]|].
  split; [lia | reflexivity].
Qed.

(** A loop that is running and gets through at least one read has a
    positive frame rate. *)
Lemma stream_loop_alive (FRAME_RATE : Z) reads self :
  is_running self = true ->
  reads <> [] ->
  fst (_stream_loop FRAME_RATE reads self) = Ok tt ->
  0 < FRAME_RATE.
Proof.
  intros Hrun Hne Hok. destruct reads as [|[read now] rest]; [congruence|].
  simpl in Hok. rewrite Hrun in Hok. apply sleep_interval_positive.
  destruct (sleep_interval FRAME_RATE) as [[]|e]; [reflexivity | discriminate].
Qed.

(** The loop on a bounded buffer: the buffer fills up to its size with the
    earliest envelopes; the counters split the pushes between kept and
    dropped. *)
Lemma stream_loop_bounded (FRAME_RATE : Z) reads : forall self,
  0 < FRAME_RATE ->
  is_running self = true ->
  0 < maxsize (frame_queue self) ->
  qsize (frame_queue self) <= maxsize (frame_queue self) ->
  let C := Z.to_nat (maxsize (frame_queue self)) in
  let all := items (frame_queue self) ++ pushed (camera_id self) reads in
  let self' := snd (_stream_loop FRAME_RATE reads self) in
  fst (_stream_loop FRAME_RATE reads self) = Ok tt
  /\ items (frame_queue self') = take C all
  /\ total_frames self' =
     total_frames self + (Z.of_nat (length (take C all)) - qsize (frame_queue self))
  /\ dropped_frames self' =
     dropped_frames self + (Z.of_nat (length all) - Z.of_nat (length (take C all))).
Proof.
  intros self HFR. revert self. apply sleep_interval_positive in HFR.
  induction reads as [|[read now] reads IH]; intros self Hrun Hpos Hsize; simpl.
  - unfold qsize in *. rewrite app_nil_r, take_ge by lia. repeat split; lia.
  - rewrite Hrun, HFR.
    destruct (stream_iteration_fields read now self) as (Hr & Hc & Hm).
    destruct read as [f|]; simpl.
    + destruct (full (frame_queue self)) eqn:Hfull.
      * (* buffer full: the new envelope is dropped *)
        unfold stream_iteration in *. rewrite (put_nowait_full _ _ Hfull) in *.
        apply full_spec in Hfull.
        assert (Hlen : length (items (frame_queue self))
                       = Z.to_nat (maxsize (frame_queue self)))
          by (unfold qsize in *; lia).
        specialize (IH (incr_dropped_frames self) Hrun Hpos Hsize). simpl in IH.
        destruct IH as (Hok & Hi & Ht & Hd).
        rewrite Hok, Hi, Ht, Hd. unfold qsize in *.
        rewrite !take_app_le by lia. rewrite !length_app. simpl. repeat split; lia.
      * (* room left: the envelope is appended *)
        unfold stream_iteration in *. rewrite (put_nowait_room _ _ Hfull) in *.
        assert (Hlt : qsize (frame_queue self) < maxsize (frame_queue self)).
        { destruct (Z_lt_le_dec (qsize (frame_queue self)) (maxsize (frame_queue self)));
            [assumption|]. assert (full (frame_queue self) = true) by (apply full_spec; lia).
          congruence. }
        specialize (IH (incr_total_frames
                          (set_queue (mkQueue (maxsize (frame_queue self))
                             (items (frame_queue self)
                              ++ [mkFrameData f now (camera_id self)])) self))).
        simpl in IH. unfold qsize in *. simpl in IH. rewrite length_app in IH. simpl in IH.
        destruct IH as (Hok & Hi & Ht & Hd); [assumption | lia | lia |].
        rewrite Hok, Hi, Ht, Hd. rewrite <- !app_assoc. simpl. repeat split; lia.
    + (* the read failed: nothing is pushed *)
      specialize (IH self Hrun Hpos Hsize). exact IH.
Qed.

(** C4 — drop-newest buffering, for a configured buffer size of at least
    one.  From an empty buffer of size [C >= 1], a run of the capture loop
    that performs [N > C] pushes, with no consumer, drops exactly [N - C]
    of them, counts them in [dropped_frames], and leaves in the buffer the
    first [C] envelopes in arrival order. *)
Theorem drop_newest_on_full (FRAME_RATE C : Z) reads self :
  0 < C ->
  is_running self = true ->
  frame_queue self = Queue_new C ->
  drop_newest FRAME_RATE C reads self.
Proof.
  intros HC Hrun Hq. unfold drop_newest. intros Halive HN.
  assert (HFR : 0 < FRAME_RATE).
  { apply (stream_loop_alive FRAME_RATE reads self Hrun); [|exact Halive].
    intros ->. simpl in HN. lia. }
  pose proof (stream_loop_bounded FRAME_RATE reads self HFR Hrun) as H.
  rewrite Hq in H. unfold qsize in H. simpl in H.
  destruct H as (_ & Hi & Ht & Hd); [lia | lia |].
  rewrite Hi, Ht, Hd. rewrite length_take. repeat split; lia.
Qed.

End Buffer.

(** A local camera whose loop has been started, with a buffer of the
    given configured size. *)
Definition running_stream (BUFFER_SIZE : Z) : CameraStream nat :=
  set_running true
    (CameraStream_init BUFFER_SIZE "cam1" "Lobby" "rpi" None (Some 0) None).

(** Five successful reads, the frames numbered in arrival order. *)
Definition five_reads : list (option nat * datetime) :=
  [(Some 1%nat, 10); (Some 2%nat, 20); (Some 3%nat, 30); (Some 4%nat, 40); (Some 5%nat, 50)].

(** The statement at a buffer of size two and five pushes at 30 frames
    per second: three drops, and frames 1 and 2 stay. *)
Lemma drop_newest_on_full_witness :
  drop_newest 30 2 five_reads (running_stream 2)
  /\ _stream_loop 30 five_reads (running_stream 2)
     = (Ok tt, snd (_stream_loop 30 five_reads (running_stream 2)))
  /\ dropped_frames (snd (_stream_loop 30 five_reads (running_stream 2))) = 3
  /\ map frame (items (frame_queue (snd (_stream_loop 30 five_reads (running_stream 2)))))
     = [1%nat; 2%nat].
Proof.
  split.
  - apply (drop_newest_on_full 30 2 five_reads (running_stream 2)).
    + lia.
    + reflexivity.
    + reflexivity.
  - split; [vm_compute; reflexivity|]. split; vm_compute; reflexivity.
Defined.

(** With a configured size of zero, [queue.Queue] is unbounded: one push
    is one more than the size, yet nothing is dropped and the frame is
    kept. *)
Lemma drop_newest_fails_for_size_zero :
  ~ drop_newest 30 0 [(Some 1%nat, 10)] (running_stream 0).
Proof.
  unfold drop_newest. simpl. intros H.
  destruct H as (Hd & _); [reflexivity | lia |]. vm_compute in Hd. discriminate.
Qed.

Section Fleet.

Context {Frame : Type}.

Implicit Types (c : CameraStream Frame) (w : World) (cams : Cameras Frame).

(** What [start] builds the capture from: the url of an ['ip'] camera, the
    device of an ['rpi'] camera, nothing for any other type. *)
Definition transport c : option capture_arg :=
  if String.eqb (camera_type c) "ip" then Some (ArgUrl (url c))
  else if String.eqb (camera_type c) "rpi" then Some (ArgDevice (device_id c))
  else None.

(** [camera.start()] inside the [try] of [CameraManager.start]. *)
Definition start_guarded (cv2 : Cv2) : M (CameraStream Frame * World) unit :=
  try_catch (start cv2)
    (fun e =>
       let* cid := gets (fun s => camera_id (fst s)) in
       on_world (add_log (logger_error
         ("Failed to start camera " +:+ cid +:+ ": " +:+ str_exn e)))).

Lemma start_each_cons (cv2 : Cv2) (k : string) c cams w :
  start_each cv2 ((k, c) :: cams) w =
  let s := snd (start_guarded cv2 (c, w)) in
  ((k, fst s) :: fst (start_each cv2 cams (snd s)), snd (start_each cv2 cams (snd s))).
Proof.
  simpl. fold (start_guarded cv2).
  destruct (start_guarded cv2 (c, w)) as [r [c' w']]. simpl.
  destruct (start_each cv2 cams w') as [rest w'']. reflexivity.
Qed.

(** The state a successful [start] leaves. *)
Definition started (capv : option nat) c w : CameraStream Frame :=
  set_thread (Some (length (threads w)))
    (set_active true (set_running true (set_cap capv c))).

Definition failure_record c (e : exn) : LogRecord :=
  mkLog ERROR ("Failed to start camera " +:+ camera_id c +:+ ": " +:+ str_exn e).

Lemma isOpened_new (caps : list (capture_arg * bool)) (arg : capture_arg) (b : bool)
    (ths : list string) (l : list LogRecord) :
  isOpened (length caps) (mkWorld (caps ++ [(arg, b)]) ths l) = b.
Proof.
  unfold isOpened. simpl. rewrite lookup_app_r, Nat.sub_diag by lia. reflexivity.
Qed.

(** A source whose transport opens is started: a new capture object is
    held, both flags are set, and one more capture loop runs.  Nothing in
    this depends on the flags the source had before. *)
Lemma start_opens (cv2 : Cv2) c w (arg : capture_arg) :
  transport c = Some arg ->
  VideoCapture cv2 arg = Ok true ->
  start cv2 (c, w) =
  (Ok tt,
   (started (Some (length (captures w))) c w,
    mkWorld (captures w ++ [(arg, true)]) (threads w ++ [camera_id c])
            (logger_info ("Started camera: " +:+ camera_id c) (log w)))).
Proof.
  unfold transport. intros Ht Hv.
  cbv [start sbind gets ret raise on_self on_world modify new_capture spawn_stream_loop
       add_log]. simpl.
  destruct (String.eqb (camera_type c) "ip").
  - injection Ht as <-. simpl. rewrite Hv. simpl. rewrite isOpened_new. reflexivity.
  - destruct (String.eqb (camera_type c) "rpi"); [|discriminate].
    injection Ht as <-. simpl. rewrite Hv. simpl. rewrite isOpened_new. reflexivity.
Qed.

(** A source whose transport does not open, or raises, is not started:
    the error is logged by the manager and no loop is spawned. *)
Lemma start_guarded_unavailable (cv2 : Cv2) c w (arg : capture_arg) :
  transport c = Some arg ->
  VideoCapture cv2 arg <> Ok true ->
  exists e capv caps,
    start_guarded cv2 (c, w) =
    (Ok tt, (set_cap capv c, mkWorld caps (threads w) (log w ++ [failure_record c e]))).
Proof.
  unfold transport. intros Ht Hv. destruct c, w.
  cbv [start_guarded try_catch start sbind gets ret raise on_self on_world modify
       new_capture spawn_stream_loop add_log logger_error failure_record] in *.
  simpl in *.
  destruct (String.eqb _ "ip");
    [|destruct (String.eqb _ "rpi"); [|discriminate]];
    injection Ht as <-; simpl;
    (destruct (VideoCapture cv2 _) as [[|]|e]; [congruence | |]; simpl;
     [rewrite isOpened_new; simpl; eexists (Exception _), _, _
     |exists e; eexists _, _]; reflexivity).
Qed.

(** A source of another type that holds no capture object cannot be
    started either. *)
Lemma start_guarded_no_transport (cv2 : Cv2) c w :
  transport c = None ->
  cap c = None ->
  exists e,
    start_guarded cv2 (c, w) =
    (Ok tt, (c, mkWorld (captures w) (threads w) (log w ++ [failure_record c e]))).
Proof.
  unfold transport. intros Ht Hc. destruct c, w.
  cbv [start_guarded try_catch start sbind gets ret raise on_self on_world modify
       new_capture spawn_stream_loop add_log logger_error failure_record] in *.
  simpl in *.
  destruct (String.eqb _ "ip"); [discriminate|].
  destruct (String.eqb _ "rpi"); [discriminate|].
  subst. simpl. eexists (Exception _). reflexivity.
Qed.

(** Whatever happens to one source, the loops already running and the
    records already logged stay, and the call returns to the manager. *)
Lemma start_guarded_cases (cv2 : Cv2) c w :
  exists c' caps ths recs,
    start_guarded cv2 (c, w) =
    (Ok tt, (c', mkWorld caps (threads w ++ ths) (log w ++ recs))).
Proof.
  destruct c, w.
  cbv [start_guarded try_catch start sbind gets ret raise on_self on_world modify
       new_capture spawn_stream_loop add_log logger_error logger_info].
  simpl.
  repeat case_innermost;
    try (eexists _, _, [_], [_]; reflexivity);
    try (eexists _, _, [], [_]; rewrite app_nil_r; reflexivity).
Qed.

Lemma start_guarded_opens (cv2 : Cv2) c w (arg : capture_arg) :
  transport c = Some arg ->
  VideoCapture cv2 arg = Ok true ->
  start_guarded cv2 (c, w) =
  (Ok tt,
   (started (Some (length (captures w))) c w,
    mkWorld (captures w ++ [(arg, true)]) (threads w ++ [camera_id c])
            (logger_info ("Started camera: " +:+ camera_id c) (log w)))).
Proof.
  intros Ht Hv. unfold start_guarded, try_catch. rewrite (start_opens _ _ _ _ Ht Hv).
  reflexivity.
Qed.

(** How [start()] ended on a source: [None] when it returned, [Some e]
    when it raised [e]. *)
Definition start_record c (o : option exn) : LogRecord :=
  match o with
  | None => mkLog INFO ("Started camera: " +:+ camera_id c)
  | Some e => failure_record c e
  end.

(** The capture loops one [start()] spawns. *)
Definition spawned c (o : option exn) : list string :=
  match o with
  | None => [camera_id c]
  | Some _ => []
  end.

(** One [start()] on the source of an entry, with the way it ended.  The
    entry keeps its key and its id.  When the call returned the source is
    running and active, and its transport, if it has one, has opened; when
    it raised the two flags are as before, and the transport has not
    opened. *)
Definition attempted (cv2 : Cv2) (before : string * CameraStream Frame) (o : option exn)
    (after : string * CameraStream Frame) : Prop :=
  fst after = fst before
  /\ camera_id (snd after) = camera_id (snd before)
  /\ match o with
     | None =>
         is_running (snd after) = true /\ is_active (snd after) = true
         /\ forall arg, transport (snd before) = Some arg -> VideoCapture cv2 arg = Ok true
     | Some _ =>
         is_running (snd after) = is_running (snd before)
         /\ is_active (snd after) = is_active (snd before)
         /\ forall arg, transport (snd before) = Some arg -> VideoCapture cv2 arg <> Ok true
     end.

(** A source without transport: [start()] looks at the capture object the
    source already holds. *)
Lemma start_guarded_held (cv2 : Cv2) c w :
  transport c = None ->
  exists c' o,
    start_guarded cv2 (c, w) =
    (Ok tt, (c', mkWorld (captures w) (threads w ++ spawned c o) (log w ++ [start_record c o])))
    /\ camera_id c' = camera_id c
    /\ match o with
       | None => is_running c' = true /\ is_active c' = true
       | Some _ => is_running c' = is_running c /\ is_active c' = is_active c
       end.
Proof.
  unfold transport. intros Ht. destruct c as [cid nm ty u d loc [h|] run act q th f tot dr], w.
  all: cbv [start_guarded try_catch start sbind gets ret raise on_self on_world modify
            new_capture spawn_stream_loop add_log logger_error logger_info failure_record
            start_record spawned] in *.
  all: simpl in *.
  all: destruct (String.eqb ty "ip"); [discriminate|].
  all: destruct (String.eqb ty "rpi"); [discriminate|].
  all: simpl.
  - destruct (isOpened h _); simpl.
    + eexists _, None. simpl. split; [reflexivity|]. repeat split.
    + eexists _, (Some (Exception _)). simpl. rewrite app_nil_r.
      split; [reflexivity|]. repeat split.
  - eexists _, (Some (Exception _)). simpl. rewrite app_nil_r.
    split; [reflexivity|]. repeat split.
Qed.

(** What one guarded [start()] does, whatever the source. *)
Lemma start_guarded_outcome (cv2 : Cv2) (k : string) c w :
  exists c' o caps,
    start_guarded cv2 (c, w) =
    (Ok tt, (c', mkWorld caps (threads w ++ spawned c o) (log w ++ [start_record c o])))
    /\ attempted cv2 (k, c) o (k, c').
Proof.
  unfold attempted. cbn [fst snd].
  destruct (transport c) as [arg|] eqn:Ht.
  - destruct (VideoCapture cv2 arg) as [[|]|e] eqn:Hv.
    + exists (started (Some (length (captures w))) c w), None, (captures w ++ [(arg, true)]).
      rewrite (start_guarded_opens _ _ _ _ Ht Hv).
      split; [reflexivity|]. split; [reflexivity|]. split; [reflexivity|].
      split; [reflexivity|]. split; [reflexivity|].
      intros arg' [= <-]. exact Hv.
    + destruct (start_guarded_unavailable cv2 c w arg Ht) as (e & capv & caps & E);
        [congruence|].
      exists (set_cap capv c), (Some e), caps. rewrite E. cbn [spawned start_record].
      rewrite app_nil_r. split; [reflexivity|]. split; [reflexivity|].
      split; [reflexivity|]. split; [reflexivity|]. split; [reflexivity|].
      intros arg' [= <-]. congruence.
    + destruct (start_guarded_unavailable cv2 c w arg Ht) as (e' & capv & caps & E);
        [congruence|].
      exists (set_cap capv c), (Some e'), caps. rewrite E. cbn [spawned start_record].
      rewrite app_nil_r. split; [reflexivity|]. split; [reflexivity|].
      split; [reflexivity|]. split; [reflexivity|]. split; [reflexivity|].
      intros arg' [= <-]. congruence.
  - destruct (start_guarded_held cv2 c w Ht) as (c' & o & E & Hid & Ho).
    exists c', o, (captures w). split; [exact E|]. split; [reflexivity|].
    split; [exact Hid|].
    destruct o; destruct Ho as [Hr Ha]; (split; [exact Hr|]); (split; [exact Ha|]);
      intros arg [=].
Qed.

(** The [for] of [CameraManager.start], source by source. *)
Lemma start_each_outcomes (cv2 : Cv2) cams : forall w,
  exists outcomes,
    Forall3 (attempted cv2) cams outcomes (fst (start_each cv2 cams w))
    /\ log (snd (start_each cv2 cams w))
       = log w ++ zip_with start_record (map snd cams) outcomes
    /\ threads (snd (start_each cv2 cams w))
       = threads w ++ concat (zip_with spawned (map snd cams) outcomes).
Proof.
  induction cams as [|[k0 c0] cams IH]; intros w.
  - exists []. simpl. rewrite !app_nil_r. split; [constructor|]. split; reflexivity.
  - rewrite start_each_cons.
    destruct (start_guarded_outcome cv2 k0 c0 w) as (c0' & o & caps & E & Hattempt).
    rewrite E. cbn [fst snd].
    destruct (IH (mkWorld caps (threads w ++ spawned c0 o) (log w ++ [start_record c0 o])))
      as (outcomes & Hall & Hlog & Hth).
    cbn [threads log] in Hlog, Hth.
    exists (o :: outcomes). split; [constructor; assumption|].
    cbn [map snd zip_with concat]. rewrite Hlog, Hth, <- !app_assoc. split; reflexivity.
Qed.

(** A descriptor without its activity flag. *)
Definition forget_active (cfg : CameraConfig) : CameraConfig :=
  mkConfig (cfg_id cfg) (cfg_name cfg) (cfg_type cfg) (cfg_url cfg) (cfg_device_id cfg)
           (cfg_location cfg) None.

(** The activity flag of a descriptor plays no part in loading. *)
Lemma load_each_ignores_active (B : Z) (configs : list CameraConfig) :
  forall cams : Cameras Frame,
    load_each B (map forget_active configs) cams = load_each B configs cams.
Proof.
  induction configs as [|cfg configs IH]; intros cams; [reflexivity|].
  simpl. unfold sbind, lift, modify. simpl.
  destruct (required "id" (cfg_id cfg)); [|reflexivity].
  destruct (required "name" (cfg_name cfg)); [|reflexivity].
  destruct (required "type" (cfg_type cfg)); [|reflexivity].
  apply IH.
Qed.

(** C6 — fleet start with fault isolation.  [CameraManager.start] calls
    [start()] on exactly the configured sources: once on each, in
    configuration order, each call inside its own [try], and whatever the
    activity flag of the descriptor, which loading does not even read.
    Every call leaves exactly one record, in order: the start of the
    source, or its failure, logged by the manager; after a failure the
    remaining sources are attempted all the same.  A source with a
    transport is started iff that transport opens, whatever happened to
    the others; the sources started are running and active and have one
    capture loop each, the others keep their flags; the manager is
    running. *)
Theorem start_all_isolates_failures (cv2 : Cv2) (self : Manager Frame) w :
  let out := Manager_start cv2 self w in
  (exists outcomes,
      Forall3 (attempted cv2) (cameras self) outcomes (cameras (fst out))
      /\ log (snd out) = log w ++ zip_with start_record (map snd (cameras self)) outcomes
      /\ threads (snd out)
         = threads w ++ concat (zip_with spawned (map snd (cameras self)) outcomes))
  /\ manager_running (fst out) = true
  /\ (forall (B : Z) (configs : list CameraConfig),
        Manager_init (Frame:=Frame) B (Ok (Some (map forget_active configs)))
        = Manager_init B (Ok (Some configs))).
Proof.
  cbn zeta. unfold Manager_start.
  destruct (start_each_outcomes cv2 (cameras self) w) as (outcomes & H).
  destruct (start_each cv2 (cameras self) w) as [cs w']. cbn [fst snd cameras] in *.
  split; [exists outcomes; exact H|]. split; [reflexivity|].
  intros B configs.
  unfold Manager_init, _load_cameras, try_catch, sbind, lift, gets, modify. simpl.
  rewrite load_each_ignores_active. reflexivity.
Qed.

(** Starting a source that already runs is not the identity: another
    capture object is opened and another capture loop is spawned. *)
Lemma start_when_running (cv2 : Cv2) c w (arg : capture_arg) :
  is_running c = true ->
  transport c = Some arg ->
  VideoCapture cv2 arg = Ok true ->
  fst (start cv2 (c, w)) = Ok tt
  /\ threads (snd (snd (start cv2 (c, w)))) = threads w ++ [camera_id c]
  /\ captures (snd (snd (start cv2 (c, w)))) = captures w ++ [(arg, true)]
  /\ cap (fst (snd (start cv2 (c, w)))) = Some (length (captures w)).
Proof.
  intros _ Ht Hv. rewrite (start_opens _ _ _ _ Ht Hv). repeat split.
Qed.

End Fleet.

(** An OpenCV on which every transport opens. *)
Definition cv2_all_open : Cv2 := mkCv2 (fun _ => Ok true).

(** An OpenCV on which only local devices open. *)
Definition cv2_devices_only : Cv2 :=
  mkCv2 (fun arg => match arg with ArgDevice _ => Ok true | ArgUrl _ => Ok false end).

Definition empty_world : World := mkWorld [] [] [].

(** Two descriptors: a network camera that is enabled, and a local camera
    that is administratively disabled. *)
Definition main_entrance : CameraConfig :=
  mkConfig (Some "camera_1") (Some "Main Entrance") (Some "ip")
           (Some "rtsp://192.168.1.100:554/stream1") None (Some "Building A") (Some true).

Definition cafeteria : CameraConfig :=
  mkConfig (Some "camera_4") (Some "Cafeteria") (Some "rpi")
           None (Some 1) (Some "Building A") (Some false).

Definition fleet : Manager nat :=
  fst (Manager_init 10 (Ok (Some [main_entrance; cafeteria]))).

(** The statement at the two-camera fleet where the network camera cannot
    be opened: the failure of the first is logged, and the second, though
    flagged inactive in its descriptor, is started after it. *)
Lemma start_all_isolates_failures_witness :
  exists e,
    log (snd (Manager_start cv2_devices_only fleet empty_world))
    = [mkLog ERROR ("Failed to start camera camera_1: " +:+ str_exn e);
       mkLog INFO "Started camera: camera_4"]
    /\ threads (snd (Manager_start cv2_devices_only fleet empty_world)) = ["camera_4"].
Proof.
  destruct (start_all_isolates_failures cv2_devices_only fleet empty_world)
    as ((outcomes & Hall & Hlog & Hth) & _).
  assert (Hfleet : cameras fleet
                   = [("camera_1", CameraStream_init 10 "camera_1" "Main Entrance" "ip"
                                     (Some "rtsp://192.168.1.100:554/stream1") None
                                     (Some "Building A"));
                      ("camera_4", CameraStream_init 10 "camera_4" "Cafeteria" "rpi"
                                     None (Some 1) (Some "Building A"))])
    by (vm_compute; reflexivity).
  cbn zeta in Hall, Hlog, Hth. rewrite Hfleet in Hall, Hlog, Hth.
  apply Forall3_cons_inv_l in Hall as (o1 & rest1 & c1' & after1 & -> & _ & H1 & Hall).
  apply Forall3_cons_inv_l in Hall as (o4 & rest4 & c4' & after4 & -> & _ & H4 & Hall).
  inversion Hall; subst.
  destruct H1 as (_ & _ & H1), H4 as (_ & _ & H4).
  destruct o1 as [e|].
  2:{ destruct H1 as (_ & _ & H1).
      specialize (H1 (ArgUrl (Some "rtsp://192.168.1.100:554/stream1")) eq_refl).
      discriminate. }
  destruct o4 as [e4|].
  1:{ destruct H4 as (_ & _ & H4).
      exfalso. apply (H4 (ArgDevice (Some 1)) eq_refl). reflexivity. }
  exists e. rewrite Hlog, Hth. split; reflexivity.
Defined.

(** The reading under which only sources flagged active are started: a
    descriptor's source gets a capture loop iff its flag is true. *)
Definition starts_exactly_the_active (cv2 : Cv2) (configs : list CameraConfig) : Prop :=
  let manager : Manager nat := fst (Manager_init 10 (Ok (Some configs))) in
  let w := snd (Manager_start cv2 manager empty_world) in
  forall cfg cid, cfg ∈ configs -> cfg_id cfg = Some cid ->
    (cid ∈ threads w <-> cfg_active cfg = Some true).

(** Every transport opening, the disabled cafeteria camera is started
    along with the enabled one. *)
Lemma inactive_source_is_started :
  ~ starts_exactly_the_active cv2_all_open [main_entrance; cafeteria].
Proof.
  intros H.
  destruct (H cafeteria "camera_4") as [Hstarted _].
  - apply list_elem_of_further, list_elem_of_here.
  - reflexivity.
  - assert (Hin : "camera_4" ∈ threads (snd (Manager_start cv2_all_open
                     (fst (Manager_init (Frame:=nat) 10 (Ok (Some [main_entrance; cafeteria]))))
                     empty_world)))
      by (vm_compute; apply list_elem_of_further, list_elem_of_here).
    specialize (Hstarted Hin). discriminate.
Qed.

(** C8 — the code on a source that already runs.  A local camera is
    started, then [start()] is called on it again: the second call returns
    normally, holds a second capture object while the first is still open,
    and leaves two capture loops running on the same buffer; the state
    after the second call differs from the state before it. *)
Theorem start_on_running_source_spawns_second_loop :
  let camera : CameraStream nat :=
    CameraStream_init 10 "camera_2" "Computer Lab" "rpi" None (Some 0) None in
  let once := snd (start cv2_all_open (camera, empty_world)) in
  let twice := start cv2_all_open once in
  is_running (fst once) = true
  /\ threads (snd once) = ["camera_2"]
  /\ cap (fst once) = Some 0%nat
  /\ fst twice = Ok tt
  /\ threads (snd (snd twice)) = ["camera_2"; "camera_2"]
  /\ captures (snd (snd twice)) = [(ArgDevice (Some 0), true); (ArgDevice (Some 0), true)]
  /\ cap (fst (snd twice)) = Some 1%nat
  /\ thread (fst (snd twice)) = Some 1%nat
  /\ snd twice <> once.
Proof.
  repeat split; try (vm_compute; reflexivity).
  vm_compute. discriminate.
Qed.

End CameraManagerSpec.

(* --------------------------------------------------------------------- *)
(** ** Detector and worker loop ([src/detection_engine.py])               *)
(* --------------------------------------------------------------------- *)

Module DetectionEngineSpec.

Import DetectionEngine.

Section Detector.

Context {Frame : Type}.

Implicit Types (det : Detector Frame) (r : Results) (log : Log).

(** The counts add up to the number of faces found. *)
Definition count_invariant r : Prop :=
  masks_detected r + no_masks_detected r + unknown_count r = faces_detected r.

(** The counts add up to the number of per-face records. *)
Definition counts_match_records r : Prop :=
  masks_detected r + no_masks_detected r + unknown_count r
  = Z.of_nat (length (detections r)).

Lemma predict_mask_labels (cv2 : Cv2 Frame) det (roi : Frame) log status conf log' :
  predict_mask cv2 det roi log = (Ok (status, conf), log') ->
  status = "mask" \/ status = "no_mask" \/ status = "unknown".
Proof.
  unfold predict_mask, _basic_mask_detection, try_catch, sbind, lift, modify, ret.
  destruct (model det) as [predict|].
  - destruct (predict roi) as [c|e]; [destruct (Qltb _ c)|]; intros [= <- _ _]; tauto.
  - repeat case_innermost; intros [= <- _ _] || intros [=]; tauto.
Qed.

(** With a loaded model the prediction never raises. *)
Lemma predict_mask_model_returns (cv2 : Cv2 Frame) det (roi : Frame) log :
  is_Some (model det) ->
  exists p log', predict_mask cv2 det roi log = (Ok p, log').
Proof.
  intros [predict Hm]. unfold predict_mask, try_catch, sbind, lift, modify, ret. rewrite Hm.
  destruct (predict roi) as [c|e]; [destruct (Qltb _ c)|]; eauto.
Qed.

Lemma unknown_count_append (d : FaceDetection) r :
  unknown_count (append_detection d r)
  = unknown_count r + (if decide (mask_status d = "unknown") then 1 else 0).
Proof.
  unfold unknown_count, append_detection. simpl. rewrite filter_app, length_app.
  rewrite filter_cons, filter_nil. destruct (decide (mask_status d = "unknown")); simpl; lia.
Qed.

(** What one turn of the [for] does to the dict, given the label. *)
Definition record_face (box : bbox) (status : string) (conf : Q) r : Results :=
  let r := append_detection (mkFace box status conf) r in
  if String.eqb status "mask" then incr_masks r
  else if String.eqb status "no_mask" then incr_no_masks r
  else r.

Lemma record_face_counts (box : bbox) (status : string) (conf : Q) r :
  status = "mask" \/ status = "no_mask" \/ status = "unknown" ->
  counts_match_records r ->
  counts_match_records (record_face box status conf r)
  /\ faces_detected (record_face box status conf r) = faces_detected r
  /\ length (detections (record_face box status conf r)) = S (length (detections r)).
Proof.
  unfold counts_match_records, record_face.
  intros [-> | [-> | ->]] H; simpl; unfold unknown_count in *; simpl;
    rewrite filter_app, !length_app, filter_cons, filter_nil; simpl; repeat split; lia.
Qed.

Lemma classify_faces_step (cv2 : Cv2 Frame) det (frame : Frame) (box : bbox) (rest : list bbox)
    (tc : Q) r log :
  classify_faces cv2 det frame (box :: rest) tc (r, log) =
  match predict_mask cv2 det (crop cv2 frame box) log with
  | (Ok (status, conf), log') =>
      classify_faces cv2 det frame rest (tc + conf)%Q (record_face box status conf r, log')
  | (Raise e, log') => (Raise e, (r, log'))
  end.
Proof.
  simpl. unfold sbind at 1. unfold on_log at 1. simpl.
  destruct (predict_mask cv2 det (crop cv2 frame box) log) as [[[status conf]|e] log'];
    [|reflexivity].
  unfold record_face, sbind, on_results, modify, ret. simpl.
  destruct (String.eqb status "mask"); [reflexivity|].
  destruct (String.eqb status "no_mask"); reflexivity.
Qed.

(** The [for] keeps the counts in step with the records; it adds one
    record per face, all of them unless a prediction raises. *)
Lemma classify_faces_counts (cv2 : Cv2 Frame) det (frame : Frame) (faces : list bbox) :
  forall (tc : Q) r log,
    counts_match_records r ->
    let out := classify_faces cv2 det frame faces tc (r, log) in
    counts_match_records (fst (snd out))
    /\ faces_detected (fst (snd out)) = faces_detected r
    /\ (length (detections (fst (snd out))) <= length (detections r) + length faces)%nat
    /\ ((exists v, fst out = Ok v) ->
        length (detections (fst (snd out))) = (length (detections r) + length faces)%nat)
    /\ (is_Some (model det) -> exists v, fst out = Ok v).
Proof.
  induction faces as [|box rest IH]; intros tc r log Hr.
  - simpl. repeat split; try assumption; try lia. intros _. eexists. reflexivity.
  - cbn zeta. rewrite classify_faces_step.
    destruct (predict_mask cv2 det (crop cv2 frame box) log) as [[[status conf]|e] log'] eqn:Ep.
    + destruct (record_face_counts box status conf r (predict_mask_labels _ _ _ _ _ _ _ Ep) Hr)
        as (Hc & Hf & Hl).
      destruct (IH (tc + conf)%Q (record_face box status conf r) log' Hc)
        as (Hc' & Hf' & Hle & Hok & Hmodel).
      rewrite Hl in Hle, Hok. simpl length.
      split; [exact Hc'|]. split; [congruence|]. split; [lia|].
      split; [intros Hv; rewrite (Hok Hv); lia | exact Hmodel].
    + simpl. split; [exact Hr|]. split; [reflexivity|]. split; [lia|].
      split; [intros [v [=]]|].
      intros Hm. destruct (predict_mask_model_returns cv2 det (crop cv2 frame box) log Hm)
        as (p & l & E). congruence.
Qed.

(** The detector always answers. *)
Lemma process_frame_returns (cv2 : Cv2 Frame) det (frame : Frame) log :
  exists r log', process_frame cv2 det frame log = (Ok r, log').
Proof.
  unfold process_frame.
  destruct (try_catch _ _ (empty_results, log)) as [res [r l]]. eauto.
Qed.

(** The dict returned when face detection itself fails: the initial one. *)
Lemma process_frame_detection_error (cv2 : Cv2 Frame) det (frame : Frame) log (e : exn) :
  detect_faces cv2 frame = Raise e ->
  process_frame cv2 det frame log =
  (Ok empty_results, logger_error ("Error processing frame: " +:+ str_exn e) log).
Proof.
  intros He. unfold process_frame, process_frame_body, try_catch, sbind, lift, modify.
  rewrite He. reflexivity.
Qed.

(** The dict returned is the one the body was working on, error or not. *)
Lemma process_frame_result (cv2 : Cv2 Frame) det (frame : Frame) log :
  exists log',
    process_frame cv2 det frame log =
    (Ok (fst (snd (process_frame_body cv2 det frame (empty_results, log)))), log').
Proof.
  unfold process_frame, try_catch.
  destruct (process_frame_body cv2 det frame (empty_results, log)) as [[[]|e] [r l]];
    simpl; eauto.
Qed.

(** The body of [process_frame], step by step. *)
Lemma process_frame_body_eq (cv2 : Cv2 Frame) det (frame : Frame) r log :
  process_frame_body cv2 det frame (r, log) =
  match detect_faces cv2 frame with
  | Raise e => (Raise e, (r, log))
  | Ok faces =>
      let n := Z.of_nat (length faces) in
      if n =? 0 then (Ok tt, (set_faces_detected n r, log))
      else
        match classify_faces cv2 det frame faces 0%Q (set_faces_detected n r, log) with
        | (Ok total, (r', log')) =>
            (Ok tt,
             (if 0 <? n then set_confidence_score (total / inject_Z n)%Q r' else r', log'))
        | (Raise e, s') => (Raise e, s')
        end
  end.
Proof.
  unfold process_frame_body, sbind, lift, on_results, modify, ret.
  destruct (detect_faces cv2 frame) as [faces|e]; [|reflexivity]. cbn [fst snd].
  destruct (Z.of_nat (length faces) =? 0); [reflexivity|].
  destruct (classify_faces cv2 det frame faces 0%Q _) as [[total|e] [r' log']];
    [|reflexivity].
  destruct (0 <? Z.of_nat (length faces)); reflexivity.
Qed.

Lemma process_frame_body_counts (cv2 : Cv2 Frame) det (frame : Frame) log :
  let out := process_frame_body cv2 det frame (empty_results, log) in
  let r := fst (snd out) in
  counts_match_records r
  /\ Z.of_nat (length (detections r)) <= faces_detected r
  /\ (fst out = Ok tt -> count_invariant r)
  /\ ((exists e, detect_faces cv2 frame = Raise e) -> count_invariant r)
  /\ (is_Some (model det) -> count_invariant r).
Proof.
  cbn zeta. rewrite process_frame_body_eq. unfold count_invariant.
  destruct (detect_faces cv2 frame) as [faces|e].
  2:{ simpl. unfold counts_match_records, unknown_count. simpl.
      repeat split; try lia; reflexivity. }
  cbn zeta.
  destruct (Z.of_nat (length faces) =? 0) eqn:Hn.
  { apply Z.eqb_eq in Hn. simpl.
    unfold counts_match_records, unknown_count. simpl. repeat split; lia. }
  apply Z.eqb_neq in Hn.
  assert (H0 : counts_match_records (set_faces_detected (Z.of_nat (length faces)) empty_results))
    by reflexivity.
  pose proof (classify_faces_counts cv2 det frame faces 0%Q _ log H0) as H.
  cbn zeta in H. destruct H as (Hc & Hf & Hle & Hok & Hmodel).
  simpl in Hf, Hle, Hok.
  destruct (classify_faces cv2 det frame faces 0%Q
              (set_faces_detected (Z.of_nat (length faces)) empty_results, log))
    as [[tc|e] [r' log']] eqn:Ec; cbn [fst snd] in *.
  - assert (Hlen : length (detections r') = length faces) by (apply Hok; eauto).
    destruct (0 <? Z.of_nat (length faces)); simpl;
      unfold counts_match_records in *;
      unfold unknown_count in *; simpl; repeat split; intros; lia.
  - split; [exact Hc|]. split; [lia|].
    split; [intros [=]|]. split; [intros [e' [=]]|].
    intros Hm. destruct (Hmodel Hm) as [v [=]].
Qed.

(** The classifier answers on every face found in the frame: no call of
    [predict_mask] raises. *)
Definition classifier_answers (cv2 : Cv2 Frame) det (frame : Frame) : Prop :=
  forall faces box log,
    detect_faces cv2 frame = Ok faces ->
    box ∈ faces ->
    exists out log', predict_mask cv2 det (crop cv2 frame box) log = (Ok out, log').

(** A loaded model answers on every face: what it raises becomes the label
    ["unknown"]. *)
Lemma trained_classifier_answers (cv2 : Cv2 Frame) det (frame : Frame) :
  is_Some (model det) -> classifier_answers cv2 det frame.
Proof.
  intros Hm faces box log _ _. apply predict_mask_model_returns, Hm.
Qed.

Lemma classify_faces_answers (cv2 : Cv2 Frame) det (frame : Frame) (faces : list bbox) :
  (forall box log, box ∈ faces ->
     exists out log', predict_mask cv2 det (crop cv2 frame box) log = (Ok out, log')) ->
  forall (tc : Q) r log,
    exists v, fst (classify_faces cv2 det frame faces tc (r, log)) = Ok v.
Proof.
  induction faces as [|box rest IH]; intros Hans tc r log.
  - eexists. reflexivity.
  - rewrite classify_faces_step.
    destruct (Hans box log) as ([status conf] & log' & ->); [apply list_elem_of_here|].
    apply IH. intros box' log0 Hin. apply Hans, list_elem_of_further, Hin.
Qed.

(** C7 — the counts add up to the faces.  For every frame, every
    behaviour of OpenCV and of the model, [process_frame] returns a dict;
    and when the classifier has answered on every face found, the dict
    satisfies [masks_detected + no_masks_detected + unknown =
    faces_detected], where [unknown] is the number of per-face records
    labelled ["unknown"].  That covers every output of a loaded model,
    whose errors become the label ["unknown"], and the frame on which face
    detection itself fails, which is reported with no face. *)
Theorem counts_add_up_to_faces (cv2 : Cv2 Frame) det (frame : Frame) log :
  classifier_answers cv2 det frame ->
  exists r log',
    process_frame cv2 det frame log = (Ok r, log')
    /\ count_invariant r
    /\ Z.of_nat (length (detections r)) = faces_detected r.
Proof.
  intros Hans.
  destruct (process_frame_result cv2 det frame log) as (log' & E).
  eexists _, log'. split; [exact E|].
  pose proof (process_frame_body_counts cv2 det frame log) as H. cbn zeta in H.
  destruct H as (Hrec & _ & Hok & Herr & _).
  assert (Hinv : count_invariant
                   (fst (snd (process_frame_body cv2 det frame (empty_results, log))))).
  { destruct (detect_faces cv2 frame) as [faces|e] eqn:Hfaces; [|apply Herr; eauto].
    apply Hok. rewrite process_frame_body_eq, Hfaces. cbn zeta.
    destruct (Z.of_nat (length faces) =? 0); [reflexivity|].
    destruct (classify_faces_answers cv2 det frame faces
                (fun box log0 Hin => Hans faces box log0 Hfaces Hin) 0%Q
                (set_faces_detected (Z.of_nat (length faces)) empty_results) log) as (v & Hv).
    destruct (classify_faces cv2 det frame faces 0%Q _) as [[total|e] [r' l']];
      [reflexivity | discriminate]. }
  split; [exact Hinv|].
  unfold count_invariant in Hinv. unfold counts_match_records in Hrec. lia.
Qed.

End Detector.

(** Frames are numbered; a face region is named by the abscissa of its
    box.  Face detection finds two faces; the colour analysis works on
    the first region and fails on the second. *)
Definition cv2_second_face_fails : Cv2 nat :=
  mkCv2 (fun _ => Ok [(1, 0, 40, 40); (2, 0, 40, 40)])
        (fun _ box => Z.to_nat (fst (fst (fst box))))
        (fun roi => if Nat.eqb roi 1 then Ok 100
                    else Raise (Exception "cvtColor: unsupported array"))
        (fun _ => Ok [40; 40; 3]).

(** The same two faces of 40 by 40 pixels, with 100 skin-coloured pixels
    in the first region and 900 in the second. *)
Definition cv2_two_faces : Cv2 nat :=
  mkCv2 (fun _ => Ok [(1, 0, 40, 40); (2, 0, 40, 40)])
        (fun _ box => Z.to_nat (fst (fst (fst box))))
        (fun roi => if Nat.eqb roi 1 then Ok 100 else Ok 900)
        (fun _ => Ok [40; 40; 3]).

(** No trained model: the colour heuristic is used. *)
Definition basic_detector : Detector nat := mkDetector None (8 # 10).

(** A trained model that answers 0.93 for every face. *)
Definition trained_detector : Detector nat := mkDetector (Some (fun _ => Ok (93 # 100))) (8 # 10).

(** The statement at the two faces, without a model: one is taken for
    masked, the other for unmasked. *)
Lemma counts_add_up_to_faces_witness :
  exists r log',
    process_frame cv2_two_faces basic_detector 7%nat [] = (Ok r, log')
    /\ count_invariant r
    /\ faces_detected r = 2 /\ masks_detected r = 1 /\ no_masks_detected r = 1.
Proof.
  destruct (counts_add_up_to_faces cv2_two_faces basic_detector 7%nat [])
    as (r & log' & E & Hinv & _).
  - intros faces box log [= <-] Hin.
    apply elem_of_cons in Hin as [-> | Hin];
      [|apply list_elem_of_singleton in Hin as ->];
      eexists _, _; vm_compute; reflexivity.
  - exists r, log'. split; [exact E|]. split; [exact Hinv|].
    vm_compute in E. injection E as <- _. repeat split.
Defined.

Section Worker.

Context {Frame : Type}.

Implicit Types (det : Detector Frame) (self : t Frame) (w : World) (env : Env)
  (process : Frame -> M Log Results) (fd : CameraManager.FrameData Frame).

Ltac unfold_worker :=
  cbv [worker_iteration worker_body _save_detection _update_statistics try_catch sbind
       gets lift on_self on_world modify ret raise add_log update_metadata
       camera_id timestamp put_nowait].

(** An iteration always comes back to the [while], and leaves the running
    flag alone: the loop goes on to its next turn. *)
Lemma worker_iteration_returns (cv2 : Cv2 Frame) process env self w :
  fst (worker_iteration cv2 process env (self, w)) = Ok tt
  /\ is_running (fst (snd (worker_iteration cv2 process env (self, w)))) = is_running self.
Proof.
  destruct self. unfold_worker. simpl.
  repeat case_innermost; split; reflexivity.
Qed.

Lemma worker_loop_continues (cv2 : Cv2 Frame) process env (envs : list Env) self w :
  is_running self = true ->
  _worker_loop cv2 process (env :: envs) (self, w) =
  _worker_loop cv2 process envs (snd (worker_iteration cv2 process env (self, w))).
Proof. simpl. intros ->. reflexivity. Qed.

(** An error that escapes the detector abandons the iteration: the frame
    is consumed, nothing is queued or stored, the error is logged. *)
Lemma worker_iteration_detector_raises (cv2 : Cv2 Frame) process env self w fd
    (q' : Queue (CameraManager.FrameData Frame)) (e : exn) (l : Log) :
  get_nowait (frame_queue self) = Ok (fd, q') ->
  process (CameraManager.frame fd) (log w) = (Raise e, l) ->
  e <> Empty ->
  worker_iteration cv2 process env (self, w) =
  (Ok tt,
   (set_frame_queue q' self,
    mkWorld (table w) (threads w)
            (logger_error ("Error in detection worker: " +:+ str_exn e) l))).
Proof.
  intros Hget Hproc He. unfold_worker. simpl. rewrite Hget. simpl. rewrite Hproc. simpl.
  destruct e; [reflexivity | congruence | reflexivity].
Qed.

(** A dict returned by the detector is stored and queued, whatever it
    holds. *)
Lemma worker_iteration_emits (cv2 : Cv2 Frame) process env self w fd
    (q' : Queue (CameraManager.FrameData Frame)) (r : Results) (l : Log) (sh : list Z) :
  get_nowait (frame_queue self) = Ok (fd, q') ->
  process (CameraManager.frame fd) (log w) = (Ok r, l) ->
  shape cv2 (CameraManager.frame fd) = Ok sh ->
  let r' := update_metadata (CameraManager.frame_camera_id fd)
              (CameraManager.timestamp fd) sh r in
  let row := Database.mkDetection (CameraManager.frame_camera_id fd)
               (CameraManager.timestamp fd) (Some (faces_detected r))
               (Some (masks_detected r)) (Some (no_masks_detected r))
               (Some (confidence_score r)) in
  session_commit env row = Ok tt ->
  full (result_queue self) = false ->
  let s' := snd (worker_iteration cv2 process env (self, w)) in
  items (result_queue (fst s')) = items (result_queue self) ++ [r']
  /\ table (snd s') = table w ++ [row]
  /\ log (snd s') = l.
Proof.
  intros Hget Hproc Hsh r' row Hcommit Hfull. subst r' row.
  destruct self. simpl in *. unfold_worker. simpl. rewrite Hget. simpl. rewrite Hproc. simpl.
  rewrite Hsh. simpl. rewrite Hcommit. simpl. rewrite Hfull. simpl.
  destruct (Qle_bool 1 _); repeat split.
Qed.

(** The reading under which a failed inference leaves no result: when face
    detection raises on the frame at the head of the input queue, the
    iteration changes neither the output queue nor the detections table. *)
Definition no_result_on_inference_error (cv2 : Cv2 Frame) det env self w : Prop :=
  forall fd q' e,
    get_nowait (frame_queue self) = Ok (fd, q') ->
    detect_faces cv2 (CameraManager.frame fd) = Raise e ->
    let s' := snd (worker_iteration cv2 (process_frame cv2 det) env (self, w)) in
    result_queue (fst s') = result_queue self /\ table (snd s') = table w.

(** C5 — what a failed inference does to an iteration.  An error raised
    inside [FaceMaskDetector.process_frame] never reaches the worker: it is
    caught and logged there and the dict built so far is returned (the
    initial, all-zero one when face detection fails); the worker stores
    and queues that dict like any other.  An error that does escape the
    detector call is caught by the worker and logged, and the iteration is
    abandoned with nothing stored or queued.  In every case the iteration
    returns and the loop goes on with the next frame. *)
Theorem inference_error_handling (cv2 : Cv2 Frame) det process env self w fd
    (q' : Queue (CameraManager.FrameData Frame)) :
  get_nowait (frame_queue self) = Ok (fd, q') ->
  (* the detector of the repository always returns *)
  (exists r l, process_frame cv2 det (CameraManager.frame fd) (log w) = (Ok r, l))
  (* a failed face detection is turned into the all-zero dict, and emitted *)
  /\ (forall e sh,
        detect_faces cv2 (CameraManager.frame fd) = Raise e ->
        shape cv2 (CameraManager.frame fd) = Ok sh ->
        session_commit env
          (Database.mkDetection (CameraManager.frame_camera_id fd)
             (CameraManager.timestamp fd) (Some 0) (Some 0) (Some 0) (Some 0%Q)) = Ok tt ->
        full (result_queue self) = false ->
        let s' := snd (worker_iteration cv2 (process_frame cv2 det) env (self, w)) in
        items (result_queue (fst s')) =
          items (result_queue self)
          ++ [update_metadata (CameraManager.frame_camera_id fd)
                (CameraManager.timestamp fd) sh empty_results]
        /\ table (snd s') =
           table w ++ [Database.mkDetection (CameraManager.frame_camera_id fd)
                         (CameraManager.timestamp fd) (Some 0) (Some 0) (Some 0) (Some 0%Q)]
        /\ log (snd s') = logger_error ("Error processing frame: " +:+ str_exn e) (log w))
  (* an error escaping the detector call abandons the iteration *)
  /\ (forall e l,
        process (CameraManager.frame fd) (log w) = (Raise e, l) ->
        e <> Empty ->
        let s' := snd (worker_iteration cv2 process env (self, w)) in
        result_queue (fst s') = result_queue self
        /\ table (snd s') = table w
        /\ frame_queue (fst s') = q'
        /\ log (snd s') = logger_error ("Error in detection worker: " +:+ str_exn e) l)
  (* the loop goes on *)
  /\ fst (worker_iteration cv2 process env (self, w)) = Ok tt
  /\ is_running (fst (snd (worker_iteration cv2 process env (self, w)))) = is_running self.
Proof.
  intros Hget. split; [apply process_frame_returns|]. split; [|split].
  - intros e sh He Hsh Hcommit Hfull.
    apply (worker_iteration_emits cv2 (process_frame cv2 det) env self w fd q'
             empty_results _ sh Hget (process_frame_detection_error cv2 det _ _ e He) Hsh);
      assumption.
  - intros e l Hproc He.
    rewrite (worker_iteration_detector_raises cv2 process env self w fd q' e l Hget Hproc He).
    destruct self; repeat split.
  - apply worker_iteration_returns.
Qed.

(** [add_frame] hands back a success flag. *)
Definition add_frame_reports_success fd self w : Prop :=
  fst (add_frame fd (self, w)) = Ok (PyBool (negb (full (frame_queue self)))).

(** C9 — the ingress.  [add_frame] is a non-blocking push that returns
    [None] on every call, never a boolean and never an error: with room in
    the input queue the envelope is appended to it; with the queue full
    the envelope is dropped, the queue is unchanged and a warning is
    logged. *)
Theorem add_frame_returns_none fd self w :
  fst (add_frame fd (self, w)) = Ok PyNone
  /\ (full (frame_queue self) = false ->
      snd (add_frame fd (self, w)) =
      (set_frame_queue (mkQueue (maxsize (frame_queue self)) (items (frame_queue self) ++ [fd]))
                       self, w))
  /\ (full (frame_queue self) = true ->
      snd (add_frame fd (self, w)) =
      (self, add_log (logger_warning "Frame queue full, dropping frame") w)).
Proof.
  unfold add_frame, sbind, gets, on_self, on_world, modify, ret, put_nowait. simpl.
  destruct (full (frame_queue self)); simpl; repeat split; intros; congruence.
Qed.

(** [DetectionEngine.start] on a running engine changes nothing. *)
Lemma engine_start_when_running self w :
  is_running self = true -> start (self, w) = (Ok tt, (self, w)).
Proof. unfold start, sbind, gets, ret. simpl. intros ->. reflexivity. Qed.

End Worker.

(** A grey image: colour conversion fails in face detection, the array
    itself is well formed. *)
Definition cv2_grey_frame : Cv2 nat :=
  mkCv2 (fun _ => Raise (Exception "cvtColor: invalid number of channels"))
        (fun frame _ => frame)
        (fun _ => Ok 0)
        (fun _ => Ok [480; 640]).

Definition db_up : Env := mkEnv 5 (fun _ => Ok tt).

Definition grey_envelope : CameraManager.FrameData nat :=
  CameraManager.mkFrameData 7%nat 1000 "camera_1".

(** A running engine with one frame waiting. *)
Definition engine_one_frame : t nat :=
  set_frame_queue (mkQueue 100 [grey_envelope]) (set_is_running true (init 100 4 0)).

Definition quiet_world : World := mkWorld [] [] [].

(** A detector object whose [process_frame] lets the error through. *)
Definition raising_detector : nat -> M Log Results :=
  fun _ log => (Raise (Exception "model not loaded"), log).

(** The statement at the engine with one grey frame waiting. *)
Lemma inference_error_handling_witness :
  get_nowait (frame_queue engine_one_frame) = Ok (grey_envelope, mkQueue 100 [])
  /\ (let s' := snd (worker_iteration cv2_grey_frame
                       (process_frame cv2_grey_frame basic_detector) db_up
                       (engine_one_frame, quiet_world)) in
      items (result_queue (fst s')) =
        [update_metadata "camera_1" 1000 [480; 640] empty_results]
      /\ table (snd s') = [Database.mkDetection "camera_1" 1000 (Some 0) (Some 0) (Some 0) (Some 0%Q)])
  /\ (let s' := snd (worker_iteration cv2_grey_frame raising_detector db_up
                       (engine_one_frame, quiet_world)) in
      result_queue (fst s') = result_queue engine_one_frame
      /\ table (snd s') = []
      /\ log (snd s') = [mkLog ERROR "Error in detection worker: model not loaded"]).
Proof.
  assert (Hget : get_nowait (frame_queue engine_one_frame)
                 = Ok (grey_envelope, mkQueue 100 [])) by reflexivity.
  destruct (inference_error_handling cv2_grey_frame basic_detector raising_detector db_up
              engine_one_frame quiet_world grey_envelope (mkQueue 100 []) Hget)
    as (_ & Hemit & Hescape & _).
  split; [exact Hget|]. split.
  - destruct (Hemit (Exception "cvtColor: invalid number of channels") [480; 640])
      as (Hq & Ht & _); try reflexivity.
    split; [exact Hq | exact Ht].
  - destruct (Hescape (Exception "model not loaded") []) as (Hq & Ht & _ & Hl);
      [reflexivity | discriminate |].
    split; [exact Hq|]. split; [exact Ht | exact Hl].
Defined.

(** Face detection fails on the grey frame, and yet a result is queued
    and a row is stored. *)
Lemma failed_inference_still_emits :
  ~ no_result_on_inference_error cv2_grey_frame basic_detector db_up
      engine_one_frame quiet_world.
Proof.
  intros H.
  destruct (H grey_envelope (mkQueue 100 []) (Exception "cvtColor: invalid number of channels"))
    as [_ Htable]; [reflexivity | reflexivity |].
  vm_compute in Htable. discriminate.
Qed.

(** The statement at an engine with room, then at one whose input queue of
    size one is taken. *)
Lemma add_frame_returns_none_witness :
  full (frame_queue (init 100 4 0 : t nat)) = false
  /\ add_frame grey_envelope (init 100 4 0, quiet_world) =
     (Ok PyNone, (set_frame_queue (mkQueue 100 [grey_envelope]) (init 100 4 0), quiet_world))
  /\ full (frame_queue (set_frame_queue (mkQueue 1 [grey_envelope]) (init 1 4 0))) = true
  /\ add_frame grey_envelope
       (set_frame_queue (mkQueue 1 [grey_envelope]) (init 1 4 0), quiet_world) =
     (Ok PyNone,
      (set_frame_queue (mkQueue 1 [grey_envelope]) (init 1 4 0),
       mkWorld [] [] [mkLog WARNING "Frame queue full, dropping frame"])).
Proof.
  destruct (add_frame_returns_none grey_envelope (init 100 4 0) quiet_world)
    as (Hv & Hroom & _).
  destruct (add_frame_returns_none grey_envelope
              (set_frame_queue (mkQueue 1 [grey_envelope]) (init 1 4 0)) quiet_world)
    as (Hv' & _ & Hfull).
  split; [reflexivity|]. split.
  - rewrite (surjective_pairing (add_frame grey_envelope (init 100 4 0, quiet_world))).
    rewrite Hv, (Hroom eq_refl). reflexivity.
  - split; [reflexivity|].
    rewrite (surjective_pairing (add_frame grey_envelope _)).
    rewrite Hv', (Hfull eq_refl). reflexivity.
Defined.

(** On an engine with room the frame is queued and the call hands back
    [None], not [True]. *)
Lemma add_frame_returns_no_flag :
  ~ add_frame_reports_success grey_envelope (init 100 4 0) quiet_world.
Proof. unfold add_frame_reports_success. vm_compute. discriminate. Qed.

End DetectionEngineSpec.

(* ===================================================================== *)
(** * Part III: further properties of the embedded code                   *)
(* ===================================================================== *)

(* --------------------------------------------------------------------- *)
(** ** Capture loop, frame buffer and camera control                      *)
(* --------------------------------------------------------------------- *)

Module CameraManagerFacts.

Import CameraManager.

Section Streams.

Context {Frame : Type}.

Implicit Types (self c : CameraStream Frame) (w : World)
  (reads : list (option Frame * datetime)) (cams : Cameras Frame).

(** The envelopes the loop tries to push, as in [CameraManagerSpec]. *)
Abbreviation pushed := (@CameraManagerSpec.pushed Frame).

(** On an unbounded buffer every iteration finds room. *)
Lemma stream_loop_unbounded (FRAME_RATE : Z) reads : forall self,
  0 < FRAME_RATE ->
  is_running self = true ->
  maxsize (frame_queue self) <= 0 ->
  let self' := snd (_stream_loop FRAME_RATE reads self) in
  fst (_stream_loop FRAME_RATE reads self) = Ok tt
  /\ items (frame_queue self') = items (frame_queue self) ++ pushed (camera_id self) reads
  /\ total_frames self' = total_frames self
                          + Z.of_nat (length (pushed (camera_id self) reads))
  /\ dropped_frames self' = dropped_frames self.
Proof.
  intros self HFR. revert self. apply CameraManagerSpec.sleep_interval_positive in HFR.
  induction reads as [|[read now] reads IH]; intros self Hrun Hmax; simpl.
  - rewrite app_nil_r. repeat split; lia.
  - rewrite Hrun, HFR. destruct read as [f|]; simpl.
    + assert (Hfull : full (frame_queue self) = false).
      { unfold full. destruct (Z.ltb_spec 0 (maxsize (frame_queue self))); [lia | reflexivity]. }
      unfold stream_iteration. rewrite (put_nowait_room _ _ Hfull).
      specialize (IH (incr_total_frames
                        (set_queue (mkQueue (maxsize (frame_queue self))
                           (items (frame_queue self)
                            ++ [mkFrameData f now (camera_id self)])) self)) Hrun Hmax).
      simpl in IH. destruct IH as (Hok & Hi & Ht & Hd).
      rewrite Hok, Hi, Ht, Hd, <- app_assoc. simpl. repeat split; lia.
    + apply IH; assumption.
Qed.

(** X1 — accounting of the capture loop.  Whatever the size of the buffer,
    a run of the loop splits the successful reads between frames kept and
    frames dropped: [total_frames] and [dropped_frames] together grow by
    the number of successful reads, and the frames kept are the first ones
    read, appended to the buffer in arrival order. *)
Theorem capture_loop_accounting (FRAME_RATE : Z) reads self :
  0 < FRAME_RATE ->
  is_running self = true ->
  (0 < maxsize (frame_queue self) -> qsize (frame_queue self) <= maxsize (frame_queue self)) ->
  let N := length (pushed (camera_id self) reads) in
  let self' := snd (_stream_loop FRAME_RATE reads self) in
  exists k : nat,
    (k <= N)%nat
    /\ items (frame_queue self') = items (frame_queue self) ++ take k (pushed (camera_id self) reads)
    /\ total_frames self' = total_frames self + Z.of_nat k
    /\ dropped_frames self' = dropped_frames self + (Z.of_nat N - Z.of_nat k)
    /\ (0 < maxsize (frame_queue self) -> qsize (frame_queue self') <= maxsize (frame_queue self)).
Proof.
  intros HFR Hrun Hwf. cbn zeta.
  destruct (Z_lt_le_dec 0 (maxsize (frame_queue self))) as [Hpos | Hunb].
  - destruct (CameraManagerSpec.stream_loop_bounded FRAME_RATE reads self HFR Hrun Hpos (Hwf Hpos))
      as (_ & Hi & Ht & Hd).
    specialize (Hwf Hpos). unfold qsize in *.
    remember (Z.to_nat (maxsize (frame_queue self))) as C eqn:HC.
    remember (items (frame_queue self)) as old eqn:Hold.
    remember (pushed (camera_id self) reads) as new eqn:Hnew.
    assert (Htake : take C (old ++ new) = old ++ take (C - length old) new)
      by (rewrite take_app, (take_ge old) by lia; reflexivity).
    rewrite Htake in *. rewrite length_app in *.
    exists (length (take (C - length old) new)).
    rewrite Hi, Ht, Hd, length_app. rewrite length_take.
    split; [lia|]. split.
    { f_equal.
      destruct (Nat.le_ge_cases (C - length old) (length new));
        [rewrite Nat.min_l by lia; reflexivity
        |rewrite Nat.min_r by lia; rewrite !take_ge by lia; reflexivity]. }
    split; [lia|]. split; [rewrite ?length_app, ?length_take; lia|].
    intros _. rewrite ?length_app, ?length_take. lia.
  - destruct (stream_loop_unbounded FRAME_RATE reads self HFR Hrun Hunb) as (_ & Hi & Ht & Hd).
    exists (length (pushed (camera_id self) reads)).
    rewrite Hi, Ht, Hd, firstn_all. repeat split; try lia.
Qed.

(** X2 — a buffer size of zero or less.  [queue.Queue] is then unbounded:
    the loop never drops a frame, and every successful read is appended
    to the buffer in arrival order. *)
Theorem unbounded_buffer_keeps_every_frame (FRAME_RATE : Z) reads self :
  0 < FRAME_RATE ->
  is_running self = true ->
  maxsize (frame_queue self) <= 0 ->
  let self' := snd (_stream_loop FRAME_RATE reads self) in
  items (frame_queue self') = items (frame_queue self) ++ pushed (camera_id self) reads
  /\ total_frames self' = total_frames self
                          + Z.of_nat (length (pushed (camera_id self) reads))
  /\ dropped_frames self' = dropped_frames self.
Proof.
  intros HFR Hrun Hmax.
  destruct (stream_loop_unbounded FRAME_RATE reads self HFR Hrun Hmax) as (_ & H). exact H.
Qed.

(** [CameraStream.stop], spelled out. *)
Lemma stop_eq c w :
  stop (c, w) =
  (Ok tt,
   (set_running false c,
    add_log (logger_info ("Stopped camera: " +:+ camera_id c))
      match cap c with
      | Some h => release h w
      | None => w
      end)).
Proof.
  unfold stop, sbind, gets, on_self, on_world, modify, ret. simpl.
  destruct (cap c); reflexivity.
Qed.

Lemma isOpened_release (h h' : nat) w :
  isOpened h' (release h w) = if Nat.eqb h h' then false else isOpened h' w.
Proof.
  unfold isOpened, release. simpl.
  destruct (Nat.eqb_spec h h') as [->|Hne].
  - rewrite list_lookup_alter_eq. destruct (captures w !! h') as [[arg b]|]; reflexivity.
  - rewrite list_lookup_alter_ne by assumption. reflexivity.
Qed.

Lemma isOpened_add_log (h : nat) (f : list LogRecord -> list LogRecord) w :
  isOpened h (add_log f w) = isOpened h w.
Proof. reflexivity. Qed.

(** X3 — [stop()] is safe on any source.  It never raises; the running
    flag is lowered; the capture object the source holds, if any, is
    closed; buffer, counters, the [is_active] flag and the threads are
    left as they are; and a capture loop that looks at the source
    afterwards leaves at once. *)
Theorem stop_is_safe c w :
  let s' := snd (stop (c, w)) in
  fst (stop (c, w)) = Ok tt
  /\ is_running (fst s') = false
  /\ (forall h, cap c = Some h -> isOpened h (snd s') = false)
  /\ (cap c = None -> captures (snd s') = captures w)
  /\ frame_queue (fst s') = frame_queue c
  /\ total_frames (fst s') = total_frames c
  /\ dropped_frames (fst s') = dropped_frames c
  /\ is_active (fst s') = is_active c
  /\ threads (snd s') = threads w
  /\ (forall FRAME_RATE reads, _stream_loop FRAME_RATE reads (fst s') = (Ok tt, fst s')).
Proof.
  rewrite stop_eq. cbn [fst snd]. split; [reflexivity|]. split; [reflexivity|].
  split.
  { intros h ->. rewrite isOpened_add_log, isOpened_release, Nat.eqb_refl. reflexivity. }
  split; [intros ->; reflexivity|].
  repeat (split; [reflexivity || (destruct (cap c); reflexivity)|]).
  intros FRAME_RATE [|[read now] reads]; reflexivity.
Qed.

(** [get_frame], [n] times in a row. *)
Fixpoint get_frames (n : nat) self : list (option (FrameData Frame)) * CameraStream Frame :=
  match n with
  | O => ([], self)
  | S n =>
      let '(x, self) := get_frame self in
      let '(xs, self) := get_frames n self in
      (x :: xs, self)
  end.

Lemma get_frames_empty (k : nat) self :
  items (frame_queue self) = [] -> get_frames k self = (replicate k None, self).
Proof.
  intros Hl. induction k as [|k IH]; [reflexivity|].
  simpl. unfold get_frame, get_nowait. rewrite Hl, IH. reflexivity.
Qed.

Lemma get_frames_spec (k : nat) (l : list (FrameData Frame)) : forall self,
  items (frame_queue self) = l ->
  get_frames (length l + k) self =
  (map Some l ++ replicate k None,
   match l with
   | [] => self
   | _ :: _ => set_queue (mkQueue (maxsize (frame_queue self)) []) self
   end).
Proof.
  induction l as [|x l IH]; intros self Hl.
  - apply get_frames_empty. exact Hl.
  - simpl. unfold get_frame, get_nowait. rewrite Hl.
    rewrite (IH (set_queue (mkQueue (maxsize (frame_queue self)) l) self)) by reflexivity.
    destruct l; reflexivity.
Qed.

(** X4 — the buffer is first in, first out.  Pulling from a source hands
    out the buffered envelopes oldest first, each exactly once; when the
    buffer is empty [get_frame] answers [None] and changes nothing. *)
Theorem get_frame_fifo (k : nat) self :
  fst (get_frames (length (items (frame_queue self)) + k) self)
  = map Some (items (frame_queue self)) ++ replicate k None
  /\ (items (frame_queue self) = [] -> get_frame self = (None, self)).
Proof.
  split.
  - rewrite (get_frames_spec k _ self eq_refl). reflexivity.
  - intros H. unfold get_frame, get_nowait. rewrite H. reflexivity.
Qed.

(** X5 — a pull makes room for the next push.  With the buffer full a
    successful read is dropped; after one [get_frame], which hands out the
    oldest envelope, the same read is kept, behind the envelopes that were
    already waiting. *)
Theorem get_frame_frees_a_slot (f : Frame) (now : datetime) self
    (x : FrameData Frame) (rest : list (FrameData Frame)) :
  items (frame_queue self) = x :: rest ->
  0 < maxsize (frame_queue self) ->
  qsize (frame_queue self) = maxsize (frame_queue self) ->
  stream_iteration (Some f) now self = incr_dropped_frames self
  /\ fst (get_frame self) = Some x
  /\ items (frame_queue (stream_iteration (Some f) now (snd (get_frame self))))
     = rest ++ [mkFrameData f now (camera_id self)]
  /\ dropped_frames (stream_iteration (Some f) now (snd (get_frame self)))
     = dropped_frames self
  /\ total_frames (stream_iteration (Some f) now (snd (get_frame self)))
     = total_frames self + 1.
Proof.
  intros Hitems Hpos Hsize. unfold qsize in Hsize. rewrite Hitems in Hsize. simpl in Hsize.
  assert (Hfull : full (frame_queue self) = true).
  { apply full_spec. unfold qsize. rewrite Hitems. simpl. lia. }
  split; [unfold stream_iteration; rewrite (put_nowait_full _ _ Hfull); reflexivity|].
  unfold get_frame, get_nowait. rewrite Hitems. cbn [fst snd].
  split; [reflexivity|].
  assert (Hroom : full (frame_queue (set_queue (mkQueue (maxsize (frame_queue self)) rest) self))
                  = false).
  { apply not_true_is_false. rewrite full_spec. unfold qsize. simpl. lia. }
  unfold stream_iteration. rewrite (put_nowait_room _ _ Hroom). simpl.
  repeat split.
Qed.

(** *** Loading the configuration *)

(** The stream a descriptor with all three required keys gives. *)
Definition stream_of (B : Z) (cfg : CameraConfig) : CameraStream Frame :=
  CameraStream_init B (default "" (cfg_id cfg)) (default "" (cfg_name cfg))
    (default "" (cfg_type cfg)) (cfg_url cfg) (cfg_device_id cfg) (cfg_location cfg).

Definition entry_of (B : Z) (cfg : CameraConfig) : string * CameraStream Frame :=
  (default "" (cfg_id cfg), stream_of B cfg).

Definition well_formed (cfg : CameraConfig) : Prop :=
  is_Some (cfg_id cfg) /\ is_Some (cfg_name cfg) /\ is_Some (cfg_type cfg).

Lemma dict_get_set_eq (k : string) c cams : dict_get k (dict_set k c cams) = Some c.
Proof.
  induction cams as [|[k' c'] cams IH]; simpl.
  - rewrite String.eqb_refl. reflexivity.
  - destruct (String.eqb_spec k' k) as [->|Hne]; simpl.
    + rewrite String.eqb_refl. reflexivity.
    + apply String.eqb_neq in Hne. rewrite Hne. exact IH.
Qed.

Lemma dict_get_set_ne (k k' : string) c cams :
  k <> k' -> dict_get k' (dict_set k c cams) = dict_get k' cams.
Proof.
  intros Hne. induction cams as [|[k0 c0] cams IH]; simpl.
  - apply String.eqb_neq in Hne. rewrite Hne. reflexivity.
  - destruct (String.eqb_spec k0 k) as [->|Hne0]; simpl.
    + apply String.eqb_neq in Hne. rewrite Hne. reflexivity.
    + rewrite IH. reflexivity.
Qed.

Lemma dict_set_fresh (k : string) c cams :
  k ∉ map fst cams -> dict_set k c cams = cams ++ [(k, c)].
Proof.
  induction cams as [|[k0 c0] cams IH]; simpl; intros Hk; [reflexivity|].
  apply not_elem_of_cons in Hk as [Hne Hk].
  destruct (String.eqb_spec k0 k) as [->|_]; [congruence|].
  rewrite IH by assumption. reflexivity.
Qed.

(** Loading descriptors that carry their required keys is a sequence of
    dict assignments. *)
Lemma load_each_well_formed (B : Z) (configs : list CameraConfig) : forall cams,
  Forall well_formed configs ->
  load_each B configs cams =
  (Ok tt, fold_left (fun acc cfg => dict_set (default "" (cfg_id cfg)) (stream_of B cfg) acc)
                    configs cams).
Proof.
  induction configs as [|cfg configs IH]; intros cams Hwf; [reflexivity|].
  apply Forall_cons in Hwf as [([i Hi] & [n Hn] & [t Ht]) Hwf].
  simpl. unfold sbind, lift, modify, required. rewrite Hi, Hn, Ht. simpl.
  rewrite IH by assumption. unfold stream_of. rewrite Hi, Hn, Ht. reflexivity.
Qed.

Lemma load_each_missing_key (B : Z) (cfg : CameraConfig) (rest : list CameraConfig) cams :
  ~ well_formed cfg ->
  exists key, load_each B (cfg :: rest) cams = (Raise (Exception ("'" +:+ key +:+ "'")), cams)
              /\ (key = "id" \/ key = "name" \/ key = "type").
Proof.
  intros Hbad. simpl. unfold sbind, lift, modify, required.
  destruct (cfg_id cfg) as [i|] eqn:Hi; [|exists "id"; split; [reflexivity | tauto]].
  destruct (cfg_name cfg) as [n|] eqn:Hn; [|exists "name"; split; [reflexivity | tauto]].
  destruct (cfg_type cfg) as [t|] eqn:Ht; [|exists "type"; split; [reflexivity | tauto]].
  exfalso. apply Hbad. unfold well_formed. rewrite Hi, Hn, Ht. eauto.
Qed.

Lemma load_each_app (B : Z) (l1 l2 : list CameraConfig) : forall cams,
  load_each B (l1 ++ l2) cams =
  match load_each B l1 cams with
  | (Ok _, cams') => load_each B l2 cams'
  | (Raise e, cams') => (Raise e, cams')
  end.
Proof.
  induction l1 as [|cfg l1 IH]; intros cams; [reflexivity|].
  simpl. unfold sbind, lift, modify.
  destruct (required "id" (cfg_id cfg)); [|reflexivity].
  destruct (required "name" (cfg_name cfg)); [|reflexivity].
  destruct (required "type" (cfg_type cfg)); [|reflexivity].
  simpl. apply IH.
Qed.

Lemma fold_dict_set_distinct (B : Z) (configs : list CameraConfig) : forall cams,
  NoDup (map fst cams ++ map (fun cfg => default "" (cfg_id cfg)) configs) ->
  fold_left (fun acc cfg => dict_set (default "" (cfg_id cfg)) (stream_of B cfg) acc)
            configs cams
  = cams ++ map (entry_of B) configs.
Proof.
  induction configs as [|cfg configs IH]; intros cams Hnd; simpl.
  - rewrite app_nil_r. reflexivity.
  - assert (Hfresh : default "" (cfg_id cfg) ∉ map fst cams).
    { apply NoDup_app in Hnd as (_ & Hdisj & _). intros Hin.
      apply (Hdisj _ Hin). apply list_elem_of_here. }
    rewrite dict_set_fresh by assumption. rewrite IH.
    + rewrite <- app_assoc. reflexivity.
    + rewrite map_app. simpl. rewrite <- app_assoc. exact Hnd.
Qed.

Lemma Manager_init_eq (B : Z) (configs : list CameraConfig) :
  Manager_init B (Ok (Some configs)) =
  match load_each (Frame:=Frame) B configs [] with
  | (Ok _, cams) =>
      (mkManager cams false,
       [mkLog INFO ("Loaded " +:+ pretty (length cams) +:+ " cameras")])
  | (Raise e, cams) =>
      (mkManager cams false, [mkLog ERROR ("Failed to load cameras: " +:+ str_exn e)])
  end.
Proof.
  unfold Manager_init, _load_cameras, try_catch, sbind, lift, gets, modify. simpl.
  destruct (load_each B configs []) as [[[]|e] cams]; reflexivity.
Qed.

(** X6 — loading well-formed descriptors.  When every descriptor carries
    ['id'], ['name'] and ['type'] and the ids are pairwise distinct, the
    manager holds one stream per descriptor, in the order of the file,
    each stopped, inactive and with an empty buffer, and the count is
    logged. *)
Theorem load_cameras_in_order (B : Z) (configs : list CameraConfig) :
  Forall well_formed configs ->
  NoDup (map (fun cfg => default "" (cfg_id cfg)) configs) ->
  Manager_init B (Ok (Some configs)) =
  (mkManager (map (entry_of B) configs) false,
   [mkLog INFO ("Loaded " +:+ pretty (length configs) +:+ " cameras")]).
Proof.
  intros Hwf Hnd. rewrite Manager_init_eq, load_each_well_formed by assumption.
  rewrite fold_dict_set_distinct by exact Hnd. simpl. rewrite length_map. reflexivity.
Qed.

(** X7 — a descriptor without a required key ends the loading.  The
    streams of the descriptors before it are kept, the descriptors after
    it are not loaded, and the [KeyError] is logged instead of being
    raised. *)
Theorem load_cameras_stops_at_missing_key (B : Z) (good : list CameraConfig)
    (bad : CameraConfig) (rest : list CameraConfig) :
  Forall well_formed good ->
  NoDup (map (fun cfg => default "" (cfg_id cfg)) good) ->
  ~ well_formed bad ->
  exists key,
    Manager_init B (Ok (Some (good ++ bad :: rest))) =
    (mkManager (map (entry_of B) good) false,
     [mkLog ERROR ("Failed to load cameras: '" +:+ key +:+ "'")])
    /\ (key = "id" \/ key = "name" \/ key = "type").
Proof.
  intros Hwf Hnd Hbad.
  destruct (load_each_missing_key B bad rest (map (entry_of B) good) Hbad) as (key & E & Hkey).
  exists key. split; [|exact Hkey].
  rewrite Manager_init_eq, load_each_app, load_each_well_formed by assumption.
  rewrite fold_dict_set_distinct by exact Hnd. simpl app. rewrite E. reflexivity.
Qed.

Lemma fold_dict_set_get (B : Z) (cid : string) (configs : list CameraConfig) : forall cams,
  dict_get cid
    (fold_left (fun acc cfg => dict_set (default "" (cfg_id cfg)) (stream_of B cfg) acc)
               configs cams)
  = match last (filter (fun cfg => default "" (cfg_id cfg) = cid) configs) with
    | Some cfg => Some (stream_of B cfg)
    | None => dict_get cid cams
    end.
Proof.
  induction configs as [|cfg configs IH]; intros cams; [reflexivity|].
  simpl fold_left. rewrite IH, filter_cons.
  destruct (decide (default "" (cfg_id cfg) = cid)) as [Heq|Hne].
  - rewrite last_cons. destruct (last (filter _ configs)); [reflexivity|].
    rewrite <- Heq. apply dict_get_set_eq.
  - destruct (last (filter _ configs)); [reflexivity|].
    apply dict_get_set_ne. exact Hne.
Qed.

(** X8 — two descriptors with the same id.  After loading well-formed
    descriptors, [get_camera] answers for an id the stream built from the
    last descriptor carrying it (an earlier one is overwritten), and
    [None] for an id no descriptor carries. *)
Theorem load_cameras_last_descriptor_wins (B : Z) (configs : list CameraConfig)
    (cid : string) :
  Forall well_formed configs ->
  get_camera cid (fst (Manager_init B (Ok (Some configs))))
  = stream_of B <$> last (filter (fun cfg => default "" (cfg_id cfg) = cid) configs).
Proof.
  intros Hwf. rewrite Manager_init_eq, load_each_well_formed by assumption.
  unfold get_camera. simpl. rewrite fold_dict_set_get.
  destruct (last (filter _ configs)); reflexivity.
Qed.

(** *** Control by id *)

(** An id the manager does not know.  [start_camera], [stop_camera]
    and [restart_camera] then return normally and change nothing: no
    capture is opened, no thread spawned, nothing logged. *)
Theorem control_of_unknown_id_is_a_noop (cv2 : Cv2) (cid : string)
    (m : Manager Frame) w :
  get_camera cid m = None ->
  start_camera cv2 cid (m, w) = (Ok tt, (m, w))
  /\ stop_camera cid (m, w) = (Ok tt, (m, w))
  /\ restart_camera cv2 cid (m, w) = (Ok tt, (m, w)).
Proof.
  unfold get_camera. intros H.
  assert (Hstart : start_camera cv2 cid (m, w) = (Ok tt, (m, w)))
    by (unfold start_camera; simpl; rewrite H; reflexivity).
  assert (Hstop : stop_camera cid (m, w) = (Ok tt, (m, w)))
    by (unfold stop_camera; simpl; rewrite H; reflexivity).
  split; [exact Hstart|]. split; [exact Hstop|].
  unfold restart_camera, sbind. rewrite Hstop. exact Hstart.
Qed.

(** X9 — [start_camera] lets the error through.  Unlike the fleet start,
    starting one source by id has no [try]: when the transport of a known
    source does not open, the call raises "Failed to open camera <id>";
    the source is left not running, no capture loop is spawned, and the
    other sources are untouched. *)
Theorem start_camera_raises_when_unavailable (cv2 : Cv2) (cid : string)
    (m : Manager Frame) w c (arg : capture_arg) :
  get_camera cid m = Some c ->
  CameraManagerSpec.transport c = Some arg ->
  VideoCapture cv2 arg = Ok false ->
  let out := start_camera cv2 cid (m, w) in
  fst out = Raise (Exception ("Failed to open camera " +:+ camera_id c))
  /\ threads (snd (snd out)) = threads w
  /\ log (snd (snd out)) = log w
  /\ (exists c', get_camera cid (fst (snd out)) = Some c' /\ is_running c' = is_running c)
  /\ (forall k, k <> cid -> get_camera k (fst (snd out)) = get_camera k m).
Proof.
  unfold get_camera, CameraManagerSpec.transport. intros Hget Ht Hv.
  assert (E : start cv2 (c, w) =
              (Raise (Exception ("Failed to open camera " +:+ camera_id c)),
               (set_cap (Some (length (captures w))) c,
                mkWorld (captures w ++ [(arg, false)]) (threads w) (log w)))).
  { cbv [start sbind gets ret raise on_self on_world modify new_capture spawn_stream_loop
         add_log]. simpl.
    destruct (String.eqb (camera_type c) "ip").
    - injection Ht as <-. simpl. rewrite Hv. simpl.
      rewrite CameraManagerSpec.isOpened_new. reflexivity.
    - destruct (String.eqb (camera_type c) "rpi"); [|discriminate].
      injection Ht as <-. simpl. rewrite Hv. simpl.
      rewrite CameraManagerSpec.isOpened_new. reflexivity. }
  cbn zeta. unfold start_camera. cbn [fst snd]. rewrite Hget, E. cbn [fst snd].
  split; [reflexivity|]. split; [reflexivity|]. split; [reflexivity|]. split.
  - eexists. unfold get_camera. simpl. split; [apply dict_get_set_eq | reflexivity].
  - intros k Hk. unfold get_camera. simpl. apply dict_get_set_ne. congruence.
Qed.

(** *** Stopping the fleet *)

Lemma stop_each_spec cams : forall w,
  fst (stop_each cams w) = Ok tt
  /\ map fst (fst (snd (stop_each cams w))) = map fst cams
  /\ threads (snd (snd (stop_each cams w))) = threads w
  /\ (forall h, isOpened h w = false -> isOpened h (snd (snd (stop_each cams w))) = false)
  /\ (forall k c', (k, c') ∈ fst (snd (stop_each cams w)) ->
        is_running c' = false
        /\ forall h, cap c' = Some h -> isOpened h (snd (snd (stop_each cams w))) = false).
Proof.
  induction cams as [|[k c] cams IH]; intros w.
  - simpl. repeat split; auto. all: intros; exfalso; eapply not_elem_of_nil; eassumption.
  - simpl. rewrite stop_eq.
    set (w1 := add_log _ _).
    destruct (IH w1) as (Hok & Hkeys & Hth & Hclosed & Hall).
    destruct (stop_each cams w1) as [r [cams' w']]. simpl in *. subst r.
    split; [reflexivity|]. split; [rewrite Hkeys; reflexivity|].
    split; [rewrite Hth; subst w1; destruct (cap c); reflexivity|].
    assert (Hw1 : forall h, isOpened h w = false -> isOpened h w1 = false).
    { intros h Hh. subst w1. rewrite isOpened_add_log. destruct (cap c) as [h0|]; [|exact Hh].
      rewrite isOpened_release. destruct (Nat.eqb h0 h); [reflexivity | exact Hh]. }
    split; [intros h Hh; apply Hclosed, Hw1, Hh|].
    intros k' c' [[= -> ->] | Hin]%elem_of_cons.
    + split; [reflexivity|]. intros h Hcap. simpl in Hcap. apply Hclosed.
      subst w1. rewrite isOpened_add_log, Hcap, isOpened_release, Nat.eqb_refl. reflexivity.
    + apply (Hall k' c' Hin).
Qed.

(** X10 — stopping the fleet.  [CameraManager.stop] never raises; it keeps
    the sources and their order, spawns nothing, and leaves every source
    with its running flag lowered and its capture object, if it holds one,
    closed; the manager's own flag is lowered too. *)
Theorem manager_stop_stops_every_source (m : Manager Frame) w :
  let out := Manager_stop (m, w) in
  fst out = Ok tt
  /\ manager_running (fst (snd out)) = false
  /\ map fst (cameras (fst (snd out))) = map fst (cameras m)
  /\ threads (snd (snd out)) = threads w
  /\ (forall k c', (k, c') ∈ cameras (fst (snd out)) ->
        is_running c' = false
        /\ forall h, cap c' = Some h -> isOpened h (snd (snd out)) = false).
Proof.
  cbn zeta. unfold Manager_stop. cbn [fst snd].
  destruct (stop_each_spec (cameras m) w) as (Hok & Hkeys & Hth & _ & Hall).
  destruct (stop_each (cameras m) w) as [r [cams' w']]. simpl in *.
  repeat split; try assumption; apply (Hall k c' H).
Qed.

(** X11 — restarting a source.  For a known source that holds an open
    capture and whose transport opens again, [restart_camera] closes the
    old capture object, opens and holds a new one, raises the running flag
    and spawns one capture loop. *)
Theorem restart_camera_reopens (cv2 : Cv2) (cid : string) (m : Manager Frame) w c
    (h : nat) (arg : capture_arg) :
  get_camera cid m = Some c ->
  cap c = Some h ->
  (h < length (captures w))%nat ->
  CameraManagerSpec.transport c = Some arg ->
  VideoCapture cv2 arg = Ok true ->
  let out := restart_camera cv2 cid (m, w) in
  fst out = Ok tt
  /\ isOpened h (snd (snd out)) = false
  /\ isOpened (length (captures w)) (snd (snd out)) = true
  /\ threads (snd (snd out)) = threads w ++ [camera_id c]
  /\ (exists c', get_camera cid (fst (snd out)) = Some c'
                 /\ is_running c' = true
                 /\ cap c' = Some (length (captures w))
                 /\ frame_queue c' = frame_queue c).
Proof.
  unfold get_camera. intros Hget Hcap Hh Ht Hv. cbn zeta.
  unfold restart_camera, sbind, stop_camera. cbn [fst snd]. rewrite Hget, stop_eq, Hcap.
  cbn [fst snd]. unfold start_camera. cbn [fst snd cameras manager_running].
  rewrite dict_get_set_eq.
  assert (Ht' : CameraManagerSpec.transport (set_running false c) = Some arg) by exact Ht.
  rewrite (CameraManagerSpec.start_opens cv2 _ _ arg Ht' Hv). cbn [fst snd].
  assert (Hlen : length (captures (add_log (logger_info ("Stopped camera: " +:+ camera_id c))
                                     (release h w))) = length (captures w)).
  { simpl. rewrite length_alter. reflexivity. }
  split; [reflexivity|]. split.
  { unfold isOpened. simpl. rewrite lookup_app_l by (rewrite length_alter; exact Hh).
    rewrite list_lookup_alter_eq. destruct (captures w !! h) as [[a b]|]; reflexivity. }
  split.
  { rewrite <- Hlen at 1. simpl. unfold isOpened. simpl.
    rewrite lookup_app_r, length_alter, Nat.sub_diag by (rewrite length_alter; lia).
    reflexivity. }
  split; [reflexivity|].
  eexists. unfold get_camera. simpl. rewrite dict_get_set_eq.
  split; [reflexivity|]. split; [reflexivity|]. split; [|reflexivity].
  simpl. rewrite length_alter. reflexivity.
Qed.

End Streams.

Import CameraManagerSpec.

(** The stream of [running_stream] after the given reads at 30 frames per
    second. *)
Definition after_reads (BUFFER_SIZE : Z) (reads : list (option nat * datetime))
  : CameraStream nat :=
  snd (_stream_loop 30 reads (running_stream BUFFER_SIZE)).

(** The statement at five reads into a buffer of size three. *)
Lemma capture_loop_accounting_witness :
  exists k : nat,
    (k <= 5)%nat
    /\ total_frames (after_reads 3 five_reads) = 0 + Z.of_nat k
    /\ dropped_frames (after_reads 3 five_reads) = 0 + (5 - Z.of_nat k).
Proof.
  destruct (capture_loop_accounting 30 five_reads (running_stream 3))
    as (k & Hk & _ & Ht & Hd & _).
  - lia.
  - reflexivity.
  - intros _. vm_compute. discriminate.
  - exists k. split; [exact Hk|]. split; [exact Ht | exact Hd].
Defined.

(** The statement at five reads into a buffer configured with size 0. *)
Lemma unbounded_buffer_keeps_every_frame_witness :
  map frame (items (frame_queue (after_reads 0 five_reads))) = [1; 2; 3; 4; 5]%nat
  /\ dropped_frames (after_reads 0 five_reads) = 0.
Proof.
  destruct (unbounded_buffer_keeps_every_frame 30 five_reads (running_stream 0))
    as (Hi & _ & Hd).
  - lia.
  - reflexivity.
  - simpl. lia.
  - split; [unfold after_reads; rewrite Hi; reflexivity | exact Hd].
Defined.

(** A local camera, started on an OpenCV where every transport opens. *)
Definition started_camera : CameraStream nat * World :=
  snd (start cv2_all_open
         (CameraStream_init 10 "camera_2" "Computer Lab" "rpi" None (Some 0) None,
          empty_world)).

(** The statement at the started camera: its capture object 0 is closed. *)
Lemma stop_is_safe_witness :
  cap (fst started_camera) = Some 0%nat
  /\ isOpened 0 (snd started_camera) = true
  /\ isOpened 0 (snd (snd (stop started_camera))) = false
  /\ is_active (fst (snd (stop started_camera))) = true.
Proof.
  destruct (stop_is_safe (fst started_camera) (snd started_camera))
    as (_ & _ & Hclosed & _ & _ & _ & _ & Hactive & _).
  split; [reflexivity|]. split; [reflexivity|]. split.
  - apply (Hclosed 0%nat). reflexivity.
  - exact Hactive.
Defined.

(** The statement at a buffer holding frames 1 and 2, pulled three times. *)
Lemma get_frame_fifo_witness :
  map (option_map frame) (fst (get_frames 3 (after_reads 2 five_reads)))
  = [Some 1; Some 2; None]%nat
  /\ get_frame (running_stream 2) = (None, running_stream 2).
Proof.
  destruct (get_frame_fifo 1 (after_reads 2 five_reads)) as [Hall _].
  destruct (get_frame_fifo 0 (running_stream 2)) as [_ Hempty].
  split.
  - change 3%nat with (length (items (frame_queue (after_reads 2 five_reads))) + 1)%nat.
    rewrite Hall. reflexivity.
  - apply Hempty. reflexivity.
Defined.

(** The statement at the full buffer of size two and a sixth frame. *)
Lemma get_frame_frees_a_slot_witness :
  stream_iteration (Some 6%nat) 60 (after_reads 2 five_reads)
  = incr_dropped_frames (after_reads 2 five_reads)
  /\ map frame (items (frame_queue (stream_iteration (Some 6%nat) 60
                                      (snd (get_frame (after_reads 2 five_reads))))))
     = [2; 6]%nat.
Proof.
  destruct (get_frame_frees_a_slot 6%nat 60 (after_reads 2 five_reads)
              (mkFrameData 1%nat 10 "cam1") [mkFrameData 2%nat 20 "cam1"])
    as (Hdrop & _ & Hitems & _).
  - reflexivity.
  - simpl. lia.
  - reflexivity.
  - split; [exact Hdrop | rewrite Hitems; reflexivity].
Defined.

Lemma two_descriptors_well_formed : Forall well_formed [main_entrance; cafeteria].
Proof. repeat constructor; eexists; reflexivity. Defined.

(** The statement at the two descriptors of the fleet. *)
Lemma load_cameras_in_order_witness :
  map fst (cameras (fst (Manager_init (Frame:=nat) 10 (Ok (Some [main_entrance; cafeteria])))))
  = ["camera_1"; "camera_4"].
Proof.
  rewrite (load_cameras_in_order 10 [main_entrance; cafeteria]).
  - reflexivity.
  - exact two_descriptors_well_formed.
  - apply (bool_decide_unpack _). vm_compute. reflexivity.
Defined.

(** A descriptor without ['name']. *)
Definition nameless : CameraConfig :=
  mkConfig (Some "camera_7") None (Some "ip") (Some "rtsp://10.0.0.7/stream") None None None.

(** The statement at a nameless descriptor between the two of the fleet:
    only the first is loaded. *)
Lemma load_cameras_stops_at_missing_key_witness :
  exists key,
    Manager_init (Frame:=nat) 10 (Ok (Some ([main_entrance] ++ nameless :: [cafeteria]))) =
    (mkManager (map (entry_of 10) [main_entrance]) false,
     [mkLog ERROR ("Failed to load cameras: '" +:+ key +:+ "'")])
    /\ (key = "id" \/ key = "name" \/ key = "type").
Proof.
  apply (load_cameras_stops_at_missing_key 10 [main_entrance] nameless [cafeteria]).
  - repeat constructor; eexists; reflexivity.
  - apply (bool_decide_unpack _). vm_compute. reflexivity.
  - intros (_ & [n Hn] & _). discriminate.
Defined.

(** A second descriptor for ["camera_1"]. *)
Definition side_entrance : CameraConfig :=
  mkConfig (Some "camera_1") (Some "Side Entrance") (Some "rpi") None (Some 2) None None.

(** The statement at two descriptors for ["camera_1"]: the second is the
    one served. *)
Lemma load_cameras_last_descriptor_wins_witness :
  name <$> get_camera (Frame:=nat) "camera_1"
             (fst (Manager_init 10 (Ok (Some [main_entrance; cafeteria; side_entrance]))))
  = Some "Side Entrance".
Proof.
  rewrite (load_cameras_last_descriptor_wins 10 [main_entrance; cafeteria; side_entrance]).
  - reflexivity.
  - repeat constructor; eexists; reflexivity.
Defined.

(** The statement at the fleet and an id it does not hold. *)
Lemma control_of_unknown_id_is_a_noop_witness :
  restart_camera cv2_all_open "camera_9" (fleet, empty_world) = (Ok tt, (fleet, empty_world)).
Proof.
  destruct (control_of_unknown_id_is_a_noop cv2_all_open "camera_9" fleet empty_world)
    as (_ & _ & H); [reflexivity | exact H].
Defined.

(** The statement at the network camera of the fleet, which cannot be
    opened. *)
Lemma start_camera_raises_when_unavailable_witness :
  fst (start_camera cv2_devices_only "camera_1" (fleet, empty_world))
  = Raise (Exception "Failed to open camera camera_1")
  /\ threads (snd (snd (start_camera cv2_devices_only "camera_1" (fleet, empty_world)))) = [].
Proof.
  destruct (start_camera_raises_when_unavailable cv2_devices_only "camera_1" fleet empty_world
              (stream_of 10 main_entrance)
              (ArgUrl (Some "rtsp://192.168.1.100:554/stream1")))
    as (Hr & Ht & _); try reflexivity.
  split; [exact Hr | exact Ht].
Defined.

(** The fleet after [CameraManager.start], every transport opening. *)
Definition fleet_started : Manager nat * World :=
  Manager_start cv2_all_open fleet empty_world.

(** The statement at the started fleet: the cafeteria camera is stopped
    and its capture object 1 is closed. *)
Lemma manager_stop_stops_every_source_witness :
  exists c', ("camera_4", c') ∈ cameras (fst (snd (Manager_stop fleet_started)))
             /\ cap c' = Some 1%nat
             /\ is_running c' = false
             /\ isOpened 1 (snd fleet_started) = true
             /\ isOpened 1 (snd (snd (Manager_stop fleet_started))) = false.
Proof.
  destruct (manager_stop_stops_every_source (fst fleet_started) (snd fleet_started))
    as (_ & _ & _ & _ & Hall).
  eexists. split; [vm_compute; apply list_elem_of_further, list_elem_of_here|].
  split; [reflexivity|].
  match goal with
  | |- is_running ?c = _ /\ _ =>
      destruct (Hall "camera_4" c) as [Hrun Hclosed];
        [vm_compute; apply list_elem_of_further, list_elem_of_here|]
  end.
  split; [exact Hrun|]. split; [reflexivity|]. apply Hclosed. reflexivity.
Defined.

(** The statement at the started fleet: the cafeteria camera is given
    capture object 2 in place of 1. *)
Lemma restart_camera_reopens_witness :
  fst (restart_camera cv2_all_open "camera_4" fleet_started) = Ok tt
  /\ isOpened 1 (snd (snd (restart_camera cv2_all_open "camera_4" fleet_started))) = false
  /\ isOpened 2 (snd (snd (restart_camera cv2_all_open "camera_4" fleet_started))) = true
  /\ threads (snd (snd (restart_camera cv2_all_open "camera_4" fleet_started)))
     = ["camera_1"; "camera_4"; "camera_4"].
Proof.
  destruct (get_camera "camera_4" (fst fleet_started)) as [c|] eqn:Hc; [|discriminate].
  destruct (restart_camera_reopens cv2_all_open "camera_4" (fst fleet_started)
              (snd fleet_started) c 1 (ArgDevice (Some 1)) Hc)
    as (Hok & Hold & Hnew & Hth & _).
  - vm_compute in Hc. injection Hc as <-. reflexivity.
  - simpl. lia.
  - vm_compute in Hc. injection Hc as <-. reflexivity.
  - reflexivity.
  - rewrite <- surjective_pairing in Hok, Hold, Hnew, Hth.
    split; [exact Hok|]. split; [exact Hold|]. split; [exact Hnew|].
    rewrite Hth. vm_compute in Hc. injection Hc as <-. reflexivity.
Defined.

End CameraManagerFacts.

(* --------------------------------------------------------------------- *)
(** ** Detector, engine life cycle and worker loop                        *)
(* --------------------------------------------------------------------- *)

Module DetectionEngineFacts.

Import DetectionEngine.

Section Engine.

Context {Frame : Type}.

Implicit Types (det : Detector Frame) (self : t Frame) (w : World) (env : Env)
  (process : Frame -> M Log Results) (fd : CameraManager.FrameData Frame)
  (r : Results) (log : Log).

Ltac unfold_engine :=
  cbv [worker_iteration worker_body _save_detection _update_statistics try_catch sbind
       gets lift on_self on_world modify ret raise add_log update_metadata
       camera_id timestamp put_nowait start stop get_results add_frame].

(** X12 — starting the engine.  On a stopped engine [start()] raises the
    flag and spawns [max_workers] workers, named [DetectionWorker-0]
    onwards, leaving both queues as they are; a second [start()] changes
    nothing. *)
Theorem engine_start_spawns_workers self w :
  is_running self = false ->
  let out := start (self, w) in
  let names := map worker_name (seq 0 (max_workers self)) in
  fst out = Ok tt
  /\ is_running (fst (snd out)) = true
  /\ worker_threads (fst (snd out)) = worker_threads self ++ names
  /\ threads (snd (snd out)) = threads w ++ names
  /\ length names = max_workers self
  /\ frame_queue (fst (snd out)) = frame_queue self
  /\ result_queue (fst (snd out)) = result_queue self
  /\ start (snd out) = (Ok tt, snd out).
Proof.
  intros Hstopped. unfold_engine. simpl. rewrite Hstopped. simpl.
  rewrite length_map, length_seq. repeat split.
Qed.

(** Stopping the engine.  [stop()] never raises; it lowers the flag
    and forgets the workers but keeps both queues, so frames still waiting
    and results not yet drained stay where they are; a worker that looks
    at the flag afterwards leaves its loop without touching anything. *)
Theorem engine_stop_halts_workers (cv2 : Cv2 Frame) process (envs : list Env) self w :
  let out := stop (self, w) in
  fst out = Ok tt
  /\ is_running (fst (snd out)) = false
  /\ worker_threads (fst (snd out)) = []
  /\ frame_queue (fst (snd out)) = frame_queue self
  /\ result_queue (fst (snd out)) = result_queue self
  /\ table (snd (snd out)) = table w
  /\ _worker_loop cv2 process envs (snd out) = snd out.
Proof.
  unfold_engine. simpl. repeat split. destruct envs; reflexivity.
Qed.

(** Draining results.  [get_results] hands out every queued result,
    oldest first, and leaves the queue empty with its size limit; an
    immediate second call answers the empty list. *)
Theorem get_results_drains self w :
  let out := get_results (self, w) in
  fst out = Ok (items (result_queue self))
  /\ result_queue (fst (snd out)) = mkQueue (maxsize (result_queue self)) []
  /\ frame_queue (fst (snd out)) = frame_queue self
  /\ snd (snd out) = w
  /\ fst (get_results (snd out)) = Ok [].
Proof. unfold_engine. simpl. repeat split. Qed.

(** The row [_save_detection] builds from a result. *)
Definition row_of fd r : Database.Detection :=
  Database.mkDetection (CameraManager.frame_camera_id fd) (CameraManager.timestamp fd)
    (Some (faces_detected r)) (Some (masks_detected r)) (Some (no_masks_detected r))
    (Some (confidence_score r)).

(** X13 — a full output queue.  When the result queue is full the worker
    still stores the detection in the table, then drops the result with a
    warning; the frame counts as processed. *)
Theorem full_result_queue_drops_after_storing (cv2 : Cv2 Frame) process env self w fd
    (q' : Queue (CameraManager.FrameData Frame)) r (l : Log) (sh : list Z) :
  get_nowait (frame_queue self) = Ok (fd, q') ->
  process (CameraManager.frame fd) (log w) = (Ok r, l) ->
  shape cv2 (CameraManager.frame fd) = Ok sh ->
  session_commit env (row_of fd r) = Ok tt ->
  full (result_queue self) = true ->
  let s' := snd (worker_iteration cv2 process env (self, w)) in
  result_queue (fst s') = result_queue self
  /\ table (snd s') = table w ++ [row_of fd r]
  /\ log (snd s') = logger_warning "Result queue full, dropping result" l
  /\ total_frames_processed (fst s') = total_frames_processed self + 1
  /\ frame_queue (fst s') = q'.
Proof.
  intros Hget Hproc Hsh Hcommit Hfull. unfold row_of in Hcommit.
  destruct self. simpl in *. unfold_engine. simpl. rewrite Hget. simpl. rewrite Hproc. simpl.
  rewrite Hsh. simpl. rewrite Hcommit. simpl. rewrite Hfull. simpl.
  destruct (Qle_bool 1 _); repeat split.
Qed.

(** One iteration on a waiting frame, when the detector answers, the array
    has a shape and the output queue is unbounded. *)
Lemma worker_iteration_takes_head (cv2 : Cv2 Frame) process env self w fd
    (rest : list (CameraManager.FrameData Frame)) :
  (forall f l, exists r l', process f l = (Ok r, l')) ->
  (forall f, exists sh, shape cv2 f = Ok sh) ->
  items (frame_queue self) = fd :: rest ->
  maxsize (result_queue self) <= 0 ->
  let s' := snd (worker_iteration cv2 process env (self, w)) in
  exists r,
    frame_queue (fst s') = mkQueue (maxsize (frame_queue self)) rest
    /\ result_queue (fst s') = mkQueue (maxsize (result_queue self)) (items (result_queue self) ++ [r])
    /\ camera_id r = Some (CameraManager.frame_camera_id fd)
    /\ timestamp r = Some (CameraManager.timestamp fd)
    /\ is_running (fst s') = is_running self
    /\ total_frames_processed (fst s') = total_frames_processed self + 1.
Proof.
  intros Hproc Hshape Hitems Hunb.
  destruct (Hproc (CameraManager.frame fd) (log w)) as (r & l & Er).
  destruct (Hshape (CameraManager.frame fd)) as (sh & Esh).
  assert (Hfull : full (result_queue self) = false).
  { unfold full. destruct (Z.ltb_spec 0 (maxsize (result_queue self))); [lia | reflexivity]. }
  destruct self. simpl in *. unfold_engine. unfold get_nowait. simpl. rewrite Hitems. simpl.
  rewrite Er. simpl. rewrite Esh. simpl.
  destruct (session_commit env _); simpl; rewrite Hfull; simpl;
    destruct (Qle_bool 1 _); eexists; repeat split.
Qed.

Lemma worker_iteration_idle (cv2 : Cv2 Frame) process env self w :
  items (frame_queue self) = [] ->
  worker_iteration cv2 process env (self, w) = (Ok tt, (self, w)).
Proof.
  intros Hitems. unfold_engine. unfold get_nowait. simpl. rewrite Hitems. reflexivity.
Qed.

(** The camera and time a result or an envelope belongs to. *)
Definition result_origin r : option string * option datetime := (camera_id r, timestamp r).

Definition frame_origin fd : option string * option datetime :=
  (Some (CameraManager.frame_camera_id fd), Some (CameraManager.timestamp fd)).

Lemma worker_loop_fifo (cv2 : Cv2 Frame) process (envs : list Env) :
  (forall f l, exists r l', process f l = (Ok r, l')) ->
  (forall f, exists sh, shape cv2 f = Ok sh) ->
  forall self w,
    is_running self = true ->
    maxsize (result_queue self) <= 0 ->
    (length (items (frame_queue self)) <= length envs)%nat ->
    let s' := _worker_loop cv2 process envs (self, w) in
    items (frame_queue (fst s')) = []
    /\ map result_origin (items (result_queue (fst s')))
       = map result_origin (items (result_queue self))
         ++ map frame_origin (items (frame_queue self))
    /\ total_frames_processed (fst s')
       = total_frames_processed self + Z.of_nat (length (items (frame_queue self))).
Proof.
  intros Hproc Hshape.
  induction envs as [|env envs IH]; intros self w Hrun Hunb Hlen.
  - simpl in *. destruct (items (frame_queue self)); [|simpl in Hlen; lia].
    simpl. rewrite app_nil_r. repeat split; lia.
  - simpl. rewrite Hrun.
    destruct (items (frame_queue self)) as [|fd rest] eqn:Hitems.
    + rewrite (worker_iteration_idle _ _ _ _ _ Hitems). cbn [snd].
      destruct (IH self w Hrun Hunb) as (Hq & Hres & Htot); [rewrite Hitems; simpl; lia|].
      rewrite Hitems in *. exact (conj Hq (conj Hres Htot)).
    + destruct (worker_iteration_takes_head cv2 process env self w fd rest
                  Hproc Hshape Hitems Hunb) as (r & Hfq & Hrq & Hcid & Hts & Hrun' & Htot').
      destruct (worker_iteration cv2 process env (self, w)) as [res [self1 w1]].
      cbn [fst snd] in *.
      destruct (IH self1 w1) as (Hq & Hres & Htot).
      * congruence.
      * rewrite Hrq. simpl. exact Hunb.
      * rewrite Hfq. simpl in *. lia.
      * rewrite Hfq, Hrq in *. simpl in *.
        split; [exact Hq|]. split.
        { rewrite Hres, map_app, <- app_assoc. simpl. unfold result_origin at 2, frame_origin at 2.
          rewrite Hcid, Hts. reflexivity. }
        rewrite Htot, Htot'. lia.
Qed.

(** X14 — one worker keeps the order of arrival.  With the detector of
    the repository, on frames whose array has a shape and with an
    unbounded output queue, a single worker that gets at least as many
    turns as there are frames waiting empties the input queue and queues
    one result per frame, in the order the frames arrived, each carrying
    the camera id and timestamp of its frame. *)
Theorem single_worker_keeps_arrival_order (cv2 : Cv2 Frame) det (envs : list Env) self w :
  (forall f, exists sh, shape cv2 f = Ok sh) ->
  is_running self = true ->
  maxsize (result_queue self) <= 0 ->
  (length (items (frame_queue self)) <= length envs)%nat ->
  let s' := _worker_loop cv2 (process_frame cv2 det) envs (self, w) in
  items (frame_queue (fst s')) = []
  /\ map result_origin (items (result_queue (fst s')))
     = map result_origin (items (result_queue self))
       ++ map frame_origin (items (frame_queue self))
  /\ total_frames_processed (fst s')
     = total_frames_processed self + Z.of_nat (length (items (frame_queue self))).
Proof.
  intros Hshape. apply worker_loop_fifo; [|exact Hshape].
  intros f l. apply DetectionEngineSpec.process_frame_returns.
Qed.

(** [add_frame] for each envelope of a list, as the coordinator does. *)
Fixpoint add_frames (fds : list (CameraManager.FrameData Frame)) (s : t Frame * World)
  : t Frame * World :=
  match fds with
  | [] => s
  | fd :: rest => add_frames rest (snd (add_frame fd s))
  end.

Definition queue_full_warning : LogRecord := mkLog WARNING "Frame queue full, dropping frame".

Lemma add_frame_eq fd self w :
  add_frame fd (self, w) =
  if full (frame_queue self)
  then (Ok PyNone, (self, add_log (logger_warning "Frame queue full, dropping frame") w))
  else (Ok PyNone,
        (set_frame_queue (mkQueue (maxsize (frame_queue self))
                            (items (frame_queue self) ++ [fd])) self, w)).
Proof.
  unfold add_frame, sbind, gets, on_self, on_world, modify, ret, put_nowait. simpl.
  destruct (full (frame_queue self)); reflexivity.
Qed.

(** X15 — the ingress keeps the oldest frames.  Feeding envelopes to a
    bounded input queue keeps them in arrival order up to the size of the
    queue; every envelope beyond it is dropped with one warning each, and
    the queue never holds more than its size. *)
Theorem add_frame_keeps_oldest (fds : list (CameraManager.FrameData Frame)) : forall self w,
  0 < maxsize (frame_queue self) ->
  qsize (frame_queue self) <= maxsize (frame_queue self) ->
  let C := Z.to_nat (maxsize (frame_queue self)) in
  let all := items (frame_queue self) ++ fds in
  let s' := add_frames fds (self, w) in
  items (frame_queue (fst s')) = take C all
  /\ log (snd s') = log w ++ replicate (length all - C) queue_full_warning
  /\ result_queue (fst s') = result_queue self.
Proof.
  induction fds as [|fd fds IH]; intros self w Hpos Hsize; cbn zeta.
  - unfold qsize in Hsize. simpl. rewrite app_nil_r, take_ge by lia.
    replace (length (items (frame_queue self)) - _)%nat with 0%nat by lia.
    simpl. rewrite app_nil_r. repeat split.
  - simpl add_frames. rewrite add_frame_eq.
    unfold qsize in *.
    destruct (full (frame_queue self)) eqn:Ef; cbn [snd].
    + apply full_spec in Ef. unfold qsize in Ef.
      destruct (IH self (add_log (logger_warning "Frame queue full, dropping frame") w)
                  Hpos Hsize) as (Hi & Hl & Hr).
      rewrite Hi, Hl, Hr. clear Hi Hl Hr.
      rewrite !take_app_le by lia. rewrite !length_app. simpl.
      split; [reflexivity|]. split; [|reflexivity].
      unfold logger_warning. rewrite <- app_assoc. f_equal.
      replace (length (items (frame_queue self)) + S (length fds)
               - Z.to_nat (maxsize (frame_queue self)))%nat
        with (S (length (items (frame_queue self)) + length fds
                 - Z.to_nat (maxsize (frame_queue self))))%nat by lia.
      reflexivity.
    + assert (Hlt : Z.of_nat (length (items (frame_queue self))) < maxsize (frame_queue self)).
      { destruct (Z_lt_le_dec (Z.of_nat (length (items (frame_queue self))))
                    (maxsize (frame_queue self))); [assumption|].
        assert (full (frame_queue self) = true) by (apply full_spec; unfold qsize; lia).
        congruence. }
      destruct (IH (set_frame_queue
                      (mkQueue (maxsize (frame_queue self)) (items (frame_queue self) ++ [fd]))
                      self) w) as (Hi & Hl & Hr).
      * exact Hpos.
      * simpl. rewrite length_app. simpl. lia.
      * simpl in Hi, Hl, Hr. rewrite Hi, Hl, Hr.
        rewrite <- !app_assoc. simpl. rewrite !length_app. simpl.
        split; [reflexivity|]. split; reflexivity.
Qed.

(** *** The detector *)

(** X16 — what a prediction reports.  Without a model the colour
    heuristic answers ["no_mask"] with a confidence above 0.3 or ["mask"]
    with a confidence of at least 0.7, never ["unknown"], and logs
    nothing.  With a model the answer is ["mask"] with a confidence above
    the threshold, ["no_mask"] with a confidence of at least one minus the
    threshold, or, when the model raises, ["unknown"] with confidence 0
    and one error record. *)
Theorem predict_mask_reports (cv2 : Cv2 Frame) det (roi : Frame) log
    (status : string) (conf : Q) (log' : Log) :
  predict_mask cv2 det roi log = (Ok (status, conf), log') ->
  (model det = None ->
   log' = log
   /\ ((status = "no_mask" /\ (3 # 10 < conf)%Q) \/ (status = "mask" /\ (7 # 10 <= conf)%Q)))
  /\ (is_Some (model det) ->
      (status = "mask" /\ (confidence_threshold det < conf)%Q /\ log' = log)
      \/ (status = "no_mask" /\ (1 - confidence_threshold det <= conf)%Q /\ log' = log)
      \/ (status = "unknown" /\ conf = 0%Q /\ exists e,
             log' = logger_error ("Error in mask prediction: " +:+ str_exn e) log)).
Proof.
  unfold predict_mask, _basic_mask_detection, try_catch, sbind, lift, modify, ret.
  destruct (model det) as [predict|].
  - intros H. split; [discriminate|]. intros _.
    destruct (predict roi) as [c|e].
    + destruct (Qltb (confidence_threshold det) c) eqn:Ec; injection H as <- <- <-.
      * left. apply Qltb_true in Ec. auto.
      * right. left. apply Qltb_false in Ec. split; [reflexivity|]. split; [lra | reflexivity].
    + injection H as <- <- <-. right. right. repeat split. eauto.
  - intros H. split; [|intros [? [=]]]. intros _.
    destruct (skin_pixels cv2 roi) as [skin|e]; [|discriminate].
    destruct (shape cv2 roi) as [sh|e]; [|discriminate].
    destruct (nth 0 sh 0 * nth 1 sh 0 =? 0); [discriminate|].
    destruct (Qltb (3 # 10) _) eqn:Ec; injection H as <- <- <-; split; try reflexivity.
    + left. apply Qltb_true in Ec. auto.
    + right. apply Qltb_false in Ec. split; [reflexivity | lra].
Qed.

(** The record a loaded model gives for one face. *)
Definition model_record (cv2 : Cv2 Frame) (predict : Frame -> exc Q) (threshold : Q)
    (frame : Frame) (box : bbox) : FaceDetection :=
  match predict (crop cv2 frame box) with
  | Ok c =>
      if Qltb threshold c then mkFace box "mask" c else mkFace box "no_mask" (1 - c)%Q
  | Raise _ => mkFace box "unknown" 0%Q
  end.

(** The number of records with a given label. *)
Definition count_status (status : string) (l : list FaceDetection) : Z :=
  Z.of_nat (length (filter (fun d => mask_status d = status) l)).

Definition record (r : Results) (d : FaceDetection) : Results :=
  DetectionEngineSpec.record_face (face_bbox d) (mask_status d) (confidence d) r.

Lemma record_fields r (d : FaceDetection) :
  detections (record r d) = detections r ++ [d]
  /\ faces_detected (record r d) = faces_detected r
  /\ confidence_score (record r d) = confidence_score r
  /\ masks_detected (record r d) = masks_detected r + count_status "mask" [d]
  /\ no_masks_detected (record r d) = no_masks_detected r + count_status "no_mask" [d].
Proof.
  unfold record, DetectionEngineSpec.record_face, count_status.
  rewrite !filter_cons, !filter_nil. destruct d as [box status conf]. simpl.
  destruct (String.eqb_spec status "mask") as [->|Hm].
  - simpl. repeat split; try lia.
  - destruct (String.eqb_spec status "no_mask") as [->|Hn]; simpl.
    + repeat split; lia.
    + rewrite !decide_False by assumption. simpl. repeat split; lia.
Qed.

Lemma count_status_cons (status : string) (d : FaceDetection) (l : list FaceDetection) :
  count_status status (d :: l) = count_status status [d] + count_status status l.
Proof.
  unfold count_status. rewrite !filter_cons, filter_nil.
  destruct (decide (mask_status d = status)); cbn [length]; lia.
Qed.

Lemma fold_record_fields (recs : list FaceDetection) : forall r,
  detections (fold_left record recs r) = detections r ++ recs
  /\ faces_detected (fold_left record recs r) = faces_detected r
  /\ confidence_score (fold_left record recs r) = confidence_score r
  /\ masks_detected (fold_left record recs r) = masks_detected r + count_status "mask" recs
  /\ no_masks_detected (fold_left record recs r)
     = no_masks_detected r + count_status "no_mask" recs.
Proof.
  induction recs as [|d recs IH]; intros r.
  - unfold count_status. simpl. rewrite app_nil_r. repeat split; lia.
  - simpl. destruct (IH (record r d)) as (Hd & Hf & Hc & Hm & Hn).
    destruct (record_fields r d) as (Hd' & Hf' & Hc' & Hm' & Hn').
    rewrite Hd, Hf, Hc, Hm, Hn, Hd', Hf', Hc', Hm', Hn', <- app_assoc.
    rewrite (count_status_cons "mask" d recs), (count_status_cons "no_mask" d recs).
    do 3 (split; [reflexivity|]). split; lia.
Qed.

Lemma classify_faces_with_model (cv2 : Cv2 Frame) det (predict : Frame -> exc Q)
    (frame : Frame) (faces : list bbox) :
  model det = Some predict ->
  forall (tc : Q) r log,
  exists log',
    classify_faces cv2 det frame faces tc (r, log) =
    (Ok (fold_left Qplus
           (map confidence (map (model_record cv2 predict (confidence_threshold det) frame) faces))
           tc),
     (fold_left record (map (model_record cv2 predict (confidence_threshold det) frame) faces) r,
      log')).
Proof.
  intros Hm. induction faces as [|box faces IH]; intros tc r log.
  - exists log. reflexivity.
  - rewrite DetectionEngineSpec.classify_faces_step.
    assert (E : exists log1,
               predict_mask cv2 det (crop cv2 frame box) log
               = (Ok (mask_status (model_record cv2 predict (confidence_threshold det) frame box),
                      confidence (model_record cv2 predict (confidence_threshold det) frame box)),
                  log1)).
    { unfold predict_mask, model_record, try_catch, sbind, lift, modify, ret. rewrite Hm.
      destruct (predict (crop cv2 frame box)) as [c|e];
        [destruct (Qltb (confidence_threshold det) c)|]; eauto. }
    destruct E as (log1 & ->).
    destruct (IH (tc + confidence (model_record cv2 predict (confidence_threshold det) frame box))%Q
                (DetectionEngineSpec.record_face box
                   (mask_status (model_record cv2 predict (confidence_threshold det) frame box))
                   (confidence (model_record cv2 predict (confidence_threshold det) frame box)) r)
                log1) as (log' & ->).
    exists log'. simpl. unfold record.
    assert (Hbox : face_bbox (model_record cv2 predict (confidence_threshold det) frame box) = box).
    { unfold model_record. destruct (predict _); [destruct (Qltb _ _)|]; reflexivity. }
    rewrite Hbox. reflexivity.
Qed.

(** X17 — a frame through a loaded model.  When face detection succeeds
    and a model is loaded, [process_frame] returns one record per face, in
    the order of the faces and with the face's box: ["mask"] when the
    model's output exceeds the threshold, ["no_mask"] otherwise, and
    ["unknown"] when the model raises on that face.  [faces_detected] is
    the number of faces, [masks_detected] and [no_masks_detected] are the
    numbers of records so labelled, and [confidence_score] is the mean of
    the recorded confidences (0 when there is no face). *)
Theorem process_frame_with_model (cv2 : Cv2 Frame) det (predict : Frame -> exc Q)
    (frame : Frame) (faces : list bbox) log :
  model det = Some predict ->
  detect_faces cv2 frame = Ok faces ->
  exists r log',
    process_frame cv2 det frame log = (Ok r, log')
    /\ detections r = map (model_record cv2 predict (confidence_threshold det) frame) faces
    /\ faces_detected r = Z.of_nat (length faces)
    /\ masks_detected r = count_status "mask" (detections r)
    /\ no_masks_detected r = count_status "no_mask" (detections r)
    /\ confidence_score r =
       match faces with
       | [] => 0%Q
       | _ :: _ => (fold_left Qplus (map confidence (detections r)) 0
                    / inject_Z (Z.of_nat (length faces)))%Q
       end.
Proof.
  intros Hm Hfaces.
  destruct (DetectionEngineSpec.process_frame_result cv2 det frame log) as (log' & E).
  eexists _, log'. split; [exact E|].
  rewrite DetectionEngineSpec.process_frame_body_eq, Hfaces. cbn zeta.
  destruct faces as [|box faces].
  { simpl. unfold count_status. simpl. repeat split. }
  replace (Z.of_nat (length (box :: faces)) =? 0) with false
    by (symmetry; apply Z.eqb_neq; simpl; lia).
  destruct (classify_faces_with_model cv2 det predict frame (box :: faces) Hm 0%Q
              (set_faces_detected (Z.of_nat (length (box :: faces))) empty_results) log)
    as (log1 & ->).
  replace (0 <? Z.of_nat (length (box :: faces))) with true
    by (symmetry; apply Z.ltb_lt; simpl; lia).
  cbn [fst snd].
  destruct (fold_record_fields
              (map (model_record cv2 predict (confidence_threshold det) frame) (box :: faces))
              (set_faces_detected (Z.of_nat (length (box :: faces))) empty_results))
    as (Hd & Hf & _ & Hmk & Hn).
  unfold set_confidence_score. cbn [detections faces_detected masks_detected no_masks_detected
                                     confidence_score].
  rewrite Hd, Hf, Hmk, Hn. repeat split.
Qed.

End Engine.

Import DetectionEngineSpec.

(** The statement at a fresh engine with four workers. *)
Lemma engine_start_spawns_workers_witness :
  threads (snd (snd (start (init (Frame:=nat) 100 4 0, quiet_world))))
  = ["DetectionWorker-0"; "DetectionWorker-1"; "DetectionWorker-2"; "DetectionWorker-3"]
  /\ start (snd (start (init (Frame:=nat) 100 4 0, quiet_world)))
     = (Ok tt, snd (start (init 100 4 0, quiet_world))).
Proof.
  destruct (engine_start_spawns_workers (init (Frame:=nat) 100 4 0) quiet_world)
    as (_ & _ & _ & Hth & _ & _ & _ & Hagain); [reflexivity|].
  split; [rewrite Hth; reflexivity | exact Hagain].
Defined.

(** An engine whose output queue of size one is taken, one frame waiting. *)
Definition engine_output_full : t nat :=
  set_result_queue (mkQueue 1 [empty_results]) engine_one_frame.

(** The statement at the grey frame and the full output queue. *)
Lemma full_result_queue_drops_after_storing_witness :
  let s' := snd (worker_iteration cv2_grey_frame (process_frame cv2_grey_frame basic_detector)
                   db_up (engine_output_full, quiet_world)) in
  result_queue (fst s') = mkQueue 1 [empty_results]
  /\ length (table (snd s')) = 1%nat
  /\ total_frames_processed (fst s') = 1.
Proof.
  destruct (full_result_queue_drops_after_storing cv2_grey_frame
              (process_frame cv2_grey_frame basic_detector) db_up engine_output_full
              quiet_world grey_envelope (mkQueue 100 []) empty_results
              [mkLog ERROR "Error processing frame: cvtColor: invalid number of channels"]
              [480; 640])
    as (Hq & Ht & _ & Hn & _); try reflexivity.
  cbn zeta. rewrite Hq, Ht, Hn. repeat split.
Defined.

(** Three frames of two cameras, and an engine with unbounded queues. *)
Definition three_frames : list (CameraManager.FrameData nat) :=
  [CameraManager.mkFrameData 1%nat 100 "camera_1";
   CameraManager.mkFrameData 2%nat 110 "camera_4";
   CameraManager.mkFrameData 3%nat 120 "camera_1"].

Definition engine_three_frames : t nat :=
  set_frame_queue (mkQueue 0 three_frames) (set_is_running true (init 0 4 0)).

(** The statement at three frames and four turns of the loop. *)
Lemma single_worker_keeps_arrival_order_witness :
  map result_origin
    (items (result_queue
       (fst (_worker_loop cv2_second_face_fails
               (process_frame cv2_second_face_fails trained_detector)
               [db_up; db_up; db_up; db_up] (engine_three_frames, quiet_world)))))
  = [(Some "camera_1", Some 100); (Some "camera_4", Some 110); (Some "camera_1", Some 120)].
Proof.
  destruct (single_worker_keeps_arrival_order cv2_second_face_fails trained_detector
              [db_up; db_up; db_up; db_up] engine_three_frames quiet_world)
    as (_ & Hres & _).
  - intros f. eexists. reflexivity.
  - reflexivity.
  - simpl. lia.
  - simpl. lia.
  - rewrite Hres. reflexivity.
Defined.

(** The statement at three frames offered to an input queue of size two. *)
Lemma add_frame_keeps_oldest_witness :
  let s' := add_frames three_frames (init (Frame:=nat) 2 4 0, quiet_world) in
  map CameraManager.frame (items (frame_queue (fst s'))) = [1; 2]%nat
  /\ log (snd s') = [queue_full_warning].
Proof.
  destruct (add_frame_keeps_oldest three_frames (init (Frame:=nat) 2 4 0) quiet_world)
    as (Hi & Hl & _).
  - simpl. lia.
  - simpl. unfold qsize. simpl. lia.
  - cbn zeta. rewrite Hi, Hl. split; reflexivity.
Defined.

(** The statement at the trained model answering 0.93 with threshold 0.8. *)
Lemma predict_mask_reports_witness :
  predict_mask cv2_second_face_fails trained_detector 1%nat [] = (Ok ("mask", 93 # 100), [])
  /\ (confidence_threshold trained_detector < 93 # 100)%Q.
Proof.
  assert (E : predict_mask cv2_second_face_fails trained_detector 1%nat []
              = (Ok ("mask", 93 # 100), [])) by reflexivity.
  destruct (predict_mask_reports cv2_second_face_fails trained_detector 1%nat []
              "mask" (93 # 100) [] E) as [_ Hmodel].
  split; [exact E|].
  destruct Hmodel as [(_ & Hc & _) | [([=] & _) | ([=] & _)]]; [eexists; reflexivity|].
  exact Hc.
Defined.

(** The statement at the trained model and the two faces. *)
Lemma process_frame_with_model_witness :
  exists r log',
    process_frame cv2_second_face_fails trained_detector 7%nat [] = (Ok r, log')
    /\ map mask_status (detections r) = ["mask"; "mask"]
    /\ masks_detected r = 2.
Proof.
  destruct (process_frame_with_model cv2_second_face_fails trained_detector
              (fun _ => Ok (93 # 100)) 7%nat [(1, 0, 40, 40); (2, 0, 40, 40)] [])
    as (r & log' & E & Hd & _ & Hm & _); try reflexivity.
  exists r, log'. split; [exact E|]. rewrite Hm, Hd. split; reflexivity.
Defined.

End DetectionEngineFacts.

(* --------------------------------------------------------------------- *)
(** ** The notifier and its alert kinds ([src/telegram_bot.py])           *)
(* --------------------------------------------------------------------- *)

Module TelegramFacts.

Import TelegramBot TelegramBotSpec.

(** The bot is enabled and has a token and a chat id. *)
Definition configured (self : t) : bool :=
  enabled self && truthy (bot_token self) && truthy (chat_id self).

(** The Telegram API acknowledges the text: HTTP 200 and a truthy ['ok']. *)
Definition acknowledged (env : Env) (text : string) : Prop :=
  exists response,
    requests_post env text = Ok response
    /\ status_code response = 200 /\ json_ok response = Ok true.

(** X18 — every attempt is counted once.  A bot that is disabled or lacks
    its token or chat id answers [False] and does nothing at all: no
    request, no counter, no log record.  A configured bot makes exactly
    one request with the text; it answers [True] iff the API acknowledges
    it, and it adds one to [messages_sent] in that case and one to
    [failed_messages] in every other (HTTP error, refusal, exception). *)
Theorem send_message_accounting (env : Env) (text : string) (self : t) (w : World) :
  let r := send_message env text self w in
  (configured self = false -> r = (false, self, w))
  /\ (configured self = true ->
      http_posts (snd r) = http_posts w ++ [text]
      /\ (fst (fst r) = true <-> acknowledged env text)
      /\ messages_sent (snd (fst r))
         = messages_sent self + (if fst (fst r) then 1 else 0)
      /\ failed_messages (snd (fst r))
         = failed_messages self + (if fst (fst r) then 0 else 1)).
Proof.
  unfold configured, send_message, acknowledged.
  destruct (enabled self), (truthy (bot_token self)), (truthy (chat_id self)); cbn zeta; simpl;
    try (split; [reflexivity | discriminate]).
  split; [discriminate|]. intros _.
  destruct (requests_post env text) as [[code ok]|e]; simpl.
  - destruct (Z.eqb_spec code 200) as [->|Hcode]; [destruct ok as [[|]|e]|]; simpl.
    + repeat split; try lia. eauto.
    + repeat split; try lia; try discriminate. intros (r' & [= <-] & _ & [=]).
    + repeat split; try lia; try discriminate. intros (r' & [= <-] & _ & [=]).
    + repeat split; try lia; try discriminate. intros (r' & [= <-] & Hc & _). simpl in Hc. lia.
  - repeat split; try lia; try discriminate. intros (r' & [=] & _).
Qed.

(** The statement at a configured bot whose request is answered HTTP 502,
    and at a bot without a chat id. *)
Lemma send_message_accounting_witness :
  send_message (demo_env 0) "hello" (mkBot (Some "token") None true false ∅ 300 0 0) demo_world
  = (false, mkBot (Some "token") None true false ∅ 300 0 0, demo_world)
  /\ failed_messages (snd (fst (send_message (failing_env 0) "hello" demo_bot demo_world))) = 1
  /\ http_posts (snd (send_message (failing_env 0) "hello" demo_bot demo_world)) = ["hello"].
Proof.
  split.
  - apply (send_message_accounting (demo_env 0) "hello"
             (mkBot (Some "token") None true false ∅ 300 0 0) demo_world).
    reflexivity.
  - destruct (send_message_accounting (failing_env 0) "hello" demo_bot demo_world)
      as [_ H]. destruct (H eq_refl) as (Hp & _ & _ & Hf).
    split; [rewrite Hf; reflexivity | rewrite Hp; reflexivity].
Defined.

Lemma send_alert_frame (env : Env) (ty cam msg sev : string)
    (md : option (list (string * string))) (self : t) (w : World) :
  let self' := snd (fst (send_alert env ty cam msg sev md self w)) in
  alert_cooldown self' = alert_cooldown self
  /\ forall key, key <> alert_key cam ty ->
                 last_alert_time self' !! key = last_alert_time self !! key.
Proof.
  unfold send_alert. destruct (cooldown_active self _ _); [simpl; auto|].
  pose proof (send_message_frame env (_format_alert_message ty cam msg sev md) self w) as Hf.
  destruct (send_message env _ self w) as [[[|] self0] w0];
    destruct Hf as (Hl & _ & _ & _ & _ & Hc); simpl.
  - split; [exact Hc|]. intros key Hne. rewrite lookup_insert_ne by congruence.
    rewrite Hl. reflexivity.
  - split; [exact Hc|]. intros key _. rewrite Hl. reflexivity.
Qed.

(** X19 — cooldowns are per camera and alert type.  Whatever an alert
    for camera [cam] and type [ty] does, it leaves the cooldown of every
    other pair as it was, for types without an underscore (the three the
    bot itself uses have none): a violation at one camera never silences
    another camera, nor another kind of alert at the same camera. *)
Theorem cooldown_is_per_camera_and_type (env : Env) (ty cam msg sev : string)
    (md : option (list (string * string))) (self : t) (w : World)
    (cam' ty' : string) (now : Q) :
  has_underscore ty = false ->
  has_underscore ty' = false ->
  (cam', ty') <> (cam, ty) ->
  let self' := snd (fst (send_alert env ty cam msg sev md self w)) in
  last_alert_time self' !! alert_key cam' ty' = last_alert_time self !! alert_key cam' ty'
  /\ cooldown_active self' (alert_key cam' ty') now
     = cooldown_active self (alert_key cam' ty') now.
Proof.
  intros Hty Hty' Hne.
  assert (Hkey : alert_key cam' ty' <> alert_key cam ty).
  { intros E. destruct (alert_key_injective _ _ _ _ Hty' Hty E) as [-> ->]. congruence. }
  destruct (send_alert_frame env ty cam msg sev md self w) as [Hc Hl].
  cbn zeta. split; [apply Hl, Hkey|].
  unfold cooldown_active. rewrite Hc, (Hl _ Hkey). reflexivity.
Qed.

(** The statement at a violation alert for ["camera_1"], seen from
    ["camera_2"]. *)
Lemma cooldown_is_per_camera_and_type_witness :
  cooldown_active
    (snd (fst (send_alert (demo_env 1000) "violation" "camera_1" "first" "high" None
                          demo_bot demo_world)))
    (alert_key "camera_2" "violation") 1001
  = false.
Proof.
  destruct (cooldown_is_per_camera_and_type (demo_env 1000) "violation" "camera_1" "first"
              "high" None demo_bot demo_world "camera_2" "violation" 1001)
    as [_ H]; [reflexivity | reflexivity | discriminate |].
  cbn zeta in H. rewrite H. reflexivity.
Defined.

Lemma second_alert_suppressed (self : t) (w : World) (env0 env1 : Env) (ty cam : string)
    (msg0 sev0 msg1 sev1 : string) (md0 md1 : option (list (string * string))) :
  notifier_succeeds self env0 ->
  eligible self (alert_key cam ty) (time_time env0) ->
  (time_time env1 - time_time env0 < inject_Z (alert_cooldown self))%Q ->
  exists self0 w0 w1,
    send_alert env0 ty cam msg0 sev0 md0 self w = (true, self0, w0)
    /\ http_posts w0 = http_posts w ++ [_format_alert_message ty cam msg0 sev0 md0]
    /\ send_alert env1 ty cam msg1 sev1 md1 self0 w0 = (false, self0, w1)
    /\ http_posts w1 = http_posts w0 /\ alerts w1 = alerts w0.
Proof.
  intros Hn Hel Hlt.
  destruct (send_alert_delivered env0 ty cam msg0 sev0 md0 self w Hn Hel)
    as (self0 & w0 & E0 & Hp0 & Hl0 & Hc0 & _).
  exists self0, w0. eexists. split; [exact E0|]. split; [exact Hp0|].
  split.
  - apply send_alert_suppressed, cooldown_active_true.
    exists (time_time env0).
    split; [rewrite Hl0; apply lookup_insert_eq | rewrite Hc0; exact Hlt].
  - split; reflexivity.
Qed.

(** X20 — system alerts share one cooldown, camera alerts one per camera.
    [send_system_alert] files every alert under the one key
    ["system_system"], whatever the component and the severity, and
    [send_camera_alert] files every alert of a camera under
    [<camera_id>_camera], whatever the [alert_type] argument.  So once one
    such alert has gone out, a second within the cooldown is discarded even
    when it reports another component, or another kind of camera event:
    the call answers [False], nothing is sent and nothing is stored. *)
Theorem system_alerts_share_one_cooldown (self : t) (w : World) (env0 env1 : Env)
    (now0 now1 : string) :
  notifier_succeeds self env0 ->
  (time_time env1 - time_time env0 < inject_Z (alert_cooldown self))%Q ->
  (eligible self "system_system" (time_time env0) ->
   forall component0 message0 severity0 component1 message1 severity1,
   exists self0 w0 w1,
     send_system_alert env0 now0 component0 message0 severity0 self w = (true, self0, w0)
     /\ send_system_alert env1 now1 component1 message1 severity1 self0 w0 = (false, self0, w1)
     /\ http_posts w1 = http_posts w0 /\ alerts w1 = alerts w0)
  /\ (forall camera_id,
      eligible self (alert_key camera_id "camera") (time_time env0) ->
      forall name0 alert_type0 message0 name1 alert_type1 message1,
      exists self0 w0 w1,
        send_camera_alert env0 now0 camera_id name0 alert_type0 message0 self w
        = (true, self0, w0)
        /\ send_camera_alert env1 now1 camera_id name1 alert_type1 message1 self0 w0
           = (false, self0, w1)
        /\ http_posts w1 = http_posts w0 /\ alerts w1 = alerts w0).
Proof.
  intros Hn Hlt. split.
  - intros Hel component0 message0 severity0 component1 message1 severity1.
    unfold send_system_alert.
    edestruct (second_alert_suppressed self w env0 env1 "system" "system")
      as (self0 & w0 & w1 & E0 & _ & E1 & Hp & Ha); [exact Hn | exact Hel | exact Hlt |].
    exists self0, w0, w1. split; [exact E0|]. split; [exact E1|]. split; assumption.
  - intros camera_id Hel name0 alert_type0 message0 name1 alert_type1 message1.
    unfold send_camera_alert.
    edestruct (second_alert_suppressed self w env0 env1 "camera" camera_id)
      as (self0 & w0 & w1 & E0 & _ & E1 & Hp & Ha); [exact Hn | exact Hel | exact Hlt |].
    exists self0, w0, w1. split; [exact E0|]. split; [exact E1|]. split; assumption.
Qed.

(** The statement at a database alert followed, a minute later, by a
    critical alert of the detection engine. *)
Lemma system_alerts_share_one_cooldown_witness :
  exists self0 w0 w1,
    send_system_alert (demo_env 1000) "12:00" "database" "slow query" "low"
                      demo_bot demo_world = (true, self0, w0)
    /\ send_system_alert (demo_env 1060) "12:01" "detection_engine" "all workers died"
                         "critical" self0 w0 = (false, self0, w1)
    /\ http_posts w1 = http_posts w0 /\ alerts w1 = alerts w0.
Proof.
  destruct (system_alerts_share_one_cooldown demo_bot demo_world (demo_env 1000)
              (demo_env 1060) "12:00" "12:01") as [H _].
  - apply demo_notifier.
  - vm_compute. reflexivity.
  - apply H. exact I.
Defined.

End TelegramFacts.

(* --------------------------------------------------------------------- *)
(** ** Message handlers and publishing ([src/mqtt_client.py])             *)
(* --------------------------------------------------------------------- *)

Module MQTTFacts.

Import MQTTClient.

Section Client.

Context {Json Message : Type}.

Lemma handlers_of_set_eq (topic : string) (hs : list Handler) registry :
  handlers_of topic (set_handlers_of topic hs registry) = Some hs.
Proof.
  induction registry as [|[k old] rest IH]; simpl.
  - rewrite String.eqb_refl. reflexivity.
  - destruct (String.eqb k topic) eqn:E; simpl; rewrite E; [reflexivity | exact IH].
Qed.

Lemma handlers_of_set_ne (topic topic' : string) (hs : list Handler) registry :
  topic' <> topic ->
  handlers_of topic' (set_handlers_of topic hs registry) = handlers_of topic' registry.
Proof.
  intros Hne. induction registry as [|[k old] rest IH]; simpl.
  - apply String.eqb_neq in Hne. rewrite String.eqb_sym, Hne. reflexivity.
  - destruct (String.eqb_spec k topic) as [->|Hk]; simpl.
    + apply String.eqb_neq in Hne. rewrite String.eqb_sym, Hne. reflexivity.
    + destruct (String.eqb k topic'); [reflexivity | exact IH].
Qed.

Lemma remove_first_app_fresh (h : Handler) (hs : list Handler) :
  existsb (Nat.eqb h) hs = false -> remove_first h (hs ++ [h]) = hs.
Proof.
  induction hs as [|y hs IH]; simpl.
  - rewrite Nat.eqb_refl. reflexivity.
  - intros [Hy Hrest]%orb_false_elim. rewrite Nat.eqb_sym, Hy, (IH Hrest). reflexivity.
Qed.

(** The handlers a message on [topic] reaches. *)
Definition subscribers (topic : string) (self : t) : list Handler :=
  default [] (handlers_of topic (message_handlers self)).

(** X21 — registering and unregistering a handler.  Registering appends
    the handler to the handlers of its topic (a handler registered twice is
    there twice) and leaves every other topic alone.  Unregistering
    removes its first occurrence only, and is a no-op, without a log
    record, for a handler or a topic that is not registered.  Registering
    a handler that was not there and unregistering it again gives back the
    subscribers of every topic. *)
Theorem handler_registry (topic : string) (h : Handler) (s : t * World Json) :
  let added := add_message_handler topic h s in
  let removed := remove_message_handler topic h s in
  subscribers topic (fst added) = subscribers topic (fst s) ++ [h]
  /\ (forall topic', topic' <> topic ->
        subscribers topic' (fst added) = subscribers topic' (fst s)
        /\ subscribers topic' (fst removed) = subscribers topic' (fst s))
  /\ subscribers topic (fst removed) = remove_first h (subscribers topic (fst s))
  /\ (existsb (Nat.eqb h) (subscribers topic (fst s)) = false ->
      removed = s
      /\ forall topic',
           subscribers topic' (fst (remove_message_handler topic h added))
           = subscribers topic' (fst s)).
Proof.
  assert (Hrm : forall l, existsb (Nat.eqb h) l = false -> remove_first h l = l).
  { induction l as [|y l IH]; simpl; [reflexivity|].
    intros [Hy Hl]%orb_false_elim. rewrite Nat.eqb_sym, Hy, (IH Hl). reflexivity. }
  destruct s as [self w]. unfold subscribers, add_message_handler, remove_message_handler.
  cbn [fst snd message_handlers set_handlers].
  split; [rewrite handlers_of_set_eq; reflexivity|].
  split.
  { intros topic' Hne. split; [rewrite handlers_of_set_ne by exact Hne; reflexivity|].
    destruct (handlers_of topic (message_handlers self)) as [hs|]; [|reflexivity].
    destruct (existsb (Nat.eqb h) hs); [|reflexivity].
    cbn [fst message_handlers set_handlers]. rewrite handlers_of_set_ne by exact Hne.
    reflexivity. }
  split.
  { destruct (handlers_of topic (message_handlers self)) as [hs|] eqn:E;
      [|cbn [fst]; rewrite E; reflexivity].
    destruct (existsb (Nat.eqb h) hs) eqn:Hin.
    - cbn [fst message_handlers set_handlers]. rewrite handlers_of_set_eq. reflexivity.
    - cbn [fst]. rewrite E. simpl. symmetry. apply Hrm, Hin. }
  intros Hfresh. split.
  { destruct (handlers_of topic (message_handlers self)) as [hs|]; [|reflexivity].
    simpl in Hfresh. rewrite Hfresh. reflexivity. }
  intros topic'. rewrite handlers_of_set_eq.
  assert (Hin : existsb (Nat.eqb h)
                  (default [] (handlers_of topic (message_handlers self)) ++ [h]) = true).
  { rewrite existsb_app. simpl. rewrite Nat.eqb_refl. apply orb_true_iff. right. reflexivity. }
  rewrite Hin. cbn [fst message_handlers set_handlers].
  rewrite remove_first_app_fresh by exact Hfresh.
  destruct (String.eqb_spec topic' topic) as [->|Hne].
  - rewrite handlers_of_set_eq. reflexivity.
  - rewrite !handlers_of_set_ne by exact Hne. reflexivity.
Qed.






(** X23 — the outcome of a publish.  [publish] answers [True] exactly
    when the client is connected, the message serialises and the broker
    returns [MQTT_ERR_SUCCESS]; every failure is answered [False], none is
    raised.  A client that is not connected hands nothing to the broker.
    The message goes out under [<topic_prefix>/<topic>], and the client
    object, [messages_sent] included, is never changed by the call. *)
Theorem publish_outcome (env : Env Json Message) (topic : string) (message : Message)
    (s : t * World Json) :
  let r := publish env topic message s in
  let full_topic := topic_prefix (fst s) +:+ "/" +:+ topic in
  fst (snd r) = fst s
  /\ (fst r = true <->
      is_connected (fst s) = true /\ client (fst s) = true
      /\ exists text, json_dumps env message = Ok text
                      /\ client_publish env full_topic text = Ok 0)
  /\ (is_connected (fst s) = false -> published (snd (snd r)) = published (snd s))
  /\ (published (snd (snd r)) = published (snd s)
      \/ exists text, json_dumps env message = Ok text
                      /\ published (snd (snd r)) = published (snd s) ++ [(full_topic, text)]).
Proof.
  destruct s as [self w]. unfold publish. cbn [fst snd].
  destruct (is_connected self); cbn [negb].
  2:{ simpl. split; [reflexivity|]. split; [|auto].
      split; [discriminate | intros ([=] & _)]. }
  destruct (json_dumps env message) as [text|e].
  2:{ simpl. split; [reflexivity|]. split; [|split; [discriminate | auto]].
      split; [discriminate | intros (_ & _ & t' & [=] & _)]. }
  destruct (client self); cbn [negb].
  2:{ simpl. split; [reflexivity|]. split; [|split; [discriminate | auto]].
      split; [discriminate | intros (_ & [=] & _)]. }
  destruct (client_publish env _ text) as [rc|e] eqn:Erc.
  2:{ simpl. split; [reflexivity|]. split; [|split; [discriminate | eauto]].
      split; [discriminate | intros (_ & _ & t' & [= <-] & E)]. congruence. }
  destruct (Z.eqb_spec rc 0) as [->|Hrc]; simpl.
  - split; [reflexivity|]. split; [|split; [discriminate | eauto]].
    split; [eauto | reflexivity].
  - split; [reflexivity|]. split; [|split; [discriminate | eauto]].
    split; [discriminate | intros (_ & _ & t' & [= <-] & E)]. congruence.
Qed.

End Client.

(** A client with two handlers on ["camera/1/control"]; the first one
    raises. *)
Definition demo_client : t :=
  mkClient true true "face_mask_detection" [("camera/1/control", [7; 8]%nat)] 0 0 0.

Definition demo_env : Env string string :=
  mkEnv (fun text => if String.eqb text "{}" then Parsed text else NotJson)
        (fun m => Ok m)
        (fun _ _ => Ok 0)
        (fun h _ _ s => (if Nat.eqb h 7 then Raise (Exception "boom") else Ok tt, s)).

Definition quiet_world : World string := mkWorld [] [] [].

(** The statement at a handler that was not registered. *)
Lemma handler_registry_witness :
  subscribers "camera/1/control" (fst (add_message_handler "camera/1/control" 9%nat
                                         (demo_client, quiet_world)))
  = [7; 8; 9]%nat
  /\ forall topic',
       subscribers topic'
         (fst (remove_message_handler "camera/1/control" 9%nat
                 (add_message_handler "camera/1/control" 9%nat (demo_client, quiet_world))))
       = subscribers topic' demo_client.
Proof.
  destruct (handler_registry "camera/1/control" 9%nat (demo_client, quiet_world))
    as (Hadd & _ & _ & Hround).
  split; [rewrite Hadd; reflexivity|].
  apply Hround. reflexivity.
Defined.


(** The statement at a client that is not connected. *)
Lemma publish_outcome_witness :
  published (snd (snd (publish demo_env "status" "{}"
                         (mkClient true false "face_mask_detection" [] 0 0 0, quiet_world))))
  = [].
Proof.
  destruct (publish_outcome demo_env "status" "{}"
              (mkClient true false "face_mask_detection" [] 0 0 0, quiet_world))
    as (_ & _ & H & _).
  rewrite H; reflexivity.
Defined.

End MQTTFacts.

(* --------------------------------------------------------------------- *)
(** ** Result processing ([start.py])                                     *)
(* --------------------------------------------------------------------- *)

Module SystemFacts.

Import System.

Section Coordinator.

Context {Frame Json : Type}.

Implicit Types (self : t Frame Json) (env : Env Json) (result : DetectionEngine.Results).

(** The camera a result reports a violation for, if it does and the camera
    is known. *)
Definition violation_of self result : option (CameraManager.CameraStream Frame) :=
  if 0 <? DetectionEngine.no_masks_detected result then
    match DetectionEngine.camera_id result with
    | Some cid => CameraManager.get_camera cid (camera_manager self)
    | None => None
    end
  else None.

(** What one result does to the bot. *)
Definition telegram_step env result self : TelegramBot.t * TelegramBot.World :=
  match violation_of self result with
  | Some camera =>
      if TelegramBot.enabled (telegram_bot self) then
        let r :=
          TelegramBot.send_violation_alert (telegram env) (now_text env)
            (str_camera_id (DetectionEngine.camera_id result)) (CameraManager.name camera)
            (DetectionEngine.no_masks_detected result) (CameraManager.location camera)
            (telegram_bot self) (telegram_world self) in
        (snd (fst r), snd r)
      else (telegram_bot self, telegram_world self)
  | None => (telegram_bot self, telegram_world self)
  end.

(** What one result does to the MQTT client. *)
Definition mqtt_step env result self : MQTTClient.t * MQTTClient.World Json :=
  let s := (mqtt_client self, mqtt_world self) in
  let s :=
    match violation_of self result with
    | Some _ =>
        if MQTTClient.is_connected (fst s)
        then snd (publish_alert env "violation" (DetectionEngine.camera_id result)
                    (DetectionEngine.no_masks_detected result) s)
        else s
    | None => s
    end in
  if MQTTClient.is_connected (fst s)
  then snd (publish_detection env (DetectionEngine.camera_id result) result s)
  else s.

Lemma process_detection_result_eq env result self :
  _process_detection_result env result self
  = mkSystem (camera_manager self)
             (fst (telegram_step env result self)) (snd (telegram_step env result self))
             (fst (mqtt_step env result self)) (snd (mqtt_step env result self))
             (log self).
Proof.
  unfold _process_detection_result, telegram_step, mqtt_step, violation_of.
  destruct self as [cm bot tw mc mw lg].
  cbn [camera_manager telegram_bot telegram_world mqtt_client mqtt_world log fst snd].
  destruct (0 <? DetectionEngine.no_masks_detected result);
    [destruct (match DetectionEngine.camera_id result with
               | Some cid => CameraManager.get_camera cid cm
               | None => None
               end) as [camera|]; [destruct (TelegramBot.enabled bot)|]|];
    repeat first
      [ reflexivity
      | progress cbn [camera_manager telegram_bot telegram_world mqtt_client mqtt_world log
                      fst snd]
      | match goal with
        | |- context [TelegramBot.send_violation_alert ?a ?b ?c ?d ?e ?f ?g ?h] =>
            destruct (TelegramBot.send_violation_alert a b c d e f g h) as [[? ?] ?]
        | |- context [MQTTClient.is_connected ?c] =>
            is_var c; destruct (MQTTClient.is_connected c)
        | |- context [publish_alert ?a ?b ?c ?d ?e] =>
            destruct (publish_alert a b c d e) as [? [? ?]]
        | |- context [publish_detection ?a ?b ?c ?d] =>
            destruct (publish_detection a b c d) as [? [? ?]]
        end ].
Qed.

Lemma telegram_step_suppressed env result self (cid : string) :
  DetectionEngine.camera_id result = Some cid ->
  TelegramBot.cooldown_active (telegram_bot self) (TelegramBot.alert_key cid "violation")
    (TelegramBot.time_time (telegram env)) = true ->
  fst (telegram_step env result self) = telegram_bot self
  /\ TelegramBot.http_posts (snd (telegram_step env result self))
     = TelegramBot.http_posts (telegram_world self)
  /\ TelegramBot.alerts (snd (telegram_step env result self))
     = TelegramBot.alerts (telegram_world self).
Proof.
  intros Hcid Hact. unfold telegram_step.
  destruct (violation_of self result) as [camera|]; [|auto].
  destruct (TelegramBot.enabled (telegram_bot self)); [|auto].
  unfold TelegramBot.send_violation_alert. rewrite Hcid. cbn [str_camera_id default].
  rewrite TelegramBotSpec.send_alert_suppressed by exact Hact. auto.
Qed.

(** X24 — a burst of violations raises one Telegram alert.  When
    [_process_detection_result] is given a result that reports unmasked
    faces at a known camera, the notifier works and the camera is not in
    cooldown, exactly one message is sent.  Given, after it, results of the
    same camera within the cooldown, however many and whatever they
    report, it sends nothing more, stores no alert, and leaves the bot as
    the first result left it. *)
Theorem violation_burst_raises_one_alert env0 result0
    (batch : list (Env Json * DetectionEngine.Results)) self
    (cid : string) (camera : CameraManager.CameraStream Frame) :
  DetectionEngine.camera_id result0 = Some cid ->
  0 < DetectionEngine.no_masks_detected result0 ->
  CameraManager.get_camera cid (camera_manager self) = Some camera ->
  TelegramBotSpec.notifier_succeeds (telegram_bot self) (telegram env0) ->
  TelegramBotSpec.eligible (telegram_bot self) (TelegramBot.alert_key cid "violation")
    (TelegramBot.time_time (telegram env0)) ->
  Forall (fun er =>
            DetectionEngine.camera_id (snd er) = Some cid
            /\ (TelegramBot.time_time (telegram (fst er))
                - TelegramBot.time_time (telegram env0)
                < inject_Z (TelegramBot.alert_cooldown (telegram_bot self)))%Q) batch ->
  let first := _process_detection_result env0 result0 self in
  let final := process_results batch first in
  (exists text,
      TelegramBot.http_posts (telegram_world first)
      = TelegramBot.http_posts (telegram_world self) ++ [text])
  /\ TelegramBot.http_posts (telegram_world final) = TelegramBot.http_posts (telegram_world first)
  /\ TelegramBot.alerts (telegram_world final) = TelegramBot.alerts (telegram_world first)
  /\ telegram_bot final = telegram_bot first.
Proof.
  intros Hcid Hpos Hcam Hn Hel Hbatch. cbn zeta.
  assert (Hfirst : exists bot0 w0,
             telegram_step env0 result0 self = (bot0, w0)
             /\ (exists text, TelegramBot.http_posts w0
                              = TelegramBot.http_posts (telegram_world self) ++ [text])
             /\ TelegramBot.last_alert_time bot0 !! TelegramBot.alert_key cid "violation"
                = Some (TelegramBot.time_time (telegram env0))
             /\ TelegramBot.alert_cooldown bot0 = TelegramBot.alert_cooldown (telegram_bot self)).
  { unfold telegram_step, violation_of. rewrite Hcid, Hcam.
    replace (0 <? DetectionEngine.no_masks_detected result0) with true
      by (symmetry; apply Z.ltb_lt; exact Hpos).
    destruct Hn as (Hen & Hrest). rewrite Hen.
    unfold TelegramBot.send_violation_alert. cbn [str_camera_id default].
    edestruct (TelegramBotSpec.send_alert_delivered (telegram env0) "violation" cid)
      as (bot0 & w0 & E & Hp & Hl & Hc & _); [split; [exact Hen | exact Hrest] | exact Hel |].
    rewrite E. exists bot0, w0. split; [reflexivity|]. split; [eauto|].
    split; [rewrite Hl; apply lookup_insert_eq | exact Hc]. }
  destruct Hfirst as (bot0 & w0 & E0 & Hposts & Hentry & Hcd).
  rewrite process_detection_result_eq, E0. cbn [fst snd telegram_world telegram_bot].
  split; [exact Hposts|].
  enough (H : forall s : t Frame Json,
             telegram_bot s = bot0 ->
             TelegramBot.http_posts (telegram_world (process_results batch s))
             = TelegramBot.http_posts (telegram_world s)
             /\ TelegramBot.alerts (telegram_world (process_results batch s))
                = TelegramBot.alerts (telegram_world s)
             /\ telegram_bot (process_results batch s) = telegram_bot s).
  { apply (H (mkSystem (camera_manager self) bot0 w0 (fst (mqtt_step env0 result0 self))
                       (snd (mqtt_step env0 result0 self)) (log self))).
    reflexivity. }
  induction Hbatch as [|[env result] batch [Hc Ht] _ IH]; intros s Hs.
  - auto.
  - cbn [process_results fst snd] in *.
    destruct (telegram_step_suppressed env result s cid Hc) as (Hb & Hp & Ha).
    { apply TelegramBotSpec.cooldown_active_true. rewrite Hs.
      exists (TelegramBot.time_time (telegram env0)). split; [exact Hentry|].
      rewrite Hcd. exact Ht. }
    rewrite process_detection_result_eq.
    destruct (IH (mkSystem (camera_manager s) (fst (telegram_step env result s))
                    (snd (telegram_step env result s)) (fst (mqtt_step env result s))
                    (snd (mqtt_step env result s)) (log s))) as (IHp & IHa & IHb).
    { cbn [telegram_bot]. rewrite Hb. exact Hs. }
    cbn [telegram_bot telegram_world] in IHp, IHa, IHb.
    rewrite IHp, IHa, IHb, Hp, Ha, Hb. auto.
Qed.

Lemma publish_connected (env : MQTTClient.Env Json Message) (topic : string)
    (message : Message) (s : MQTTClient.t * MQTTClient.World Json) :
  MQTTClient.is_connected (fst s) = true ->
  MQTTClient.client (fst s) = true ->
  fst (snd (MQTTClient.publish env topic message s)) = fst s
  /\ MQTTClient.published (snd (snd (MQTTClient.publish env topic message s)))
     = MQTTClient.published (snd s)
       ++ match MQTTClient.json_dumps env message with
          | Ok text => [(MQTTClient.topic_prefix (fst s) +:+ "/" +:+ topic, text)]
          | Raise _ => []
          end.
Proof.
  destruct s as [c w]. cbn [fst snd]. intros Hc Hcl. unfold MQTTClient.publish.
  cbn [fst snd]. rewrite Hc, Hcl. cbn [negb].
  destruct (MQTTClient.json_dumps env message) as [text|e];
    [|simpl; rewrite app_nil_r; auto].
  destruct (MQTTClient.client_publish env _ text) as [rc|e];
    [destruct (rc =? 0)|]; simpl; auto.
Qed.

(** What one message adds to the messages handed to the broker. *)
Definition handed_over env (prefix topic : string) (message : Message)
  : list (string * string) :=
  match json_dumps env message with
  | Ok text => [(prefix +:+ "/" +:+ topic, text)]
  | Raise _ => []
  end.

(** The MQTT alert of one result, if it reports a violation at a known
    camera. *)
Definition alert_messages self (er : Env Json * DetectionEngine.Results)
  : list (string * string) :=
  let '(env, result) := er in
  match violation_of self result with
  | Some _ =>
      handed_over env (MQTTClient.topic_prefix (mqtt_client self)) "alert/violation"
        (AlertMessage "violation" (time_time env) (DetectionEngine.camera_id result)
           (DetectionEngine.no_masks_detected result) (now_iso env))
  | None => []
  end.

(** The MQTT messages of one result: the alert, then the detection
    itself. *)
Definition mqtt_messages self (er : Env Json * DetectionEngine.Results)
  : list (string * string) :=
  alert_messages self er
  ++ handed_over (fst er) (MQTTClient.topic_prefix (mqtt_client self))
       ("detection/" +:+ str_camera_id (DetectionEngine.camera_id (snd er)))
       (DetectionMessage (DetectionEngine.camera_id (snd er)) (time_time (fst er)) (snd er)).

Lemma mqtt_step_connected env result self :
  MQTTClient.is_connected (mqtt_client self) = true ->
  MQTTClient.client (mqtt_client self) = true ->
  fst (mqtt_step env result self) = mqtt_client self
  /\ MQTTClient.published (snd (mqtt_step env result self))
     = MQTTClient.published (mqtt_world self) ++ mqtt_messages self (env, result).
Proof.
  intros Hc Hcl. unfold mqtt_step, mqtt_messages, alert_messages, handed_over, publish_alert,
    publish_detection. cbn [fst snd].
  destruct (violation_of self result) as [camera|].
  - rewrite Hc.
    destruct (publish_connected (mqtt_env env) ("alert/" +:+ "violation")
                (AlertMessage "violation" (time_time env) (DetectionEngine.camera_id result)
                   (DetectionEngine.no_masks_detected result) (now_iso env))
                (mqtt_client self, mqtt_world self) Hc Hcl) as [H1 H2].
    cbn [fst snd] in H1, H2. rewrite H1, Hc.
    destruct (publish_connected (mqtt_env env)
                ("detection/" +:+ str_camera_id (DetectionEngine.camera_id result))
                (DetectionMessage (DetectionEngine.camera_id result) (time_time env) result)
                (snd (MQTTClient.publish (mqtt_env env) ("alert/" +:+ "violation")
                        (AlertMessage "violation" (time_time env)
                           (DetectionEngine.camera_id result)
                           (DetectionEngine.no_masks_detected result) (now_iso env))
                        (mqtt_client self, mqtt_world self))))
      as [H3 H4]; [rewrite H1; exact Hc | rewrite H1; exact Hcl |].
    rewrite H3, H4, H2, H1, <- app_assoc. split; reflexivity.
  - cbn [fst snd]. rewrite Hc.
    destruct (publish_connected (mqtt_env env)
                ("detection/" +:+ str_camera_id (DetectionEngine.camera_id result))
                (DetectionMessage (DetectionEngine.camera_id result) (time_time env) result)
                (mqtt_client self, mqtt_world self) Hc Hcl) as [H1 H2].
    cbn [fst snd] in H1, H2. rewrite H1, H2. split; reflexivity.
Qed.

(** A result that carries the timestamp of its frame, as every result a
    worker queues does. *)
Definition stamped (er : Env Json * DetectionEngine.Results) : Prop :=
  is_Some (DetectionEngine.timestamp (snd er)).

Lemma stamped_messages self (batch : list (Env Json * DetectionEngine.Results)) :
  Forall stamped batch ->
  flat_map (mqtt_messages self) batch = flat_map (alert_messages self) batch.
Proof.
  induction 1 as [|[env result] batch [ts Hts] _ IH]; [reflexivity|].
  cbn [flat_map]. rewrite IH. f_equal.
  unfold mqtt_messages, handed_over at 1, json_dumps. cbn [fst snd] in *. rewrite Hts.
  destruct (MQTTClient.json_dumps (mqtt env) _); apply app_nil_r.
Qed.

(** X25 — MQTT alerts are not throttled, and detections do not go out.
    Processing results with a connected client hands to the broker, in
    the order of the results, one message under
    [<prefix>/alert/violation] for every result that reports unmasked
    faces at a known camera (the Telegram cooldown does not apply), and one
    under [<prefix>/detection/<camera_id>] for every result that
    serialises.  A result that carries the timestamp of its frame does
    not: [json.dumps] refuses the [datetime], so for the results a worker
    queues the alerts are all that goes out.  The set of cameras and the
    client are as before. *)
Theorem mqtt_alerts_are_not_throttled (batch : list (Env Json * DetectionEngine.Results))
    self :
  MQTTClient.is_connected (mqtt_client self) = true ->
  MQTTClient.client (mqtt_client self) = true ->
  let final := process_results batch self in
  MQTTClient.published (mqtt_world final)
  = MQTTClient.published (mqtt_world self) ++ flat_map (mqtt_messages self) batch
  /\ (Forall stamped batch ->
      MQTTClient.published (mqtt_world final)
      = MQTTClient.published (mqtt_world self) ++ flat_map (alert_messages self) batch)
  /\ mqtt_client final = mqtt_client self
  /\ camera_manager final = camera_manager self.
Proof.
  intros Hc Hcl. cbn zeta.
  enough (H : forall s : t Frame Json,
             mqtt_client s = mqtt_client self ->
             camera_manager s = camera_manager self ->
             MQTTClient.published (mqtt_world (process_results batch s))
             = MQTTClient.published (mqtt_world s) ++ flat_map (mqtt_messages self) batch
             /\ mqtt_client (process_results batch s) = mqtt_client self
             /\ camera_manager (process_results batch s) = camera_manager self).
  { destruct (H self eq_refl eq_refl) as (Hp & Hm & Hcm).
    split; [exact Hp|]. split; [|split; assumption].
    intros Hst. rewrite Hp, (stamped_messages self batch Hst). reflexivity. }
  induction batch as [|[env result] batch IH]; intros s Hm Hcm.
  - simpl. rewrite app_nil_r. auto.
  - cbn [process_results flat_map]. rewrite process_detection_result_eq.
    destruct (mqtt_step_connected env result s) as [H1 H2];
      [rewrite Hm; exact Hc | rewrite Hm; exact Hcl |].
    destruct (IH (mkSystem (camera_manager s) (fst (telegram_step env result s))
                    (snd (telegram_step env result s)) (fst (mqtt_step env result s))
                    (snd (mqtt_step env result s)) (log s))) as (IHp & IHm & IHc).
    { cbn [mqtt_client]. rewrite H1. exact Hm. }
    { exact Hcm. }
    cbn [mqtt_world] in IHp. rewrite IHp, H2, <- app_assoc.
    split; [|split; assumption].
    do 2 f_equal. unfold mqtt_messages, alert_messages, violation_of. rewrite Hm, Hcm.
    reflexivity.
Qed.

End Coordinator.

Import CameraManagerSpec TelegramBotSpec.

(** A broker that accepts every message, and an encoder that finds nothing
    to refuse in the parts it can encode. *)
Definition demo_mqtt : MQTTClient.Env string Message :=
  MQTTClient.mkEnv (fun _ => MQTTClient.NotJson)
    (fun m => match m with
              | AlertMessage _ _ _ _ _ => Ok "alert"
              | DetectionMessage _ _ _ => Ok "detection"
              end)
    (fun _ _ => Ok 0) (fun _ _ _ s => (Ok tt, s)).

(** The system over the two-camera fleet, with a working bot and a
    connected client. *)
Definition demo_system : t nat string :=
  mkSystem fleet demo_bot demo_world
           (MQTTClient.mkClient true true "face_mask_detection" [] 0 0 0)
           (MQTTClient.mkWorld [] [] []) [].

Definition env_at (now : Q) : Env string :=
  mkEnv (TelegramBotSpec.demo_env now) demo_mqtt now "2024-01-01 12:00:00" "2024-01-01T12:00:00".

(** A result of ["camera_1"] with the given number of unmasked faces,
    stamped with the time of its frame. *)
Definition result_of (no_masks : Z) : DetectionEngine.Results :=
  DetectionEngine.mkResults (1 + no_masks) 1 no_masks [] (9 # 10) (Some "camera_1")
                            (Some 100) None.

(** The statement at three results of ["camera_1"] within a minute: two
    violations and, between them, a frame without any. *)
Lemma violation_burst_raises_one_alert_witness :
  length (TelegramBot.http_posts
            (telegram_world
               (process_results [(env_at 1000, result_of 2); (env_at 1030, result_of 0);
                                 (env_at 1060, result_of 3)] demo_system)))
  = 1%nat.
Proof.
  destruct (violation_burst_raises_one_alert (env_at 1000) (result_of 2)
              [(env_at 1030, result_of 0); (env_at 1060, result_of 3)] demo_system
              "camera_1" (CameraManager.CameraStream_init 10 "camera_1" "Main Entrance" "ip"
                            (Some "rtsp://192.168.1.100:554/stream1") None (Some "Building A")))
    as ((text & Hfirst) & Hrest & _).
  - reflexivity.
  - reflexivity.
  - reflexivity.
  - apply demo_notifier.
  - exact I.
  - repeat constructor.
  - change (length (TelegramBot.http_posts
                      (telegram_world
                         (process_results
                            [(env_at 1030, result_of 0); (env_at 1060, result_of 3)]
                            (_process_detection_result (env_at 1000) (result_of 2)
                               demo_system))))
            = 1%nat).
    cbn zeta in Hrest. rewrite Hrest, Hfirst. reflexivity.
Defined.

(** The statement at the same three results: two MQTT alerts, and no
    detection message. *)
Lemma mqtt_alerts_are_not_throttled_witness :
  map fst (MQTTClient.published
             (mqtt_world
                (process_results [(env_at 1000, result_of 2); (env_at 1030, result_of 0);
                                  (env_at 1060, result_of 3)] demo_system)))
  = ["face_mask_detection/alert/violation"; "face_mask_detection/alert/violation"].
Proof.
  destruct (mqtt_alerts_are_not_throttled
              [(env_at 1000, result_of 2); (env_at 1030, result_of 0);
               (env_at 1060, result_of 3)] demo_system) as (_ & H & _); [reflexivity..|].
  cbn zeta in H. rewrite H; [vm_compute; reflexivity|].
  repeat constructor; eexists; reflexivity.
Defined.

End SystemFacts.

(* --------------------------------------------------------------------- *)
(** ** The contents of a snapshot ([src/analytics.py])                    *)
(* --------------------------------------------------------------------- *)

Module AnalyticsFacts.

Import Database Analytics.

(** *** The hourly breakdown *)

Definition hour_le (x y : Stat Z) : Prop := stat_key x <= stat_key y.

Lemma insert_by_hour_perm (x : Stat Z) (l : list (Stat Z)) :
  Permutation (insert_by_hour x l) (x :: l).
Proof.
  induction l as [|y l IH]; simpl; [reflexivity|].
  destruct (stat_key y <=? stat_key x); [|reflexivity].
  rewrite IH. apply perm_swap.
Qed.

Lemma insert_by_hour_hd (a x : Stat Z) (l : list (Stat Z)) :
  HdRel hour_le a l -> hour_le a x -> HdRel hour_le a (insert_by_hour x l).
Proof.
  intros Hhd Hax. destruct l as [|y l]; simpl; [constructor; exact Hax|].
  destruct (stat_key y <=? stat_key x); constructor; [|exact Hax].
  inversion Hhd; assumption.
Qed.

Lemma insert_by_hour_sorted (x : Stat Z) (l : list (Stat Z)) :
  Sorted hour_le l -> Sorted hour_le (insert_by_hour x l).
Proof.
  induction 1 as [|y l Hs IH Hhd]; simpl; [repeat constructor|].
  destruct (Z.leb_spec (stat_key y) (stat_key x)) as [Hle|Hgt].
  - constructor; [exact IH | apply insert_by_hour_hd; assumption].
  - constructor; [constructor; assumption|]. constructor. unfold hour_le. lia.
Qed.

Lemma sort_by_hour_spec (l : list (Stat Z)) :
  Sorted hour_le (sort_by_hour l) /\ Permutation (sort_by_hour l) l.
Proof.
  unfold sort_by_hour.
  enough (H : forall acc, Sorted hour_le acc ->
                          Sorted hour_le (fold_left (fun sorted x => insert_by_hour x sorted) l acc)
                          /\ Permutation (fold_left (fun sorted x => insert_by_hour x sorted) l acc)
                                         (acc ++ l))
    by (apply (H []); constructor).
  induction l as [|x l IH]; intros acc Hacc; simpl.
  - rewrite app_nil_r. split; [exact Hacc | reflexivity].
  - destruct (IH (insert_by_hour x acc) (insert_by_hour_sorted x acc Hacc)) as [Hs Hp].
    split; [exact Hs|]. rewrite Hp, insert_by_hour_perm.
    apply Permutation_middle.
Qed.

(** X26 — the hourly breakdown.  When the query by hour answers, the
    breakdown has exactly one entry per row of the answer, in ascending
    order of the hour, and nothing is logged.  When the query raises, the
    helper logs one error and answers the empty list. *)
Theorem hourly_breakdown_ascending (session : Session) (a b : datetime) (log : Log) :
  (forall rows,
      query_by_hour session a b = Ok rows ->
      exists l,
        _get_hourly_statistics session a b log = (Ok l, log)
        /\ Sorted hour_le l
        /\ Permutation l (map (stat_of_row "") rows))
  /\ (forall e,
        query_by_hour session a b = Raise e ->
        _get_hourly_statistics session a b log
        = (Ok [], logger_error ("Error getting hourly statistics: " +:+ str_exn e) log)).
Proof.
  unfold _get_hourly_statistics, try_catch, sbind, lift, modify, ret. split.
  - intros rows ->. eexists. split; [reflexivity|]. apply sort_by_hour_spec.
  - intros e ->. reflexivity.
Qed.

(** *** The alert counts *)

Lemma count_keys_lookup `{Countable K} {A : Type} (f : A -> K) (l : list A) (k : K) :
  forall grouped : gmap K Z,
  fold_left (fun grouped a => count_key grouped (f a)) l grouped !! k
  = match length (filter (fun a => f a = k) l) with
    | O => grouped !! k
    | S n => Some (default 0 (grouped !! k) + Z.of_nat (S n))
    end.
Proof.
  induction l as [|a l IH]; intros grouped; [reflexivity|].
  cbn [fold_left]. rewrite IH, filter_cons. unfold count_key.
  destruct (decide (f a = k)) as [->|Hne].
  - rewrite lookup_insert_eq. cbn [length default].
    destruct (length (filter _ l)); unfold Datatypes.id; f_equal; lia.
  - rewrite lookup_insert_ne by exact Hne. reflexivity.
Qed.

(** The number of alerts with a given attribute. *)
Definition count_alerts {K : Type} `{EqDecision K} (f : Alert -> K) (k : K)
    (alerts : list Alert) : Z :=
  Z.of_nat (length (filter (fun a => f a = k) alerts)).

(** X27 — alerts by type and by severity.  Each of the two dicts has an
    entry for exactly the types (severities) that occur among the alerts,
    and the entry is the number of alerts of that type (severity); alerts
    without severity are counted under [None]. *)
Theorem alert_groups_count (alerts : list Alert) :
  (forall ty,
      _group_alerts_by_type alerts !! ty
      = if decide (count_alerts alert_type ty alerts = 0) then None
        else Some (count_alerts alert_type ty alerts))
  /\ (forall sev,
        _group_alerts_by_severity alerts !! sev
        = if decide (count_alerts severity sev alerts = 0) then None
          else Some (count_alerts severity sev alerts)).
Proof.
  unfold _group_alerts_by_type, _group_alerts_by_severity, count_alerts.
  split; intros k; rewrite count_keys_lookup, lookup_empty;
    destruct (length (filter _ alerts)) as [|n].
  - reflexivity.
  - rewrite decide_False by lia. reflexivity.
  - reflexivity.
  - rewrite decide_False by lia. reflexivity.
Qed.

(** *** The summary *)

Lemma round2_bounds (x : Q) : (0 <= x <= 100)%Q -> (0 <= round2 x <= 100)%Q.
Proof.
  destruct x as [n d]. unfold round2, Qle. cbn [Qnum Qden]. intros [H0 H100].
  assert (Hd : 0 < Z.pos d) by lia.
  assert (HN : 0 <= n * 100 <= 10000 * Z.pos d) by lia.
  pose proof (Z.div_mod (n * 100) (Z.pos d) ltac:(lia)) as Hdm.
  pose proof (Z.mod_pos_bound (n * 100) (Z.pos d) Hd) as Hr.
  assert (Hq : 0 <= n * 100 / Z.pos d <= 10000).
  { split; [apply Z.div_pos; lia | apply Z.div_le_upper_bound; lia]. }
  destruct (Z.compare_spec (2 * ((n * 100) mod Z.pos d)) (Z.pos d)) as [He|Hl|Hg].
  - destruct (Z.odd _); simpl; nia.
  - simpl; lia.
  - simpl; nia.
Qed.

Lemma round_half_even_le (num den K : Z) :
  0 < den -> num <= K * den -> round_half_even num den <= K.
Proof.
  intros Hden Hle. unfold round_half_even.
  pose proof (Z.div_mod num den ltac:(lia)) as Hdm.
  pose proof (Z.mod_pos_bound num den Hden) as Hr.
  assert (Hq : num / den <= K) by (apply Z.div_le_upper_bound; lia).
  destruct (Z.compare_spec (2 * (num mod den)) den) as [He|Hl|Hg].
  - destruct (Z.odd _); nia.
  - lia.
  - nia.
Qed.

Lemma round_half_even_ge (num den K : Z) :
  0 < den -> K * den <= num -> K <= round_half_even num den.
Proof.
  intros Hden Hle. unfold round_half_even.
  assert (Hq : K <= num / den) by (apply Z.div_le_lower_bound; lia).
  destruct (2 * (num mod den) ?= den); [destruct (Z.odd _)| |]; lia.
Qed.

(** Rounding to a float does not cross an integer below [2^52], nor
    zero. *)
Lemma float_of_bounds (x : Q) (B : Z) :
  B < 2 ^ 52 -> (0 <= x <= inject_Z B)%Q -> (0 <= float_of x <= inject_Z B)%Q.
Proof.
  destruct x as [n d]. unfold float_of, Qle. cbn [Qnum Qden inject_Z].
  intros HB [H0 HxB]. rewrite Z.mul_1_r in H0, HxB. simpl in H0.
  destruct (Z.eqb_spec n 0) as [->|Hn]; [simpl; lia|].
  assert (Hpos : 0 < n) by lia.
  assert (Hd : 0 < Z.pos d) by lia.
  rewrite (Z.abs_eq n) by lia.
  remember (Z.log2 n - Z.log2 (Z.pos d)) as k eqn:Ek.
  assert (Hk : k <= 52).
  { pose proof (Z.log2_spec (Z.pos d) Hd) as [_ Hdu].
    assert (Hlt : n < 2 ^ (53 + Z.log2 (Z.pos d))).
    { pose proof (Z.log2_nonneg (Z.pos d)).
      replace (53 + Z.log2 (Z.pos d)) with (52 + Z.succ (Z.log2 (Z.pos d))) by lia.
      rewrite Z.pow_add_r by lia. nia. }
    apply Z.log2_lt_pow2 in Hlt; [|exact Hpos]. lia. }
  clear Ek.
  remember (if (if 0 <=? k then Z.pos d * 2 ^ k <=? n else Z.pos d <=? n * 2 ^ (- k))
            then k else k - 1) as p eqn:Ep.
  assert (Hp : p <= 51).
  { subst p. destruct (Z.eq_dec k 52) as [->|Hne].
    - change (0 <=? 52) with true. cbv iota.
      destruct (Z.leb_spec (Z.pos d * 2 ^ 52) n); [nia | lia].
    - destruct (if 0 <=? k then _ else _); lia. }
  clear Ep Hk k.
  set (e := Z.max (p - 52) (-1074)).
  assert (He : e < 0) by (unfold e; lia).
  destruct (Z.leb_spec 0 e) as [|_]; [lia|].
  assert (Hpow : 0 < 2 ^ (- e)) by (apply Z.pow_pos_nonneg; lia).
  cbn [Qnum Qden]. rewrite Z2Pos.id by exact Hpow. rewrite Z.mul_1_r.
  split.
  - apply round_half_even_ge; [exact Hd | nia].
  - apply round_half_even_le; [exact Hd | nia].
Qed.

Lemma rate_bounds (count total_faces : Z) :
  0 <= count <= total_faces -> (0 <= rate count total_faces <= 100)%Q.
Proof.
  intros H. unfold rate. destruct (Z.ltb_spec 0 total_faces) as [Hpos|Hle]; [|lra].
  assert (Ht : (0 < inject_Z total_faces)%Q) by (rewrite <- (Zlt_Qlt 0); exact Hpos).
  assert (Hc : (0 <= inject_Z count <= inject_Z total_faces)%Q)
    by (split; [rewrite <- (Zle_Qle 0) | rewrite <- Zle_Qle]; lia).
  assert (Hdiv : (0 <= inject_Z count / inject_Z total_faces <= inject_Z 1)%Q).
  { split; [apply Qle_shift_div_l | apply Qle_shift_div_r]; try lra.
    change (inject_Z 1) with 1%Q. lra. }
  apply (float_of_bounds _ 1) in Hdiv; [|reflexivity].
  change (inject_Z 1) with 1%Q in Hdiv.
  apply (float_of_bounds _ 100); [reflexivity|].
  change (inject_Z 100) with 100%Q. lra.
Qed.

Lemma sum_column_cases {A : Type} (f : A -> option Z) (ds : list A) : forall acc,
  (Forall (fun d => is_Some (f d)) ds /\ exists n, sum_column (map f ds) acc = Ok n)
  \/ (Exists (fun d => f d = None) ds
      /\ sum_column (map f ds) acc
         = Raise (Exception "unsupported operand type(s) for +: 'int' and 'NoneType'")).
Proof.
  induction ds as [|d ds IH]; intros acc; cbn [map sum_column].
  - left. split; [constructor | eauto].
  - destruct (f d) as [x|] eqn:Hd.
    + destruct (IH (acc + x)) as [[Hall Hn] | [Hex E]].
      * left. split; [constructor; [rewrite Hd; eexists; reflexivity | exact Hall] | exact Hn].
      * right. split; [apply Exists_cons_tl; exact Hex | exact E].
    + right. split; [apply Exists_cons_hd; exact Hd | reflexivity].
Qed.

Lemma compute_summary (env : Env) (period : string) (s s' : t * Log) (d : AnalyticsData) :
  compute env period s = (Ok (Data d), s') ->
  mask_rate (summary d)
  = round2 (rate (total_masks (summary d)) (total_faces (summary d)))
  /\ violation_rate (summary d)
     = round2 (rate (total_violations (summary d)) (total_faces (summary d)))
  /\ Analytics.period d = period
  /\ start_date d = range_start period (now_end env) /\ end_date d = now_end env.
Proof.
  destruct s as [self log]. unfold compute, sbind, lift, modify, ret. simpl.
  destruct (get_db_session env) as [session|e]; [|discriminate].
  destruct (query_detections session _ _) as [ds|e]; [|discriminate].
  destruct (sum_column (map face_count ds) 0) as [tf|e]; [|discriminate].
  destruct (sum_column (map mask_count ds) 0) as [tm|e]; [|discriminate].
  destruct (sum_column (map no_mask_count ds) 0) as [tv|e]; [|discriminate].
  destruct (AnalyticsSpec.camera_statistics_returns session (range_start period (now_end env))
              (now_end env) log) as (cs & log1 & -> & _).
  simpl.
  destruct (AnalyticsSpec.hourly_statistics_returns session (range_start period (now_end env))
              (now_end env) log1) as (hs & log2 & -> & _).
  simpl.
  destruct (query_alerts session _ _) as [al|e]; [|discriminate].
  destruct (close session) as [[]|e]; [|discriminate].
  intros [= <- _]. simpl. repeat split.
Qed.

(** X28 — the rates of the summary.  In every snapshot computed by
    [get_analytics] the two rates are the percentages of masked and of
    unmasked faces among all faces, computed in floats (the quotient of the
    two counts, then its product with 100) and rounded to two decimals.
    With no face in the range they are 0 rather than a division by zero,
    and whenever the stored counts are consistent (between 0 and the
    number of faces) the rate lies between 0 and 100. *)
Theorem summary_rates_are_percentages (env : Env) (period : string) (s s' : t * Log)
    (d : AnalyticsData) :
  cache_lookup env period (fst s) = None ->
  get_analytics env period s = (Ok (Data d), s') ->
  let sm := summary d in
  mask_rate sm = round2 (rate (total_masks sm) (total_faces sm))
  /\ violation_rate sm = round2 (rate (total_violations sm) (total_faces sm))
  /\ (total_faces sm <= 0 -> (mask_rate sm == 0 /\ violation_rate sm == 0)%Q)
  /\ (0 <= total_masks sm <= total_faces sm -> (0 <= mask_rate sm <= 100)%Q)
  /\ (0 <= total_violations sm <= total_faces sm -> (0 <= violation_rate sm <= 100)%Q).
Proof.
  intros Hmiss Hget.
  assert (Hc : compute env period s = (Ok (Data d), s')).
  { unfold get_analytics, try_catch in Hget. rewrite Hmiss in Hget.
    destruct (AnalyticsSpec.compute_cases env period s) as [(d0 & l0 & E) | (e & l0 & E)];
      rewrite E in Hget |- *.
    - exact Hget.
    - unfold sbind, modify, ret in Hget. discriminate. }
  destruct (compute_summary env period s s' d Hc) as (Hm & Hv & _).
  cbn zeta. rewrite Hm, Hv.
  split; [reflexivity|]. split; [reflexivity|]. split; [|split].
  - intros Hle. unfold rate.
    destruct (Z.ltb_spec 0 (total_faces (summary d))) as [Hpos|_]; [lia|].
    split; reflexivity.
  - intros H. apply round2_bounds, rate_bounds, H.
  - intros H. apply round2_bounds, rate_bounds, H.
Qed.

(** *** Failures inside the computation *)

Definition counted (d : Detection) : Prop :=
  is_Some (face_count d) /\ is_Some (mask_count d) /\ is_Some (no_mask_count d).

Lemma sum_column_counted (ds : list Detection) :
  Forall counted ds ->
  (exists n, sum_column (map face_count ds) 0 = Ok n)
  /\ (exists n, sum_column (map mask_count ds) 0 = Ok n)
  /\ (exists n, sum_column (map no_mask_count ds) 0 = Ok n).
Proof.
  intros Hall.
  assert (H : forall f : Detection -> option Z,
             Forall (fun d => is_Some (f d)) ds -> exists n, sum_column (map f ds) 0 = Ok n).
  { intros f Hf.
    destruct (sum_column_cases f ds 0) as [[_ Hn] | [Hex _]]; [exact Hn|].
    exfalso. clear Hall. induction Hf as [|d ds' [v Hv] _ IH]; inversion Hex; subst; [congruence | auto]. }
  split; [|split]; apply H; eapply Forall_impl; try exact Hall;
    intros d (H1 & H2 & H3); assumption.
Qed.

(** X29 — a failed camera query is cached.  When the grouped query of
    [_get_camera_statistics] raises while the rest of the database
    answers, [get_analytics] still answers a snapshot: the summary is
    complete, [camera_statistics] is empty and one error is logged.  The
    incomplete snapshot is stored like any other, so for the following
    [cache_ttl] seconds every call answers it again without asking the
    database. *)
Theorem failed_camera_query_is_cached (env : Env) (period : string) (s : t * Log)
    (session : Session) (ds : list Detection) (al : list Alert) (e : exn) :
  cache_lookup env period (fst s) = None ->
  get_db_session env = Ok session ->
  query_detections session (range_start period (now_end env)) (now_end env) = Ok ds ->
  Forall counted ds ->
  query_by_camera session (range_start period (now_end env)) (now_end env) = Raise e ->
  query_alerts session (range_start period (now_end env)) (now_end env) = Ok al ->
  close session = Ok tt ->
  exists d s',
    get_analytics env period s = (Ok (Data d), s')
    /\ camera_statistics d = []
    /\ total_detections (summary d) = Z.of_nat (length ds)
    /\ In (mkLog ERROR ("Error getting camera statistics: " +:+ str_exn e)) (snd s')
    /\ cache (fst s') !! cache_key period = Some (d, now_store env)
    /\ forall env',
         0 <= cache_ttl (fst s) <= 86400 ->
         0 <= now_check env' - now_store env < cache_ttl (fst s) * 1000000 ->
         get_analytics env' period s' = (Ok (Data d), s').
Proof.
  intros Hmiss Hsession Hds Hcounted Hcam Hal Hclose.
  destruct (sum_column_counted ds Hcounted) as ((tf & Hf) & (tm & Hm) & (tv & Hv)).
  destruct s as [self log].
  destruct (AnalyticsSpec.hourly_statistics_returns session (range_start period (now_end env))
              (now_end env)
              (logger_error ("Error getting camera statistics: " +:+ str_exn e) log))
    as (hs & log2 & Hh & _).
  assert (Hlog2 : In (mkLog ERROR ("Error getting camera statistics: " +:+ str_exn e)) log2).
  { revert Hh. unfold _get_hourly_statistics, try_catch, sbind, lift, modify, ret.
    destruct (query_by_hour session _ _) as [rows|e1];
      intros [= _ <-]; unfold logger_error; rewrite ?in_app_iff; simpl; auto. }
  assert (E : compute env period (self, log) =
              (Ok (Data (mkData period (range_start period (now_end env)) (now_end env)
                           (mkSummary (Z.of_nat (length ds)) tf tm tv
                                      (round2 (rate tm tf)) (round2 (rate tv tf)))
                           [] hs
                           (mkAlertsInfo (Z.of_nat (length al)) (_group_alerts_by_type al)
                                         (_group_alerts_by_severity al)))),
               (mkEngine (<[cache_key period :=
                              (mkData period (range_start period (now_end env)) (now_end env)
                                 (mkSummary (Z.of_nat (length ds)) tf tm tv
                                            (round2 (rate tm tf)) (round2 (rate tv tf)))
                                 [] hs
                                 (mkAlertsInfo (Z.of_nat (length al)) (_group_alerts_by_type al)
                                               (_group_alerts_by_severity al)),
                               now_store env)]> (cache self))
                         (cache_ttl self), log2))).
  { unfold compute, sbind, lift, modify, ret. cbn [fst snd].
    rewrite Hsession, Hds, Hf, Hm, Hv.
    unfold _get_camera_statistics, try_catch, sbind, lift, modify, ret. rewrite Hcam.
    cbn [fst snd]. rewrite Hh, Hal, Hclose. reflexivity. }
  eexists _, _. split.
  { unfold get_analytics, try_catch. cbn [fst] in Hmiss |- *. rewrite Hmiss, E. reflexivity. }
  split; [reflexivity|]. split; [reflexivity|]. split; [exact Hlog2|].
  split; [apply lookup_insert_eq|].
  intros env' Httl Hage.
  apply (AnalyticsSpec.get_analytics_fresh env' period _ _ (now_store env));
    [apply lookup_insert_eq | exact Httl | exact Hage].
Qed.

(** X30 — a detection with a missing count.  The three count columns are
    nullable.  When one detection of the queried range has no value in one
    of them, the sums of the summary cannot be formed: on a cache miss
    [get_analytics] answers [{}] for the whole period, logs the
    [TypeError] and stores nothing. *)
Theorem missing_count_empties_the_answer (env : Env) (period : string) (s : t * Log)
    (session : Session) (ds : list Detection) :
  cache_lookup env period (fst s) = None ->
  get_db_session env = Ok session ->
  query_detections session (range_start period (now_end env)) (now_end env) = Ok ds ->
  Exists (fun d => ~ counted d) ds ->
  get_analytics env period s
  = (Ok EmptyDict,
     (fst s,
      logger_error ("Error getting analytics: "
                    +:+ "unsupported operand type(s) for +: 'int' and 'NoneType'") (snd s))).
Proof.
  intros Hmiss Hsession Hds Hex. destruct s as [self log]. cbn [fst snd] in *.
  assert (Hsum : forall f : Detection -> option Z,
             (Forall (fun d => is_Some (f d)) ds /\ exists n, sum_column (map f ds) 0 = Ok n)
             \/ sum_column (map f ds) 0
                = Raise (Exception "unsupported operand type(s) for +: 'int' and 'NoneType'")).
  { intros f. destruct (sum_column_cases f ds 0) as [H | [_ E]]; [left; exact H | right; exact E]. }
  unfold get_analytics, try_catch. cbn [fst]. rewrite Hmiss.
  unfold compute, sbind, lift, modify, ret. cbn [fst snd]. rewrite Hsession, Hds.
  destruct (Hsum face_count) as [[Hf (tf & ->)] | ->]; [|reflexivity].
  destruct (Hsum mask_count) as [[Hm (tm & ->)] | ->]; [|reflexivity].
  destruct (Hsum no_mask_count) as [[Hv (tv & ->)] | ->]; [|reflexivity].
  exfalso. apply Exists_exists in Hex. destruct Hex as (d & Hin & Hnot).
  rewrite Forall_forall in Hf, Hm, Hv. apply Hnot.
  split; [apply Hf | split; [apply Hm | apply Hv]]; exact Hin.
Qed.

Import AnalyticsSpec.

(** A database whose query by hour answers the afternoon before the
    morning. *)
Definition two_hours : list (GroupRow Z) :=
  [mkRow 14 3 (Some 6) (Some 4) (Some 2); mkRow 9 1 (Some 2) (Some 2) (Some 0)].

Definition session_hours : Session :=
  mkSession (fun _ _ => Ok []) (fun _ _ => Ok []) (Ok []) (fun _ _ => Ok two_hours)
            (fun _ _ => Ok []) (Ok tt).

(** The statement at the two rows: hour 9 comes first. *)
Lemma hourly_breakdown_ascending_witness :
  exists l,
    _get_hourly_statistics session_hours 0 0 [] = (Ok l, [])
    /\ Sorted hour_le l
    /\ Permutation l (map (stat_of_row "") two_hours).
Proof.
  destruct (hourly_breakdown_ascending session_hours 0 0 []) as [H _].
  apply H. reflexivity.
Defined.

(** A detection of 160 faces, 23 of them masked and 49 unmasked. *)
Definition crowd : Detection :=
  mkDetection "camera_1" 500 (Some 160) (Some 23) (Some 49) None.

(** The statement at that detection: the float product [23 / 160 * 100]
    lies just below 14.375 and is rounded down, [49 / 160 * 100] just above
    30.625 and is rounded up. *)
Lemma summary_rates_are_percentages_witness :
  exists d s',
    get_analytics (env_at 1000 [crowd]) "today" (init, []) = (Ok (Data d), s')
    /\ mask_rate (summary d) = 1437 # 100
    /\ violation_rate (summary d) = 3063 # 100
    /\ (0 <= mask_rate (summary d) <= 100)%Q.
Proof.
  assert (E : exists d s',
             get_analytics (env_at 1000 [crowd]) "today" (init, []) = (Ok (Data d), s')
             /\ total_faces (summary d) = 160 /\ total_masks (summary d) = 23
             /\ total_violations (summary d) = 49)
    by (eexists _, _; split; [vm_compute; reflexivity | repeat split]).
  destruct E as (d & s' & E & Hf & Hm & Hv).
  destruct (summary_rates_are_percentages (env_at 1000 [crowd]) "today" (init, []) s' d
              eq_refl E) as (Hmask & Hviolation & _ & Hbound & _).
  cbn zeta in Hmask, Hviolation, Hbound.
  exists d, s'. split; [exact E|].
  split; [rewrite Hmask, Hm, Hf; vm_compute; reflexivity|].
  split; [rewrite Hviolation, Hv, Hf; vm_compute; reflexivity|].
  apply Hbound. rewrite Hm, Hf. lia.
Defined.

(** The statement at that database: the snapshot without cameras is
    served again a minute later, by a database that works. *)
Lemma failed_camera_query_is_cached_witness :
  exists d s',
    get_analytics (env_camera_down 1000) "today" (init, []) = (Ok (Data d), s')
    /\ camera_statistics d = []
    /\ get_analytics (env_at 1060 [one_detection]) "today" s' = (Ok (Data d), s').
Proof.
  destruct (failed_camera_query_is_cached (env_camera_down 1000) "today" (init, [])
              session_camera_down [one_detection] [] (Exception "no such column"))
    as (d & s' & E & Hc & _ & _ & _ & Hagain); try reflexivity.
  - repeat constructor; eexists; reflexivity.
  - exists d, s'. split; [exact E|]. split; [exact Hc|].
    apply Hagain; simpl; lia.
Defined.

(** A detection stored without its number of faces. *)
Definition uncounted_detection : Detection :=
  mkDetection "camera_1" 500 None (Some 1) (Some 1) None.

(** The statement at a range holding one such detection. *)
Lemma missing_count_empties_the_answer_witness :
  get_analytics (env_at 1000 [one_detection; uncounted_detection]) "week" (init, [])
  = (Ok EmptyDict,
     (init,
      [mkLog ERROR ("Error getting analytics: "
                    +:+ "unsupported operand type(s) for +: 'int' and 'NoneType'")])).
Proof.
  apply (missing_count_empties_the_answer (env_at 1000 [one_detection; uncounted_detection])
           "week" (init, []) (session_with [one_detection; uncounted_detection])
           [one_detection; uncounted_detection]); try reflexivity.
  apply Exists_cons_tl, Exists_cons_hd. intros ([x Hx] & _). discriminate.
Defined.

End AnalyticsFacts.
